(** * Portfolio front end: allocation, ledger form and dashboard logic

    A shallow embedding of the decision logic of the React pages
    (AllocationPage, TransactionsPage, DashboardPage, HoldingsPage) and of
    [utils/format.ts].  JavaScript numbers are IEEE-754 binary64 values and
    are modelled with the executable specification floats of the standard
    library; the React state of a page is a record that every handler
    threads explicitly; a request handed to [api.*] is a value of an
    inductive type, and what the server answers is an argument of the
    continuation. *)

From Stdlib Require Import ZArith Lia Bool List String Ascii.
From Stdlib Require Import Floats.SpecFloat.
From stdpp Require Import base option list gmap strings pretty.

Local Open Scope Z_scope.

(** ** JavaScript numbers *)

Module Num.

Definition number := spec_float.

Definition prec : Z := 53.
Definition emax : Z := 1024.

Definition add : number -> number -> number := SFadd prec emax.
Definition sub : number -> number -> number := SFsub prec emax.
Definition mul : number -> number -> number := SFmul prec emax.
Definition div : number -> number -> number := SFdiv prec emax.
Definition abs : number -> number := SFabs.

Definition ltb : number -> number -> bool := SFltb.
Definition leb : number -> number -> bool := SFleb.
Definition gtb (x y : number) : bool := SFltb y x.
Definition geb (x y : number) : bool := SFleb y x.

(** The double nearest to the integer [z] (exact below 2^53). *)
Definition of_Z (z : Z) : number := binary_normalize prec emax z 0 false.

(** The double nearest to [n / d] for [0 <= n], [0 < d], with the sign
    [neg]: what reading a decimal literal produces. *)
Definition of_ratio (neg : bool) (n d : Z) : number :=
  match n with
  | Z0 => S754_zero neg
  | _ =>
      let '(m, e, l) := SFdiv_core_binary prec emax n 0 d 0 in
      binary_round_aux prec emax neg m e l
  end.

Definition zero : number := S754_zero false.
Definition hundred : number := of_Z 100.

Definition isNaN (x : number) : bool :=
  match x with S754_nan => true | _ => false end.

(** [Number.isFinite]. *)
Definition isFinite (x : number) : bool :=
  match x with
  | S754_zero _ | S754_finite _ _ _ => true
  | S754_infinity _ | S754_nan => false
  end.

(** [!x] on a number: true for +0, -0 and NaN. *)
Definition falsy (x : number) : bool :=
  match x with
  | S754_zero _ | S754_nan => true
  | _ => false
  end.

(** [Math.max(a, b)] (NaN is contagious; the sign of zero is ignored
    by every caller below). *)
Definition max (x y : number) : number :=
  if isNaN x || isNaN y then S754_nan
  else if ltb x y then y else x.

(** The integer n for which n / 10^digits - |x| is as close to zero as
    possible, the larger one on a tie (step 10.a of
    Number.prototype.toFixed), for a finite x = m * 2^e. *)
Definition toFixed_int (digits : Z) (m : positive) (e : Z) : Z :=
  let scaled := Zpos m * 10 ^ digits in
  match e with
  | Z0 => scaled
  | Zpos p => scaled * 2 ^ Zpos p
  | Zneg p => (2 * scaled + 2 ^ Zpos p) / 2 ^ (Zpos p + 1)
  end.

(** [Number(x.toFixed(digits))]: the decimal string is read back as a
    number.  NaN and the infinities print as their names; from 10^21 on
    toFixed falls back to ToString, which reads back as the same
    number; -0 prints without a sign, while a negative number that
    rounds to zero keeps its minus sign. *)
Definition Number_toFixed (digits : Z) (x : number) : number :=
  match x with
  | S754_nan => S754_nan
  | S754_infinity s => S754_infinity s
  | S754_zero _ => S754_zero false
  | S754_finite s m e =>
      if geb (abs x) (of_Z (10 ^ 21)) then x
      else of_ratio s (toFixed_int digits m e) (10 ^ digits)
  end.

End Num.

Abbreviation number := Num.number.

#[export] Instance spec_float_eq_dec : EqDecision spec_float.
Proof. solve_decision. Defined.

(** ** What an awaited [api.*] call yields: the body, or the thrown error *)

Inductive Result (A : Type) : Type :=
  | Ok (a : A)
  | Err (e : string).
Arguments Ok {A} a.
Arguments Err {A} e.

(** [Array.prototype.sort] is stable; the comparator orders [a] before [b]
    when it answers a negative number.  Stable insertion from the right
    yields the order every stable sort yields for a consistent
    comparator. *)
Section Sort.
Context {A : Type} (cmp : A -> A -> Z).

Fixpoint sort_insert (x : A) (l : list A) : list A :=
  match l with
  | [] => [x]
  | y :: l' => if cmp x y <=? 0 then x :: y :: l' else y :: sort_insert x l'
  end.

Definition sortBy (l : list A) : list A := foldr sort_insert [] l.
End Sort.

(** String collation ([String.prototype.localeCompare] with the locale
    and sensitivity a page passes) is the browser's; the pages only need
    its sign. *)
Inductive Collation :=
  | ZhHansCN_base     (* "zh-Hans-CN", { sensitivity: "base" } *)
  | ZhHansCN          (* "zh-Hans-CN" *)
  | EnUS_base.        (* "en-US", { sensitivity: "base" } *)

Class Collator := localeCompare : Collation -> string -> string -> Z.

(** So is [Date.prototype.toLocaleDateString("zh-CN", { month: "2-digit",
    day: "2-digit" })] of the date with a given time value. *)
Class DateLocale := toLocaleMonthDay : Z -> string.

(** [String.prototype.trim] and [toUpperCase] are the browser's too. *)
Class StringBuiltins := {
  trim : string -> string;
  toUpperCase : string -> string
}.

(** ** AllocationPage *)

Module Allocation.

(** [AllocationNode] of types.ts.  [target_weight] is a decimal string
    in the JSON payload; every read in the page is
    [Number(node.target_weight)], and the record holds that number. *)
Record AllocationNode := mkNode {
  id : Z;
  parent_id : option Z;
  name : string;
  target_weight : number;
  order_index : Z
}.

(** [Instrument] of types.ts (the fields the page reads). *)
Record Instrument := mkInstrument {
  instrument_id : Z;
  symbol : string;
  instrument_name : string;
  allocation_node_id : option Z
}.

#[export] Instance AllocationNode_eq_dec : EqDecision AllocationNode.
Proof. solve_decision. Defined.

#[export] Instance Instrument_eq_dec : EqDecision Instrument.
Proof. solve_decision. Defined.

(** antd's [message.error] / [message.warning] toasts. *)
Inductive Toast :=
  | WeightSumNotHundred (total : number)
      (* message.error: 同层节点权重之和必须为 100%，当前为 total.toFixed(3)% *)
  | SelectLeafAndInstrument.
      (* message.warning: 请先选择一个无子节点的层级并指定标的 *)

Inductive MessageText :=
  | NoMessage
  | WeightsUpdated        (* 同层节点权重已更新 *)
  | InstrumentAdded.      (* 持仓标的已添加到当前节点 *)

(** The React state of the page that the handlers below read or write,
    with the toasts raised so far. *)
Record PageState := mkPage {
  nodes : list AllocationNode;
  instruments : list Instrument;
  error : string;
  messageText : MessageText;
  loading : bool;
  selectedNodeId : option Z;
  nodeWeightDrafts : gmap Z number;
  leafInstrumentDraftId : option Z;
  instrumentSavingId : option Z;
  toasts : list Toast
}.

(** One entry of the batch payload: [{ id, target_weight }]. *)
Record WeightItem := mkItem { item_id : Z; item_target_weight : number }.

(** What [load] receives from the GET endpoints. *)
Record Snapshot := mkSnapshot {
  snap_nodes : list AllocationNode;
  snap_instruments : list Instrument
}.

(** The REST endpoints the handlers call, over a server state [S]. *)
Class Backend (S : Type) := {
  get_all : S -> Result Snapshot;
  patch_weights_batch : option Z -> list WeightItem -> S -> Result unit * S;
  patch_instrument : Z -> option Z -> S -> Result unit * S
}.

(** *** utils/format.ts *)

(** [toNumber] of format.ts on a number: null unless finite. *)
Definition toNumber (value : number) : option number :=
  if Num.isFinite value then Some value else None.

Definition sumDecimals (values : list number) : number :=
  foldl (fun acc current => Num.add acc (default Num.zero (toNumber current)))
        Num.zero values.

Definition tolerance : number := Num.of_ratio false 1 10000.

Definition isHundred (value : number) : bool :=
  Num.leb (Num.abs (Num.sub value Num.hundred)) tolerance.

(** *** Derived values of the page *)

(** [new Map(nodes.map((item) => [item.id, item]))]: a later entry
    replaces an earlier one with the same key. *)
Definition nodeMap (nodes : list AllocationNode) : gmap Z AllocationNode :=
  foldl (fun m item => <[id item := item]> m) ∅ nodes.

Section Collated.
Context `{Collator}.

Definition byNameThenId (a b : AllocationNode) : Z :=
  let c := localeCompare ZhHansCN_base (name a) (name b) in
  if c =? 0 then id a - id b else c.

Definition getSiblingNodes (nodes : list AllocationNode)
    (parentId : option Z) : list AllocationNode :=
  sortBy byNameThenId
    (filter (fun item => parent_id item = parentId) nodes).

(** [childrenMap]: nodes grouped under [parent_id ?? null], each group
    sorted. *)
Definition childrenMap (nodes : list AllocationNode)
    : gmap (option Z) (list AllocationNode) :=
  sortBy byNameThenId <$>
    foldl (fun m node =>
             let key := parent_id node in
             <[key := default [] (m !! key) ++ [node]]> m)
          ∅ nodes.
End Collated.

Definition parentSet (nodes : list AllocationNode) : gset Z :=
  foldl (fun s node =>
           match parent_id node with
           | Some p => {[p]} ∪ s
           | None => s
           end) ∅ nodes.

Definition leafNodes (nodes : list AllocationNode) : list AllocationNode :=
  filter (fun node => id node ∉ parentSet nodes) nodes.

(** [selectedNodeId ? nodeMap.get(selectedNodeId) ?? null : null]; the
    test is JavaScript truthiness, so the id 0 selects nothing. *)
Definition selectedNode (st : PageState) : option AllocationNode :=
  match selectedNodeId st with
  | Some i => if i =? 0 then None else nodeMap (nodes st) !! i
  | None => None
  end.

Section Handlers.
Context `{Collator} {S : Type} `{Backend S}.

Definition selectedNodeHasChildren (st : PageState) : bool :=
  match selectedNode st with
  | Some node =>
      match childrenMap (nodes st) !! Some (id node) with
      | Some l => (0 <? length l)%nat
      | None => false
      end
  | None => false
  end.

Definition selectedNodeCanBindInstruments (st : PageState) : bool :=
  match selectedNode st with
  | Some _ => negb (selectedNodeHasChildren st)
  | None => false
  end.

(** [load]: the GET endpoints answer together or the first failure is
    shown; [loading] is cleared either way. *)
Definition load (srv : S) (st : PageState) : PageState :=
  match get_all srv with
  | Ok snap =>
      mkPage (snap_nodes snap) (snap_instruments snap) "" (messageText st)
             false (selectedNodeId st) (nodeWeightDrafts st)
             (leafInstrumentDraftId st) (instrumentSavingId st) (toasts st)
  | Err e =>
      mkPage (nodes st) (instruments st) e (messageText st)
             false (selectedNodeId st) (nodeWeightDrafts st)
             (leafInstrumentDraftId st) (instrumentSavingId st) (toasts st)
  end.

Definition payloadItems (st : PageState) (siblings : list AllocationNode)
    : list WeightItem :=
  map (fun item =>
         mkItem (id item)
                (default (target_weight item) (nodeWeightDrafts st !! id item)))
      siblings.

(** The batch the save button proposes for the children of
    [parentId], and its total as the handler computes it. *)
Definition proposedWeights (st : PageState) (parentId : option Z)
    : list WeightItem :=
  payloadItems st (getSiblingNodes (nodes st) parentId).

Definition proposedTotal (st : PageState) (parentId : option Z) : number :=
  sumDecimals (map item_target_weight (proposedWeights st parentId)).

Definition saveNodeSiblingWeights (parentId : option Z)
    (st : PageState) (srv : S) : PageState * S :=
  let siblings := getSiblingNodes (nodes st) parentId in
  if (length siblings =? 0)%nat then (st, srv)
  else
    let items := payloadItems st siblings in
    let total := sumDecimals (map item_target_weight items) in
    if negb (isHundred total) then
      (mkPage (nodes st) (instruments st) (error st) (messageText st)
              (loading st) (selectedNodeId st) (nodeWeightDrafts st)
              (leafInstrumentDraftId st) (instrumentSavingId st)
              (toasts st ++ [WeightSumNotHundred total]),
       srv)
    else
      match patch_weights_batch parentId items srv with
      | (Ok _, srv') =>
          let next :=
            foldl (fun m item => delete (id item) m)
                  (nodeWeightDrafts st) siblings in
          (load srv'
             (mkPage (nodes st) (instruments st) (error st) WeightsUpdated
                     (loading st) (selectedNodeId st) next
                     (leafInstrumentDraftId st) (instrumentSavingId st)
                     (toasts st)),
           srv')
      | (Err e, srv') =>
          (mkPage (nodes st) (instruments st) e (messageText st)
                  (loading st) (selectedNodeId st) (nodeWeightDrafts st)
                  (leafInstrumentDraftId st) (instrumentSavingId st)
                  (toasts st),
           srv')
      end.

Definition bindInstrumentToNode (st : PageState) (srv : S)
    : PageState * S :=
  match selectedNode st, selectedNodeCanBindInstruments st,
        leafInstrumentDraftId st with
  | Some node, true, Some draft =>
      match patch_instrument draft (Some (id node)) srv with
      | (Ok _, srv') =>
          let st' := load srv'
            (mkPage (nodes st) (instruments st) (error st) InstrumentAdded
                    (loading st) (selectedNodeId st) (nodeWeightDrafts st)
                    None (Some draft) (toasts st)) in
          (mkPage (nodes st') (instruments st') (error st')
                  (messageText st') (loading st') (selectedNodeId st')
                  (nodeWeightDrafts st') (leafInstrumentDraftId st')
                  None (toasts st'),
           srv')
      | (Err e, srv') =>
          (mkPage (nodes st) (instruments st) e (messageText st)
                  (loading st) (selectedNodeId st) (nodeWeightDrafts st)
                  (leafInstrumentDraftId st) None (toasts st),
           srv')
      end
  | _, _, _ =>
      (mkPage (nodes st) (instruments st) (error st) (messageText st)
              (loading st) (selectedNodeId st) (nodeWeightDrafts st)
              (leafInstrumentDraftId st) (instrumentSavingId st)
              (toasts st ++ [SelectLeafAndInstrument]),
       srv)
  end.
End Handlers.

(** *** nodeGlobalWeightMap *)

(** [calc] with its memo [map] threaded through.  The recursion follows
    parent pointers; [stack] bounds its depth, and a chain that does not
    end within it yields [None] (the call stack overflows). *)
Fixpoint calc (stack : nat) (nm : gmap Z AllocationNode)
    (node : AllocationNode) (map : gmap Z number)
    : option (number * gmap Z number) :=
  match stack with
  | O => None
  | Datatypes.S stack' =>
      match map !! id node with
      | Some w => Some (w, map)
      | None =>
          let currentWeight := target_weight node in
          match parent_id node with
          | None => Some (currentWeight, <[id node := currentWeight]> map)
          | Some pid =>
              match nm !! pid with
              | None => Some (Num.zero, <[id node := Num.zero]> map)
              | Some parent =>
                  match calc stack' nm parent map with
                  | None => None
                  | Some (parentWeight, map') =>
                      let globalWeight :=
                        Num.div (Num.mul parentWeight currentWeight)
                                Num.hundred in
                      Some (globalWeight, <[id node := globalWeight]> map')
                  end
              end
          end
      end
  end.

(** [nodes.forEach((node) => { calc(node); })] over one shared memo.  A
    chain of distinct nodes is no longer than [nodes], so that depth is
    enough for every forest. *)
Definition nodeGlobalWeightMap (nodes : list AllocationNode)
    : option (gmap Z number) :=
  foldl (fun acc node =>
           match acc with
           | None => None
           | Some map => snd <$> calc (length nodes) (nodeMap nodes) node map
           end)
        (Some ∅) nodes.

(** The same recursion without the memo. *)
Fixpoint globalWeight (stack : nat) (nm : gmap Z AllocationNode)
    (node : AllocationNode) : option number :=
  match stack with
  | O => None
  | Datatypes.S stack' =>
      match parent_id node with
      | None => Some (target_weight node)
      | Some pid =>
          match nm !! pid with
          | None => Some Num.zero
          | Some parent =>
              match globalWeight stack' nm parent with
              | None => None
              | Some parentWeight =>
                  Some (Num.div (Num.mul parentWeight (target_weight node))
                                Num.hundred)
              end
          end
      end
  end.

(** *** Well-formed trees *)

(** Following parent pointers from [node] ends, at a root or at a
    dangling parent id, within [n] steps. *)
Fixpoint chainEnds (n : nat) (nm : gmap Z AllocationNode)
    (node : AllocationNode) : bool :=
  match n with
  | O => false
  | Datatypes.S n' =>
      match parent_id node with
      | None => true
      | Some pid =>
          match nm !! pid with
          | None => true
          | Some parent => chainEnds n' nm parent
          end
      end
  end.

(** The memo only ever holds global weights. *)
Definition memoSound (nm : gmap Z AllocationNode) (memo : gmap Z number)
    : Prop :=
  forall k w, memo !! k = Some w ->
    exists n f, nm !! k = Some n /\ globalWeight f nm n = Some w.

Definition keysById (nm : gmap Z AllocationNode) : Prop :=
  forall k n, nm !! k = Some n -> id n = k.

(** An allocation tree: node ids are distinct and no parent chain runs
    into a cycle. *)
Definition isForest (nodes : list AllocationNode) : bool :=
  bool_decide (NoDup (map id nodes))
  && forallb (chainEnds (length nodes) (nodeMap nodes)) nodes.

End Allocation.

(** ** The allocation endpoints of the backend *)

Module AllocationServer.
Import Allocation.

(** Modelled from the spec: the REST backend (the FastAPI application
    under /backend) is not among the sources; its store holds the
    allocation nodes and the instruments. *)
Record ServerState := mkServer {
  srv_nodes : list AllocationNode;
  srv_instruments : list Instrument
}.

Definition hasChildren (nodes : list AllocationNode) (nodeId : Z) : bool :=
  existsb (fun n => bool_decide (parent_id n = Some nodeId)) nodes.

Definition proposedWeight (items : list WeightItem) (node : AllocationNode)
    : number :=
  match List.find (fun it => item_id it =? id node) items with
  | Some it => item_target_weight it
  | None => target_weight node
  end.

(** Modelled from the spec: section 4.3, sibling weight batch update:
    "given a parent id and the full set of its children with proposed
    weights, reject the entire batch if the sum deviates from 100 by
    more than tolerance; otherwise apply all weights atomically". *)
Definition batchUpdateWeights (parentId : option Z) (items : list WeightItem)
    (srv : ServerState) : Result unit * ServerState :=
  if isHundred (sumDecimals (map item_target_weight items)) then
    (Ok tt,
     mkServer
       (map (fun n =>
               if bool_decide (parent_id n = parentId)
               then mkNode (id n) (parent_id n) (name n)
                           (proposedWeight items n) (order_index n)
               else n)
            (srv_nodes srv))
       (srv_instruments srv))
  else (Err "weights must sum to 100", srv).

(** Modelled from the spec: section 4.3, leaf binding: "binding to a
    node currently holding children is rejected — only true leaves
    accept bindings.  Rebinding simply overwrites the previous binding
    (no history)"; unknown instrument or node ids are referential
    errors (section 7). *)
Definition overwriteBinding (instrumentId : Z) (nodeId : option Z)
    (i : Instrument) : Instrument :=
  if instrument_id i =? instrumentId
  then mkInstrument (instrument_id i) (symbol i) (instrument_name i) nodeId
  else i.

Definition patchInstrument (instrumentId : Z) (nodeId : option Z)
    (srv : ServerState) : Result unit * ServerState :=
  if negb (existsb (fun i => instrument_id i =? instrumentId)
                   (srv_instruments srv))
  then (Err "unknown instrument", srv)
  else
    let overwrite :=
      mkServer (srv_nodes srv)
        (map (overwriteBinding instrumentId nodeId) (srv_instruments srv)) in
    match nodeId with
    | None => (Ok tt, overwrite)
    | Some n =>
        if negb (existsb (fun node => id node =? n) (srv_nodes srv))
        then (Err "unknown allocation node", srv)
        else if hasChildren (srv_nodes srv) n
        then (Err "only leaf nodes accept bindings", srv)
        else (Ok tt, overwrite)
    end.

(** Modelled from the spec: section 6, the GET collections return the
    committed store. *)
(** The bindings the store holds, as (instrument id, node id) pairs:
    one per instrument whose [allocation_node_id] is not null. *)
Definition bindings (instruments : list Instrument) : list (Z * Z) :=
  omap (fun i => pair (instrument_id i) <$> allocation_node_id i) instruments.

#[export] Instance specBackend : Backend ServerState := {
  get_all srv := Ok (mkSnapshot (srv_nodes srv) (srv_instruments srv));
  patch_weights_batch := batchUpdateWeights;
  patch_instrument := patchInstrument
}.

End AllocationServer.

(** ** Dates: the parts of [Date] the transactions page uses *)

Module JSDate.

(** A time value is a number of milliseconds since the epoch; [None] is
    the NaN of an invalid date. *)
Definition msPerDay : Z := 86400000.
Definition msPerHour : Z := 3600000.
Definition msPerMinute : Z := 60000.
Definition msPerSecond : Z := 1000.

Definition Day (t : Z) : Z := t / msPerDay.
Definition TimeWithinDay (t : Z) : Z := t mod msPerDay.

Definition DaysInYear (y : Z) : Z :=
  if negb (y mod 4 =? 0) then 365
  else if negb (y mod 100 =? 0) then 366
  else if negb (y mod 400 =? 0) then 365
  else 366.

Definition DayFromYear (y : Z) : Z :=
  365 * (y - 1970) + (y - 1969) / 4 - (y - 1901) / 100 + (y - 1601) / 400.

(** The largest year whose first day is not after day [d]: the estimate
    from the mean year length is off by at most one. *)
Definition YearFromDay (d : Z) : Z :=
  let y := 1970 + (400 * d) / 146097 in
  if DayFromYear (y + 1) <=? d then y + 1
  else if d <? DayFromYear y then y - 1
  else y.

Definition YearFromTime (t : Z) : Z := YearFromDay (Day t).

Definition leapDays (y : Z) : Z := if DaysInYear y =? 366 then 1 else 0.

Definition InLeapYear (t : Z) : Z := leapDays (YearFromTime t).

Definition DayWithinYear (t : Z) : Z := Day t - DayFromYear (YearFromTime t).

Definition MonthFromTime (t : Z) : Z :=
  let d := DayWithinYear t in
  let l := InLeapYear t in
  if d <? 31 then 0
  else if d <? 59 + l then 1
  else if d <? 90 + l then 2
  else if d <? 120 + l then 3
  else if d <? 151 + l then 4
  else if d <? 181 + l then 5
  else if d <? 212 + l then 6
  else if d <? 243 + l then 7
  else if d <? 273 + l then 8
  else if d <? 304 + l then 9
  else if d <? 334 + l then 10
  else 11.

(** Days of the year before month [mn] (0 is January). *)
Definition daysBeforeMonth (mn l : Z) : Z :=
  match mn with
  | 0 => 0
  | 1 => 31
  | 2 => 59 + l
  | 3 => 90 + l
  | 4 => 120 + l
  | 5 => 151 + l
  | 6 => 181 + l
  | 7 => 212 + l
  | 8 => 243 + l
  | 9 => 273 + l
  | 10 => 304 + l
  | _ => 334 + l
  end.

Definition DateFromTime (t : Z) : Z :=
  DayWithinYear t - daysBeforeMonth (MonthFromTime t) (InLeapYear t) + 1.

Definition HourFromTime (t : Z) : Z := (t / msPerHour) mod 24.
Definition MinFromTime (t : Z) : Z := (t / msPerMinute) mod 60.
Definition SecFromTime (t : Z) : Z := (t / msPerSecond) mod 60.
Definition msFromTime (t : Z) : Z := t mod msPerSecond.

Definition MakeTime (hour min sec ms : Z) : Z :=
  hour * msPerHour + min * msPerMinute + sec * msPerSecond + ms.

(** [MakeDay]: months beyond 0..11 carry into the year, and the day of
    the month counts on from the first of that month. *)
Definition MakeDay (year month date : Z) : Z :=
  let ym := year + month / 12 in
  let mn := month mod 12 in
  DayFromYear ym + daysBeforeMonth mn (leapDays ym) + date - 1.

Definition MakeDate (day time : Z) : Z := day * msPerDay + time.

Definition TimeClip (t : Z) : option Z :=
  if Z.abs t <=? 8640000000000000 then Some t else None.

(** [Date.UTC(year, month, date, hours, minutes, seconds)]; a year from
    0 to 99 means 1900 + year. *)
Definition Date_UTC (year month date hours minutes seconds : Z) : option Z :=
  let yr := if (0 <=? year) && (year <=? 99) then 1900 + year else year in
  TimeClip (MakeDate (MakeDay yr month date)
                     (MakeTime hours minutes seconds 0)).

(** *** Digits *)

Definition digitChar (d : Z) : ascii := ascii_of_N (Z.to_N (48 + d)).

Definition digitOf (c : ascii) : option Z :=
  let n := Z.of_N (N_of_ascii c) in
  if (48 <=? n) && (n <=? 57) then Some (n - 48) else None.

Fixpoint digitsOf (fuel : nat) (n : Z) : list ascii :=
  match fuel with
  | O => []
  | S fuel' =>
      if n <? 10 then [digitChar n]
      else digitsOf fuel' (n / 10) ++ [digitChar (n mod 10)]
  end.

(** [String(n)] for an integer [n]. *)
Definition String_of_Z (n : Z) : list ascii :=
  if n <? 0 then "-"%char :: digitsOf (S (Z.to_nat (Z.log2 (- n)))) (- n)
  else digitsOf (S (Z.to_nat (Z.log2 n))) n.

(** [s.padStart(width, "0")]. *)
Definition padStart (width : nat) (s : list ascii) : list ascii :=
  replicate (width - length s) "0"%char ++ s.

(** The four digits of a year from 0 to 9999. *)
Definition fourDigits (y : Z) : list ascii :=
  [digitChar (y / 1000); digitChar (y / 100 mod 10);
   digitChar (y / 10 mod 10); digitChar (y mod 10)].

(** [pad2] of TransactionsPage. *)
Definition pad2 (value : Z) : list ascii := padStart 2 (String_of_Z value).

(** Reads exactly [n] decimal digits. *)
Fixpoint takeDigits (n : nat) (acc : Z) (l : list ascii)
    : option (Z * list ascii) :=
  match n with
  | O => Some (acc, l)
  | S n' =>
      match l with
      | c :: l' =>
          match digitOf c with
          | Some d => takeDigits n' (10 * acc + d) l'
          | None => None
          end
      | [] => None
      end
  end.

Definition expect (c : ascii) (l : list ascii) : option (list ascii) :=
  match l with
  | c' :: l' => if Ascii.eqb c c' then Some l' else None
  | [] => None
  end.

(** *** toISOString and the ISO reader *)

(** [Date.prototype.toISOString] of a valid time value: four digits for
    the years 0 to 9999, a sign and six digits otherwise. *)
Definition toISOString (t : Z) : string :=
  let y := YearFromTime t in
  let year :=
    if (0 <=? y) && (y <=? 9999) then padStart 4 (String_of_Z y)
    else (if y <? 0 then "-"%char else "+"%char)
           :: padStart 6 (String_of_Z (Z.abs y)) in
  string_of_list_ascii
    (year ++ "-"%char :: padStart 2 (String_of_Z (MonthFromTime t + 1))
          ++ "-"%char :: padStart 2 (String_of_Z (DateFromTime t))
          ++ "T"%char :: padStart 2 (String_of_Z (HourFromTime t))
          ++ ":"%char :: padStart 2 (String_of_Z (MinFromTime t))
          ++ ":"%char :: padStart 2 (String_of_Z (SecFromTime t))
          ++ "."%char :: padStart 3 (String_of_Z (msFromTime t))
          ++ ["Z"%char]).

(** Days of month [m] (1 is January) of year [y]. *)
Definition daysInMonth (y m : Z) : Z :=
  match m with
  | 2 => 28 + leapDays y
  | 4 | 6 | 9 | 11 => 30
  | _ => 31
  end.

(** The fraction of a second: the first three digits count, further
    digits are dropped. *)
Fixpoint fractionMs (scale : Z) (l : list ascii) : Z * list ascii :=
  match l with
  | c :: l' =>
      match digitOf c with
      | Some d =>
          let '(ms, rest) := fractionMs (scale / 10) l' in
          (d * scale + ms, rest)
      | None => (0, l)
      end
  | [] => (0, [])
  end.

(** The offset suffix, in minutes east of UTC. *)
Definition parseOffset (l : list ascii) : option Z :=
  match l with
  | [c] => if Ascii.eqb c "Z" then Some 0 else None
  | sign :: l' =>
      if Ascii.eqb sign "+" || Ascii.eqb sign "-" then
        '(h, l1) ← takeDigits 2 0 l';
        l2 ← expect ":" l1;
        '(m, l3) ← takeDigits 2 0 l2;
        match l3 with
        | [] =>
            if (h <=? 23) && (m <=? 59)
            then Some ((if Ascii.eqb sign "-" then -1 else 1) * (60 * h + m))
            else None
        | _ => None
        end
      else None
  | [] => None
  end.

(** The year: four digits, or a sign and six digits ("-000000" is not a
    year). *)
Definition parseYear (l : list ascii) : option (Z * list ascii) :=
  match l with
  | c :: l' =>
      if Ascii.eqb c "+" || Ascii.eqb c "-" then
        '(y, r) ← takeDigits 6 0 l';
        if Ascii.eqb c "-" && (y =? 0) then None
        else Some ((if Ascii.eqb c "-" then -1 else 1) * y, r)
      else takeDigits 4 0 l
  | [] => None
  end.

(** What follows HH:mm: the seconds and their fraction, both optional. *)
Definition parseSeconds (l : list ascii) : option (Z * Z * list ascii) :=
  match expect ":" l with
  | Some la =>
      '(sec, lb) ← takeDigits 2 0 la;
      match expect "." lb with
      | Some lc =>
          match lc with
          | c :: _ =>
              if bool_decide (is_Some (digitOf c)) then
                let '(ms, ld) := fractionMs 100 lc in Some (sec, ms, ld)
              else None
          | [] => None
          end
      | None => Some (sec, 0, lb)
      end
  | None => Some (0, 0, l)
  end.

(** The strings that every engine reads the same way: the date-time
    string format with an explicit offset ("Z" or a sign, HH:mm), the
    fields in their ranges, and the date-only form YYYY-MM-DD, which is
    read as UTC.  [None] means that the string is not of this kind. *)
Definition parseIsoInstant (value : string) : option Z :=
  '(year, l1) ← parseYear (list_ascii_of_string value);
  l2 ← expect "-" l1;
  '(month, l3) ← takeDigits 2 0 l2;
  l4 ← expect "-" l3;
  '(day, l5) ← takeDigits 2 0 l4;
  if negb ((1 <=? month) && (month <=? 12) && (1 <=? day)
           && (day <=? daysInMonth year month)) then None
  else
    match l5 with
    | [] => TimeClip (MakeDate (MakeDay year (month - 1) day) 0)
    | _ =>
        l6 ← expect "T" l5;
        '(hour, l7) ← takeDigits 2 0 l6;
        l8 ← expect ":" l7;
        '(minute, l9) ← takeDigits 2 0 l8;
        '(second, ms, l10) ← parseSeconds l9;
        offset ← parseOffset l10;
        if negb ((hour <=? 23) && (minute <=? 59) && (second <=? 59)
                 || (hour =? 24) && (minute =? 0) && (second =? 0)
                    && (ms =? 0))
        then None
        else
          TimeClip (MakeDate (MakeDay year (month - 1) day)
                             (MakeTime hour minute second ms)
                    - offset * msPerMinute)
    end.

(** What the browser answers for every other string, [None] being NaN:
    a date-time without an offset is read in the time zone of the
    browser, and a string outside the format (a day past the end of its
    month, an offset written "+0800", a space for the "T", a lower-case
    "z", "YYYY-MM", "YYYY", ...) is read by rules of the engine's own. *)
Class DateHost := hostParse : string -> option Z.

(** [Date.parse(value)], which is also [new Date(value).getTime()]. *)
Definition Date_parse `{DateHost} (value : string) : option Z :=
  match parseIsoInstant value with
  | Some time => Some time
  | None => hostParse value
  end.

End JSDate.

(** ** TransactionsPage *)

Module Transactions.
Import JSDate.

Definition SHANGHAI_TZ : string := "Asia/Shanghai".
Definition SHANGHAI_OFFSET_HOURS : Z := 8.

(** [Set.prototype.has] on a set of strings. *)
Definition has (set : list string) (x : string) : bool :=
  bool_decide (x ∈ set).

Definition TRADE_TYPES : list string := ["BUY"; "SELL"].
Definition INSTRUMENT_REQUIRED_TYPES : list string := ["BUY"; "SELL"; "DIVIDEND"].

(** *** Shanghai-local date-times *)

Definition normalizeDateTimeLocal (value : string) : string :=
  if (String.length value =? 16)%nat then (value ++ ":00")%string else value.

Record LocalDateTime := mkLocal {
  year : Z;
  month : Z;
  day : Z;
  hour : Z;
  minute : Z;
  second : Z
}.

(** The match of
    [/^(\d{4})-(\d{2})-(\d{2})T(\d{2}):(\d{2})(?::(\d{2}))?$/], each group
    read as a number. *)
Definition parseDateTimeLocal (value : string) : option LocalDateTime :=
  let normalized := list_ascii_of_string (normalizeDateTimeLocal value) in
  '(year, l1) ← takeDigits 4 0 normalized;
  l2 ← expect "-" l1;
  '(month, l3) ← takeDigits 2 0 l2;
  l4 ← expect "-" l3;
  '(day, l5) ← takeDigits 2 0 l4;
  l6 ← expect "T" l5;
  '(hour, l7) ← takeDigits 2 0 l6;
  l8 ← expect ":" l7;
  '(minute, l9) ← takeDigits 2 0 l8;
  match l9 with
  | [] => Some (mkLocal year month day hour minute 0)
  | _ =>
      l10 ← expect ":" l9;
      '(second, l11) ← takeDigits 2 0 l10;
      match l11 with
      | [] => Some (mkLocal year month day hour minute second)
      | _ => None
      end
  end.

(** The getters of an invalid [Date] answer NaN, which prints as "NaN". *)
Definition formatUtcToDateTimeLocalByOffset (utcMs offsetHours : Z) : string :=
  match TimeClip (utcMs + offsetHours * 3600 * 1000) with
  | Some shifted =>
      string_of_list_ascii
        (String_of_Z (YearFromTime shifted)
         ++ "-"%char :: pad2 (MonthFromTime shifted + 1)
         ++ "-"%char :: pad2 (DateFromTime shifted)
         ++ "T"%char :: pad2 (HourFromTime shifted)
         ++ ":"%char :: pad2 (MinFromTime shifted)
         ++ ":"%char :: pad2 (SecFromTime shifted))
  | None => "NaN-NaN-NaNTNaN:NaN:NaN"
  end.

(** The characters of YYYY-MM-DDTHH:mm:ss. *)
Definition localChars (y mo d h mi s : Z) : list ascii :=
  fourDigits y
  ++ "-"%char :: pad2 mo ++ "-"%char :: pad2 d
  ++ "T"%char :: pad2 h ++ ":"%char :: pad2 mi ++ ":"%char :: pad2 s.

(** [now] is what [Date.now()] answers. *)
Definition getNowShanghaiDateTime (now : Z) : string :=
  formatUtcToDateTimeLocalByOffset now SHANGHAI_OFFSET_HOURS.

(** [None] is the RangeError that [toISOString] throws on an invalid
    date. *)
Definition shanghaiLocalToIso (now : Z) (value : string) : option string :=
  match parseDateTimeLocal value with
  | None => Some (toISOString now)
  | Some parsed =>
      toISOString <$>
        Date_UTC (year parsed) (month parsed - 1) (day parsed)
                 (hour parsed - SHANGHAI_OFFSET_HOURS) (minute parsed)
                 (second parsed)
  end.

Definition isoToShanghaiLocalDateTime `{DateHost} (now : Z) (value : string)
    : string :=
  match Date_parse value with
  | None => getNowShanghaiDateTime now
  | Some time => formatUtcToDateTimeLocalByOffset time SHANGHAI_OFFSET_HOURS
  end.

(** The calendar fields of a parsed string name a real date and time of
    day. *)
Definition validCalendar (f : LocalDateTime) : bool :=
  (1 <=? month f) && (month f <=? 12)
  && (1 <=? day f) && (day f <=? daysInMonth (year f) (month f))
  && (hour f <=? 23) && (minute f <=? 59) && (second f <=? 59).

(** A string of the shape YYYY-MM-DDTHH:mm:ss, seconds included, that
    names a real date and time of day in a year from 1000 on. *)
Definition validLocalDateTime (value : string) : bool :=
  (String.length value =? 19)%nat
  && match parseDateTimeLocal value with
     | Some f => (1000 <=? year f) && validCalendar f
     | None => false
     end.

(** An instant on a whole second whose Shanghai-local year is from 1000
    to 9999. *)
Definition wholeSecondInRange (time : Z) : bool :=
  (time mod 1000 =? 0)
  && (DayFromYear 1000 * msPerDay
      <=? time + SHANGHAI_OFFSET_HOURS * msPerHour)
  && (time + SHANGHAI_OFFSET_HOURS * msPerHour
      <? DayFromYear 10000 * msPerDay).

(** *** Amounts *)

Definition round8 (value : number) : number := Num.Number_toFixed 8 value.

(** The effect that keeps the amount field of a trade in step with the
    quantity and the price: the new content of the field. *)
Definition amountEffect (createType : string)
    (createQuantity createPrice amount : option number) : option number :=
  if negb (has TRADE_TYPES createType) then amount
  else
    let quantity := default Num.zero createQuantity in
    let price := default Num.zero createPrice in
    if negb (Num.isFinite quantity) || negb (Num.isFinite price)
       || Num.leb quantity Num.zero || Num.leb price Num.zero
    then None
    else Some (round8 (Num.mul quantity price)).

Definition createSettlementPreview (createType : string)
    (amount createFee createTax : option number) : option number :=
  if negb (has TRADE_TYPES createType) then None
  else
    let principal := default Num.zero amount in
    let fee := default Num.zero createFee in
    let tax := default Num.zero createTax in
    if negb (Num.isFinite principal) || Num.leb principal Num.zero then None
    else if String.eqb createType "SELL"
    then Some (Num.sub (Num.sub principal fee) tax)
    else Some (Num.add (Num.add principal fee) tax).

(** *** Records of types.ts and of the page *)

(** Decimal strings of the JSON payloads are held as the numbers that
    [Number] reads from them. *)
Record Transaction := mkTx {
  tx_id : Z;
  tx_type : string;
  tx_account_id : Z;
  tx_instrument_id : option Z;
  tx_quantity : option number;
  tx_price : option number;
  tx_amount : number;
  tx_fee : number;
  tx_tax : number;
  tx_currency : string;
  tx_executed_at : string;
  tx_executed_tz : string;
  tx_transfer_group_id : option string;
  tx_note : option string
}.

#[export] Instance Transaction_eq_dec : EqDecision Transaction.
Proof. solve_decision. Defined.

Record Instrument := mkInstrument {
  i_id : Z;
  i_symbol : string;
  i_market : string;
  i_type : string;
  i_currency : string;
  i_name : string;
  i_default_account_id : option Z;
  i_allocation_node_id : option Z
}.

Record LatestQuote := mkQuote {
  q_instrument_id : Z;
  q_price : option string;
  q_currency : option string;
  q_source : option string
}.

Record YahooLookupQuote := mkLookup {
  l_symbol : string;
  l_matched_symbol : option string;
  l_found : bool;
  l_provider_status : string;
  l_name : option string;
  l_price : option string;
  l_currency : option string;
  l_market : option string;
  l_quote_type : option string;
  l_message : option string
}.

(** The values the create and edit forms hand to [onFinish]. *)
Record TransactionForm := mkForm {
  v_type : string;
  v_account_id : Z;
  v_counterparty_account_id : option Z;
  v_instrument_symbol : option string;
  v_instrument_id : option Z;
  v_quantity : option number;
  v_price : option number;
  v_amount : option number;
  v_fee : option number;
  v_tax : option number;
  v_currency : string;
  v_executed_at : string;
  v_note : option string
}.

(** The body of POST and PATCH /transactions. *)
Record TransactionPayload := mkPayload {
  p_type : string;
  p_account_id : Z;
  p_counterparty_account_id : option Z;
  p_instrument_id : option Z;
  p_quantity : option number;
  p_price : option number;
  p_amount : option number;
  p_fee : number;
  p_tax : number;
  p_currency : string;
  p_executed_at : string;
  p_executed_tz : string;
  p_note : option string
}.

(** The body of POST /instruments. *)
Record InstrumentPayload := mkInstrumentPayload {
  ip_symbol : string;
  ip_market : string;
  ip_type : string;
  ip_currency : string;
  ip_name : string;
  ip_default_account_id : option Z
}.

Inductive Request :=
  | PostTransaction (body : TransactionPayload)
  | PatchTransaction (id : Z) (body : TransactionPayload)
  | DeleteTransaction (id : Z)
  | ReverseTransaction (id : Z).

(** What [setError] shows. *)
Inductive ErrorMsg :=
  | NoError
  | Thrown (e : string)                   (* String(err) *)
  | InvalidTime                           (* RangeError: Invalid time value *)
  | SymbolRequired                        (* 请输入标的代码 *)
  | CounterpartyRequired                  (* 内部转账必须选择对手账户 *)
  | QuantityPriceRequired                 (* 买入/卖出必须填写有效的数量和价格 *)
  | AmountNotPositive                     (* 金额必须大于 0 *)
  | YahooRateLimited                      (* Yahoo 请求限流，… *)
  | SymbolNotFound (symbol : string)      (* 未找到标的代码 … *)
  | YahooFailed (message : option string) (* Yahoo 查询失败：… *)
  | CreateInstrumentFailed (e : string).  (* 自动创建标的失败：… *)

Inductive SuccessMsg :=
  | NoSuccess
  | TxCreated       (* 流水已创建 *)
  | TxUpdated       (* 流水已更新 *)
  | TxDeleted       (* 流水已删除 *)
  | TxReversed.     (* 已生成冲销流水 *)

Inductive LookupHint :=
  | NoHint
  | InstrumentAutoCreated.   (* 已根据代码自动创建标的 *)

(** The React state of the page that the handlers below read or write
    (the account list and the filters are left out). *)
Record PageState := mkPage {
  instruments : list Instrument;
  latestQuotes : list LatestQuote;
  txs : list Transaction;
  error : ErrorMsg;
  successMessage : SuccessMsg;
  loading : bool;
  editingTx : option Transaction;
  editForm : option TransactionForm;
  rowActionLoadingId : option Z;
  lookupHint : LookupHint;
  lastLookup : option YahooLookupQuote;
  lastQueriedSymbol : string
}.

Record Snapshot := mkSnapshot {
  snap_instruments : list Instrument;
  snap_latestQuotes : list LatestQuote;
  snap_txs : list Transaction
}.

(** The REST endpoints the page calls, over a server state [S]. *)
Class Backend (S : Type) := {
  get_all : S -> Result Snapshot;
  get_instruments : S -> Result (list Instrument);
  lookup_quote : string -> S -> Result YahooLookupQuote;
  post_instrument : InstrumentPayload -> S -> Result Instrument * S;
  send : Request -> S -> Result unit * S
}.

(** *** State updates *)

Definition setError (e : ErrorMsg) (st : PageState) : PageState :=
  mkPage (instruments st) (latestQuotes st) (txs st) e (successMessage st)
         (loading st) (editingTx st) (editForm st) (rowActionLoadingId st)
         (lookupHint st) (lastLookup st) (lastQueriedSymbol st).

Definition setSuccessMessage (m : SuccessMsg) (st : PageState) : PageState :=
  mkPage (instruments st) (latestQuotes st) (txs st) (error st) m
         (loading st) (editingTx st) (editForm st) (rowActionLoadingId st)
         (lookupHint st) (lastLookup st) (lastQueriedSymbol st).

Definition setInstruments (l : list Instrument) (st : PageState) : PageState :=
  mkPage l (latestQuotes st) (txs st) (error st) (successMessage st)
         (loading st) (editingTx st) (editForm st) (rowActionLoadingId st)
         (lookupHint st) (lastLookup st) (lastQueriedSymbol st).

Definition setLatestQuotes (l : list LatestQuote) (st : PageState) : PageState :=
  mkPage (instruments st) l (txs st) (error st) (successMessage st)
         (loading st) (editingTx st) (editForm st) (rowActionLoadingId st)
         (lookupHint st) (lastLookup st) (lastQueriedSymbol st).

Definition setEditing (tx : option Transaction) (f : option TransactionForm)
    (st : PageState) : PageState :=
  mkPage (instruments st) (latestQuotes st) (txs st) (error st)
         (successMessage st) (loading st) tx f (rowActionLoadingId st)
         (lookupHint st) (lastLookup st) (lastQueriedSymbol st).

Definition setRowActionLoadingId (i : option Z) (st : PageState) : PageState :=
  mkPage (instruments st) (latestQuotes st) (txs st) (error st)
         (successMessage st) (loading st) (editingTx st) (editForm st) i
         (lookupHint st) (lastLookup st) (lastQueriedSymbol st).

Definition setLookupHint (h : LookupHint) (st : PageState) : PageState :=
  mkPage (instruments st) (latestQuotes st) (txs st) (error st)
         (successMessage st) (loading st) (editingTx st) (editForm st)
         (rowActionLoadingId st) h (lastLookup st) (lastQueriedSymbol st).

Definition setLastLookup (l : option YahooLookupQuote) (st : PageState)
    : PageState :=
  mkPage (instruments st) (latestQuotes st) (txs st) (error st)
         (successMessage st) (loading st) (editingTx st) (editForm st)
         (rowActionLoadingId st) (lookupHint st) l (lastQueriedSymbol st).

Definition setLastQueriedSymbol (s : string) (st : PageState) : PageState :=
  mkPage (instruments st) (latestQuotes st) (txs st) (error st)
         (successMessage st) (loading st) (editingTx st) (editForm st)
         (rowActionLoadingId st) (lookupHint st) (lastLookup st) s.

(** *** Symbols *)

(** [s.includes(sub)] and [s.endsWith(suffix)]. *)
Definition includes (s sub : string) : bool :=
  match String.index 0 sub s with
  | Some _ => true
  | None => false
  end.

Definition endsWith (s suffix : string) : bool :=
  let n := String.length s in
  let k := String.length suffix in
  (k <=? n)%nat && String.eqb (String.substring (n - k) k s) suffix.

(** [Boolean(s)] for a string or null. *)
Definition truthy (s : option string) : bool :=
  match s with
  | Some v => negb (String.eqb v "")
  | None => false
  end.

Section Handlers.
Context `{Collator} `{StringBuiltins} `{DateHost} {S : Type} `{Backend S}.

Definition normalizeSymbol (value : option string) : string :=
  match value with
  | Some v => toUpperCase (trim v)
  | None => ""
  end.

Definition resolveInstrumentTypeFromQuote (quoteType : option string)
    : string :=
  let normalized := normalizeSymbol quoteType in
  if includes normalized "ETF" || includes normalized "FUND" then "FUND"
  else "STOCK".

Definition resolveMarketFromLookup (symbol : string) (market : option string)
    : string :=
  let normalizedMarket := normalizeSymbol market in
  if includes normalizedMarket "SHANGHAI" || includes normalizedMarket "SHENZHEN"
     || includes normalizedMarket "SSE" || includes normalizedMarket "SZSE"
  then "CN"
  else if includes normalizedMarket "HONG KONG"
          || includes normalizedMarket "HKEX"
  then "HK"
  else if includes normalizedMarket "NASDAQ" || includes normalizedMarket "NYSE"
          || includes normalizedMarket "AMEX"
  then "US"
  else if endsWith symbol ".SS" || endsWith symbol ".SZ" then "CN"
  else if endsWith symbol ".HK" then "HK"
  else "US".

(** [new Map(instruments.map((item) => [item.symbol.toUpperCase(), item]))]. *)
Definition instrumentBySymbol (l : list Instrument) : gmap string Instrument :=
  foldl (fun m item => <[toUpperCase (i_symbol item) := item]> m) ∅ l.

Definition load (srv : S) (st : PageState) : PageState :=
  match get_all srv with
  | Ok snap =>
      mkPage (snap_instruments snap) (snap_latestQuotes snap) (snap_txs snap)
             NoError (successMessage st) false (editingTx st) (editForm st)
             (rowActionLoadingId st) (lookupHint st) (lastLookup st)
             (lastQueriedSymbol st)
  | Err e =>
      mkPage (instruments st) (latestQuotes st) (txs st) (Thrown e)
             (successMessage st) false (editingTx st) (editForm st)
             (rowActionLoadingId st) (lookupHint st) (lastLookup st)
             (lastQueriedSymbol st)
  end.

(** How an awaited call of the page's own ends: with a value, or with a
    rejection that nothing catches. *)
Inductive Ensured :=
  | EnsureThrew
  | EnsureReturned (instrument : option Instrument).

Definition ensureInstrumentBySymbol (symbol : string) (accountId : Z)
    (fallbackCurrency : string) (st : PageState) (srv : S)
    : Ensured * PageState * S :=
  match instrumentBySymbol (instruments st) !! symbol with
  | Some existing => (EnsureReturned (Some existing), st, srv)
  | None =>
      let cachedLookupSymbol :=
        normalizeSymbol
          (match lastLookup st with
           | Some l => Some (default (l_symbol l) (l_matched_symbol l))
           | None => None
           end) in
      let fetched :=
        match lastLookup st with
        | Some l =>
            if String.eqb cachedLookupSymbol symbol then Ok l
            else lookup_quote symbol srv
        | None => lookup_quote symbol srv
        end in
      match fetched with
      | Err _ => (EnsureThrew, st, srv)
      | Ok lookup =>
          let resolvedSymbol :=
            normalizeSymbol (Some (default symbol (l_matched_symbol lookup))) in
          let st1 :=
            setLastQueriedSymbol resolvedSymbol
              (setLastLookup (Some lookup) st) in
          if negb (l_found lookup) then
            let e :=
              if String.eqb (l_provider_status lookup) "rate_limited"
              then YahooRateLimited
              else if String.eqb (l_provider_status lookup) "not_found"
              then SymbolNotFound symbol
              else YahooFailed (l_message lookup) in
            (EnsureReturned None, setError e st1, srv)
          else
            match instrumentBySymbol (instruments st) !! resolvedSymbol with
            | Some resolvedExisting =>
                (EnsureReturned (Some resolvedExisting), st1, srv)
            | None =>
                let body :=
                  mkInstrumentPayload resolvedSymbol
                    (resolveMarketFromLookup resolvedSymbol (l_market lookup))
                    (resolveInstrumentTypeFromQuote (l_quote_type lookup))
                    (toUpperCase (default fallbackCurrency (l_currency lookup)))
                    (default resolvedSymbol (l_name lookup))
                    (Some accountId) in
                match post_instrument body srv with
                | (Ok created, srv') =>
                    let st2 :=
                      setInstruments
                        (sortBy (fun a b =>
                                   localeCompare EnUS_base (i_symbol a)
                                                 (i_symbol b))
                           (filter (fun item => i_id item <> i_id created)
                                   (instruments st1) ++ [created]))
                        st1 in
                    let st3 :=
                      if truthy (l_price lookup) then
                        setLatestQuotes
                          (filter (fun item =>
                                     q_instrument_id item <> i_id created)
                                  (latestQuotes st2)
                           ++ [mkQuote (i_id created) (l_price lookup)
                                 (Some (default (i_currency created)
                                                (l_currency lookup)))
                                 (Some "yahoo")])
                          st2
                      else st2 in
                    (EnsureReturned (Some created),
                     setLookupHint InstrumentAutoCreated st3, srv')
                | (Err e, srv') =>
                    match get_instruments srv' with
                    | Err _ => (EnsureThrew, st1, srv')
                    | Ok refreshed =>
                        let st2 := setInstruments refreshed st1 in
                        match List.find
                                (fun item =>
                                   String.eqb (toUpperCase (i_symbol item))
                                              resolvedSymbol)
                                refreshed with
                        | Some maybeExisting =>
                            (EnsureReturned (Some maybeExisting), st2, srv')
                        | None =>
                            (EnsureReturned None,
                             setError (CreateInstrumentFailed e) st2, srv')
                        end
                    end
                end
            end
      end
  end.

(** [onCreate]; [now] is the clock [shanghaiLocalToIso] falls back on. *)
Definition onCreate (now : Z) (values : TransactionForm)
    (st : PageState) (srv : S) : PageState * S :=
  let type := v_type values in
  let needsInstrument := has INSTRUMENT_REQUIRED_TYPES type in
  let needsCounterparty := String.eqb type "INTERNAL_TRANSFER" in
  let isTrade := has TRADE_TYPES type in
  let symbol := normalizeSymbol (v_instrument_symbol values) in
  let instrument :=
    if needsInstrument then instrumentBySymbol (instruments st) !! symbol
    else None in
  if needsInstrument && String.eqb symbol "" then
    (setError SymbolRequired st, srv)
  else
    let ensured :=
      if needsInstrument && negb (bool_decide (is_Some instrument)) then
        ensureInstrumentBySymbol symbol (v_account_id values)
                                 (v_currency values) st srv
      else (EnsureReturned instrument, st, srv) in
    let '(outcome, st, srv) := ensured in
    match outcome with
    | EnsureThrew => (st, srv)
    | EnsureReturned instrument =>
        if needsInstrument && negb (bool_decide (is_Some instrument)) then
          (st, srv)
        else if needsCounterparty
                && match v_counterparty_account_id values with
                   | Some c => c =? 0
                   | None => true
                   end
        then (setError CounterpartyRequired st, srv)
        else
          let quantity :=
            if isTrade then Some (default Num.zero (v_quantity values))
            else None in
          let price :=
            if isTrade then Some (default Num.zero (v_price values))
            else None in
          let q := default Num.zero quantity in
          let p := default Num.zero price in
          if isTrade && (Num.falsy q || Num.falsy p
                         || Num.leb q Num.zero || Num.leb p Num.zero)
          then (setError QuantityPriceRequired st, srv)
          else
            let principalAmount :=
              if isTrade then round8 (Num.mul q p)
              else default Num.zero (v_amount values) in
            if negb (Num.isFinite principalAmount)
               || Num.leb principalAmount Num.zero
            then (setError AmountNotPositive st, srv)
            else
              match shanghaiLocalToIso now (v_executed_at values) with
              | None => (setError InvalidTime st, srv)
              | Some executed_at =>
                  let body :=
                    mkPayload type (v_account_id values)
                      (if needsCounterparty
                       then v_counterparty_account_id values else None)
                      (i_id <$> instrument)
                      quantity price (Some principalAmount)
                      (if isTrade then default Num.zero (v_fee values)
                       else Num.zero)
                      (if isTrade then default Num.zero (v_tax values)
                       else Num.zero)
                      (toUpperCase (v_currency values))
                      executed_at SHANGHAI_TZ (v_note values) in
                  match send (PostTransaction body) srv with
                  | (Ok _, srv') =>
                      (load srv'
                         (setLastQueriedSymbol ""
                            (setLastLookup None
                               (setLookupHint NoHint
                                  (setSuccessMessage TxCreated st)))),
                       srv')
                  | (Err e, srv') => (setError (Thrown e) st, srv')
                  end
              end
    end.

Definition openEditModal (now : Z) (tx : Transaction) (st : PageState)
    : PageState :=
  setEditing (Some tx)
    (Some (mkForm (tx_type tx) (tx_account_id tx) None None
                  (tx_instrument_id tx) (tx_quantity tx) (tx_price tx)
                  (Some (tx_amount tx)) (Some (tx_fee tx)) (Some (tx_tax tx))
                  (tx_currency tx)
                  (isoToShanghaiLocalDateTime now (tx_executed_at tx))
                  (tx_note tx)))
    st.

Definition onUpdate (now : Z) (values : TransactionForm)
    (st : PageState) (srv : S) : PageState * S :=
  match editingTx st with
  | None => (st, srv)
  | Some editing =>
      let st := setRowActionLoadingId (Some (tx_id editing)) st in
      match shanghaiLocalToIso now (v_executed_at values) with
      | None => (setRowActionLoadingId None (setError InvalidTime st), srv)
      | Some executed_at =>
          let body :=
            mkPayload (v_type values) (v_account_id values) None
                      (v_instrument_id values) (v_quantity values)
                      (v_price values) (v_amount values)
                      (default Num.zero (v_fee values))
                      (default Num.zero (v_tax values))
                      (toUpperCase (v_currency values))
                      executed_at SHANGHAI_TZ (v_note values) in
          match send (PatchTransaction (tx_id editing) body) srv with
          | (Ok _, srv') =>
              (setRowActionLoadingId None
                 (load srv'
                    (setEditing None None (setSuccessMessage TxUpdated st))),
               srv')
          | (Err e, srv') =>
              (setRowActionLoadingId None (setError (Thrown e) st), srv')
          end
      end
  end.

Definition onDelete (tx : Transaction) (st : PageState) (srv : S)
    : PageState * S :=
  let st := setRowActionLoadingId (Some (tx_id tx)) st in
  match send (DeleteTransaction (tx_id tx)) srv with
  | (Ok _, srv') =>
      (setRowActionLoadingId None
         (load srv' (setSuccessMessage TxDeleted st)), srv')
  | (Err e, srv') =>
      (setRowActionLoadingId None (setError (Thrown e) st), srv')
  end.

Definition onReverse (tx : Transaction) (st : PageState) (srv : S)
    : PageState * S :=
  let st := setRowActionLoadingId (Some (tx_id tx)) st in
  match send (ReverseTransaction (tx_id tx)) srv with
  | (Ok _, srv') =>
      (setRowActionLoadingId None
         (load srv' (setSuccessMessage TxReversed st)), srv')
  | (Err e, srv') =>
      (setRowActionLoadingId None (setError (Thrown e) st), srv')
  end.

(** *** The actions column of the table *)

Inductive DeleteNote :=
  | DeletesBothLegs     (* 该操作会同时删除同组内部转账的双边流水。 *)
  | RecomputesHoldings. (* 删除后将重算持仓与现金。 *)

Inductive Tooltip :=
  | NoTooltip
  | DeleteAndRecreate.  (* 内部转账请删除后重新创建 *)

(** The props the render function of the column gives the three
    controls of a row. *)
Record RowActions := mkActions {
  edit_tooltip : Tooltip;
  edit_disabled : bool;
  edit_loading : bool;
  reverse_tooltip : Tooltip;
  reverse_confirm_disabled : bool;
  reverse_disabled : bool;
  reverse_loading : bool;
  delete_description : DeleteNote;
  delete_loading : bool
}.

Definition isTransferRow (tx : Transaction) : bool :=
  truthy (tx_transfer_group_id tx).

(** A row is a leg of a transfer pair when it carries the id of its
    group: a string that is not empty. *)
Definition inTransferPair (tx : Transaction) : Prop :=
  exists g, tx_transfer_group_id tx = Some g /\ g <> "".

Definition actionsColumn (st : PageState) (tx : Transaction) : RowActions :=
  let rowLoading := bool_decide (rowActionLoadingId st = Some (tx_id tx)) in
  mkActions
    (if isTransferRow tx then DeleteAndRecreate else NoTooltip)
    (isTransferRow tx) rowLoading
    (if isTransferRow tx then DeleteAndRecreate else NoTooltip)
    (isTransferRow tx) (isTransferRow tx) rowLoading
    (if truthy (tx_transfer_group_id tx) then DeletesBothLegs
     else RecomputesHoldings)
    rowLoading.

(** What the user can do on a row.  A button that is disabled or loading
    ignores the click; a pop-confirm that is disabled, or whose button
    ignores the click, never opens. *)
Inductive RowEvent :=
  | ClickEdit
  | ConfirmReverse
  | ConfirmDelete.

Definition rowEvent (now : Z) (ev : RowEvent) (tx : Transaction)
    (st : PageState) (srv : S) : PageState * S :=
  let a := actionsColumn st tx in
  match ev with
  | ClickEdit =>
      if edit_disabled a || edit_loading a then (st, srv)
      else (openEditModal now tx st, srv)
  | ConfirmReverse =>
      if reverse_confirm_disabled a || reverse_disabled a || reverse_loading a
      then (st, srv)
      else onReverse tx st srv
  | ConfirmDelete =>
      if delete_loading a then (st, srv) else onDelete tx st srv
  end.

End Handlers.

(** A backend that also keeps the list of the requests on /transactions
    it was sent, oldest first: what the page hands to [send].  The
    POST /instruments of [ensureInstrumentBySymbol] and the GET requests
    (the lists, the quote lookup) are not in this list. *)
#[export] Instance traced {S : Type} `{Backend S} : Backend (S * list Request) := {
  get_all srv := get_all srv.1;
  get_instruments srv := get_instruments srv.1;
  lookup_quote symbol srv := lookup_quote symbol srv.1;
  post_instrument body srv :=
    let '(r, s') := post_instrument body srv.1 in (r, (s', srv.2));
  send req srv :=
    let '(r, s') := send req srv.1 in (r, (s', srv.2 ++ [req]))
}.

(** The bodies of the POST /transactions requests of a trace. *)
Definition posted (log : list Request) : list TransactionPayload :=
  omap (fun r => match r with PostTransaction body => Some body | _ => None end)
       log.

End Transactions.

(** ** The transaction ledger of the backend *)

Module Ledger.
Import Transactions.

(** Modelled from the spec: the ledger lives in the REST backend (the
    FastAPI application under /backend), which is not among the sources.
    Its store is the list of rows in insertion order, with the counters
    that generate row ids and transfer group ids, the instrument
    registry, and the quote provider it consults. *)
Record State := mkLedger {
  rows : list Transaction;
  nextId : Z;
  nextGroup : N;
  registry : list Instrument;
  quotes : list LatestQuote;
  provider : string -> Result YahooLookupQuote
}.

(** Modelled from the spec: section 4.1, "sharing one generated
    transfer_group_id": the n-th generated id. *)
Definition groupName (n : N) : string := "tg-" +:+ pretty n.

(** Modelled from the spec: section 4.2, the running quantity and the
    weighted-average cost of one (account, instrument) pair: "on BUY,
    new_avg_cost = (old_qty*old_avg_cost + qty*price) / (old_qty+qty); on
    SELL, quantity decreases but average cost is unchanged"; the other
    types do not touch the position. *)
Record Position := mkPosition { pos_quantity : number; pos_avg_cost : number }.

Definition applyToPosition (account instrument : Z) (pos : Position)
    (tx : Transaction) : Position :=
  if negb ((tx_account_id tx =? account)
           && bool_decide (tx_instrument_id tx = Some instrument)) then pos
  else
    let qty := default Num.zero (tx_quantity tx) in
    let price := default Num.zero (tx_price tx) in
    if String.eqb (tx_type tx) "BUY" then
      mkPosition
        (Num.add (pos_quantity pos) qty)
        (Num.div (Num.add (Num.mul (pos_quantity pos) (pos_avg_cost pos))
                          (Num.mul qty price))
                 (Num.add (pos_quantity pos) qty))
    else if String.eqb (tx_type tx) "SELL" then
      mkPosition (Num.sub (pos_quantity pos) qty) (pos_avg_cost pos)
    else pos.

Definition holding (account instrument : Z) (l : list Transaction) : Position :=
  foldl (applyToPosition account instrument) (mkPosition Num.zero Num.zero) l.

(** Modelled from the spec: section 4.2, "Cash balance per account is the
    running sum of all CASH_IN/DIVIDEND/SELL-proceeds minus
    CASH_OUT/BUY-cost/FEE/TAX": what one row adds to the cash of its
    account. *)
Definition isInflow (tx : Transaction) : bool :=
  let t := tx_type tx in
  String.eqb t "CASH_IN" || String.eqb t "DIVIDEND" || String.eqb t "SELL".

Definition applyCash (account : Z) (cash : number) (tx : Transaction)
    : number :=
  if negb (tx_account_id tx =? account) then cash
  else if isInflow tx
  then Num.add cash (Num.sub (Num.sub (tx_amount tx) (tx_fee tx)) (tx_tax tx))
  else Num.sub cash (Num.add (Num.add (tx_amount tx) (tx_fee tx)) (tx_tax tx)).

Definition cashBalance (account : Z) (l : list Transaction) : number :=
  foldl (applyCash account) Num.zero l.

Definition rowOf (id : Z) (type : string) (account : Z)
    (group : option string) (body : TransactionPayload) : Transaction :=
  mkTx id type account (p_instrument_id body) (p_quantity body) (p_price body)
       (default Num.zero (p_amount body)) (p_fee body) (p_tax body)
       (p_currency body) (p_executed_at body) (p_executed_tz body)
       group (p_note body).

(** Modelled from the spec: sections 3 and 4.1, what [create] and
    [update] check of a body: a positive amount; an instrument for BUY,
    SELL and DIVIDEND; for BUY and SELL a positive quantity and price
    with [amount == round(quantity*price, 8)]; for INTERNAL_TRANSFER a
    counterparty distinct from the account. *)
Definition validBody (body : TransactionPayload) : bool :=
  let t := p_type body in
  let amount := default Num.zero (p_amount body) in
  has ["BUY"; "SELL"; "DIVIDEND"; "FEE"; "CASH_IN"; "CASH_OUT";
       "INTERNAL_TRANSFER"] t
  && Num.isFinite amount && Num.gtb amount Num.zero
  && (negb (has INSTRUMENT_REQUIRED_TYPES t)
      || bool_decide (is_Some (p_instrument_id body)))
  && (negb (has TRADE_TYPES t)
      || match p_quantity body, p_price body with
         | Some q, Some p =>
             Num.gtb q Num.zero && Num.gtb p Num.zero
             && bool_decide (amount = round8 (Num.mul q p))
         | _, _ => false
         end)
  && (negb (String.eqb t "INTERNAL_TRANSFER")
      || match p_counterparty_account_id body with
         | Some c => negb (c =? p_account_id body)
         | None => false
         end).

(** Modelled from the spec: section 4.2, "SELL quantity exceeding current
    holding is a validation error at creation time". *)
Definition oversells (body : TransactionPayload) (l : list Transaction) : bool :=
  String.eqb (p_type body) "SELL"
  && match p_instrument_id body, p_quantity body with
     | Some i, Some q =>
         Num.ltb (pos_quantity (holding (p_account_id body) i l)) q
     | _, _ => false
     end.

(** Modelled from the spec: section 4.1, [create]: one row, or for an
    INTERNAL_TRANSFER "two ledger rows — a CASH_OUT-equivalent on the
    source account and a CASH_IN-equivalent on the counterparty account —
    sharing one generated transfer_group_id". *)
Definition create (body : TransactionPayload) (L : State)
    : Result unit * State :=
  if negb (validBody body) then (Err "validation error", L)
  else if oversells body (rows L) then (Err "sell exceeds holding", L)
  else if String.eqb (p_type body) "INTERNAL_TRANSFER" then
    let g := Some (groupName (nextGroup L)) in
    (Ok tt,
     mkLedger
       (rows L
        ++ [rowOf (nextId L) "CASH_OUT" (p_account_id body) g body;
            rowOf (nextId L + 1) "CASH_IN"
                  (default 0 (p_counterparty_account_id body)) g body])
       (nextId L + 2) (N.succ (nextGroup L)) (registry L) (quotes L)
       (provider L))
  else
    (Ok tt,
     mkLedger (rows L ++ [rowOf (nextId L) (p_type body) (p_account_id body)
                                None body])
              (nextId L + 1) (nextGroup L) (registry L) (quotes L)
              (provider L)).

Definition findRow (id : Z) (L : State) : option Transaction :=
  List.find (fun t => tx_id t =? id) (rows L).

(** Modelled from the spec: section 4.1, [update]: "disallowed for any
    transaction that is part of a transfer pair"; the patched row keeps
    its id. *)
Definition update (id : Z) (body : TransactionPayload) (L : State)
    : Result unit * State :=
  match findRow id L with
  | None => (Err "unknown transaction", L)
  | Some t =>
      if bool_decide (is_Some (tx_transfer_group_id t))
      then (Err "transfer legs are immutable", L)
      else if negb (validBody body) || String.eqb (p_type body) "INTERNAL_TRANSFER"
      then (Err "validation error", L)
      else
        (Ok tt,
         mkLedger
           (map (fun r =>
                   if tx_id r =? id
                   then rowOf id (p_type body) (p_account_id body) None body
                   else r)
                (rows L))
           (nextId L) (nextGroup L) (registry L) (quotes L) (provider L))
  end.

(** The answer of DELETE /transactions/{id}. *)
Record Deleted := mkDeleted { deleted : bool; deleted_count : Z }.

(** Modelled from the spec: section 4.1, [delete]: "if the transaction
    belongs to a transfer group, deletes both legs atomically and reports
    the count deleted; otherwise deletes the single row.  Deletion never
    rewrites other transactions". *)
Definition delete (id : Z) (L : State) : Result Deleted * State :=
  match findRow id L with
  | None => (Err "unknown transaction", L)
  | Some t =>
      let kept :=
        match tx_transfer_group_id t with
        | Some g =>
            filter (fun r => tx_transfer_group_id r <> Some g) (rows L)
        | None => filter (fun r => tx_id r <> id) (rows L)
        end in
      (Ok (mkDeleted true (Z.of_nat (length (rows L) - length kept))),
       mkLedger kept (nextId L) (nextGroup L) (registry L) (quotes L)
                (provider L))
  end.

(** Modelled from the spec: section 9, the economic inverse of a row:
    "CASH_IN↔CASH_OUT amounts negate; BUY/SELL swap direction". *)
Definition mirrorType (t : string) : string :=
  if String.eqb t "BUY" then "SELL"
  else if String.eqb t "SELL" then "BUY"
  else if String.eqb t "CASH_IN" then "CASH_OUT"
  else if String.eqb t "CASH_OUT" then "CASH_IN"
  else if String.eqb t "DIVIDEND" then "FEE"
  else "DIVIDEND".

(** Modelled from the spec: section 4.1, [reverse]: "generates and
    inserts a new transaction that is the economic mirror of the
    original ..., leaving the original intact"; "Reversing a transfer leg
    is rejected". *)
Definition reverse (id : Z) (L : State) : Result unit * State :=
  match findRow id L with
  | None => (Err "unknown transaction", L)
  | Some t =>
      if bool_decide (is_Some (tx_transfer_group_id t))
      then (Err "transfers must be deleted, not reversed", L)
      else
        (Ok tt,
         mkLedger
           (rows L
            ++ [mkTx (nextId L) (mirrorType (tx_type t)) (tx_account_id t)
                     (tx_instrument_id t) (tx_quantity t) (tx_price t)
                     (tx_amount t) (tx_fee t) (tx_tax t) (tx_currency t)
                     (tx_executed_at t) (tx_executed_tz t) None (tx_note t)])
           (nextId L + 1) (nextGroup L) (registry L) (quotes L) (provider L))
  end.

Definition handle (req : Request) (L : State) : Result unit * State :=
  match req with
  | PostTransaction body => create body L
  | PatchTransaction id body => update id body L
  | DeleteTransaction id =>
      let '(r, L') := delete id L in
      (match r with Ok _ => Ok tt | Err e => Err e end, L')
  | ReverseTransaction id => reverse id L
  end.

(** Modelled from the spec: section 3, an instrument is "created on
    first use" with a unique symbol. *)
Definition createInstrument (body : InstrumentPayload) (L : State)
    : Result Instrument * State :=
  if existsb (fun i => String.eqb (i_symbol i) (ip_symbol body)) (registry L)
  then (Err "symbol already registered", L)
  else
    let created :=
      mkInstrument (1 + foldr Z.max 0 (map i_id (registry L)))
                   (ip_symbol body) (ip_market body) (ip_type body)
                   (ip_currency body) (ip_name body)
                   (ip_default_account_id body) None in
    (Ok created,
     mkLedger (rows L) (nextId L) (nextGroup L) (registry L ++ [created])
              (quotes L) (provider L)).

#[export] Instance specBackend : Backend State := {
  get_all L := Ok (mkSnapshot (registry L) (quotes L) (rows L));
  get_instruments L := Ok (registry L);
  lookup_quote symbol L := provider L symbol;
  post_instrument := createInstrument;
  send := handle
}.

(** The ledgers the operations can produce from an empty one. *)
Inductive reachable : State -> Prop :=
  | reachable_empty registry quotes provider :
      reachable (mkLedger [] 1 0 registry quotes provider)
  | reachable_send req L :
      reachable L -> reachable (handle req L).2
  | reachable_instrument body L :
      reachable L -> reachable (createInstrument body L).2.

(** Every transfer group that occurs was generated and has its two legs,
    and row ids are distinct and below the counter. *)
Definition wellFormedRows (l : list Transaction) (next : Z) (groups : N)
    : Prop :=
  NoDup (map tx_id l)
  /\ (forall t, t ∈ l -> tx_id t < next)
  /\ (forall t g, t ∈ l -> tx_transfer_group_id t = Some g ->
        exists n, (n < groups)%N /\ g = groupName n)
  /\ (forall t g, t ∈ l -> tx_transfer_group_id t = Some g ->
        length (filter (fun r => tx_transfer_group_id r = Some g) l) = 2%nat).

Definition wellFormed (L : State) : Prop :=
  wellFormedRows (rows L) (nextId L) (nextGroup L).

End Ledger.

(** ** DashboardPage and the drift table of HoldingsPage *)

Module Dashboard.

(** [ReturnCurvePoint] and [DriftItem] of types.ts; decimal strings are
    held as the numbers that [Number] reads from them. *)
Record ReturnCurvePoint := mkPoint {
  date : string;
  net_contribution : number;
  total_assets : number;
  total_return : number;
  total_return_rate : option number
}.

Record DriftItem := mkDrift {
  node_id : Z;
  name : string;
  target_weight : number;
  actual_weight : number;
  drift_pct : number;
  is_alerted : bool
}.

(** *** utils/format.ts *)

(** A text shown on the page: a literal, the decimal expansion
    [value.toFixed(digits)], or two texts one after the other. *)
Inductive Text :=
  | Literal (s : string)
  | ToFixed (value : number) (digits : Z)
  | Concat (a b : Text).

Definition DISPLAY_DIGITS : Z := 3.

Definition formatDecimal (value : option number) : Text :=
  match value with
  | Some num => if Num.isFinite num then ToFixed num DISPLAY_DIGITS
                else Literal "-"
  | None => Literal "-"
  end.

Definition formatPercent (value : option number) : Text :=
  Concat (formatDecimal value) (Literal "%").

(** [Math.max(...values)] and [Math.min(...values)]. *)
Definition Math_max (values : list number) : number :=
  foldl Num.max (S754_infinity true) values.

Definition Math_min (values : list number) : number :=
  SFopp (foldl Num.max (S754_infinity true) (map SFopp values)).

(** The sign a comparator's answer has for [sort]. *)
Definition signOf (c : number) : Z :=
  if Num.ltb c Num.zero then -1 else if Num.gtb c Num.zero then 1 else 0.

(** *** The returns curve *)

Section Curve.
Context `{DateLocale} `{JSDate.DateHost}.

Definition formatShortDate (value : string) : string :=
  match JSDate.Date_parse value with
  | None => value
  | Some time => toLocaleMonthDay time
  end.

(** The [series] of [buildCurveOption]: the points whose rate is neither
    null nor non-finite. *)
Definition curveSeries (points : list ReturnCurvePoint)
    : list (string * number) :=
  omap (fun item =>
          match total_return_rate item with
          | Some rate => if Num.isFinite rate then Some (date item, rate)
                         else None
          | None => None
          end)
       points.

Record CurveOption := mkCurveOption {
  dates : list string;
  values : list number;
  yMin : number;
  yMax : number
}.

Definition buildCurveOption (points : list ReturnCurvePoint)
    : option CurveOption :=
  let series := curveSeries points in
  if (length series <? 2)%nat then None
  else
    let values := map (fun item => Num.Number_toFixed 6 item.2) series in
    let dates := map (fun item => formatShortDate item.1) series in
    let maxValue := Math_max values in
    let minValue := Math_min values in
    let range := Num.max (Num.sub maxValue minValue)
                         (Num.of_ratio false 1 10000) in
    let padding := Num.mul range (Num.of_ratio false 15 100) in
    let yMaxRaw := Num.add maxValue padding in
    let yMinRaw := Num.sub minValue padding in
    let yMax :=
      Num.Number_toFixed 3
        (Num.add yMaxRaw
           (if Num.ltb (Num.abs (Num.sub yMaxRaw yMinRaw))
                       (Num.of_ratio false 1 1000)
            then Num.of_ratio false 1 1000 else Num.zero)) in
    let yMin := Num.Number_toFixed 3 yMinRaw in
    Some (mkCurveOption dates values yMin yMax).

End Curve.

(** *** The derived figures *)

Record Derived := mkDerived {
  alertedCount : nat;
  topDrifts : list DriftItem;
  netContribution : number;
  totalReturn : number;
  totalReturnRate : option number;
  latestRate : option number;
  peakRate : option number
}.

(** The part of [derived] that reads the summary's [total_assets], the
    curve and the drift items. *)
Definition derived (totalAssets : number) (curve : list ReturnCurvePoint)
    (driftItems : list DriftItem) : Derived :=
  let lastCurvePoint := last curve in
  let netContribution :=
    match lastCurvePoint with
    | Some p => net_contribution p
    | None => Num.zero
    end in
  let curveRates :=
    omap (fun item =>
            match total_return_rate item with
            | Some rate => if Num.isFinite rate then Some rate else None
            | None => None
            end)
         curve in
  mkDerived
    (length (filter (fun item => is_alerted item = true) driftItems))
    (take 5
       (sortBy (fun a b =>
                  signOf (Num.sub (Num.abs (drift_pct b))
                                  (Num.abs (drift_pct a))))
               driftItems))
    netContribution
    (match lastCurvePoint with
     | Some p => total_return p
     | None => Num.sub totalAssets netContribution
     end)
    (match lastCurvePoint with
     | Some p => total_return_rate p
     | None => None
     end)
    (last curveRates)
    (match curveRates with
     | [] => None
     | _ => Some (Math_max curveRates)
     end).

(** The text of the cards that show a rate. *)
Definition rateText (rate : option number) : Text :=
  match rate with
  | None => Literal "-"
  | Some r => formatPercent (Some r)
  end.

(** *** The drift chart *)

Record DriftBar := mkBar {
  bar_name : string;
  bar_value : number;
  bar_color : string
}.

Record DriftOption := mkDriftOption {
  xMax : number;
  bars : list DriftBar
}.

(** The [itemStyle.color] callback of the bar series. *)
Definition driftBarColor (value : number) : string :=
  if Num.gtb value (Num.of_Z 5) then "#d9363e" else "#1f4f94".

Definition buildDriftOption (items : list DriftItem) : option DriftOption :=
  match items with
  | [] => None
  | _ =>
      let values := map (fun item => Num.abs (drift_pct item)) items in
      let maxValue := Math_max (values ++ [Num.of_Z 1]) in
      Some (mkDriftOption
              (Num.Number_toFixed 3 (Num.mul maxValue (Num.of_ratio false 11 10)))
              (map (fun item =>
                      mkBar (name item) (Num.abs (drift_pct item))
                            (driftBarColor (Num.abs (drift_pct item))))
                   items))
  end.

(** *** The drift columns of HoldingsPage *)

(** [toNumber] of HoldingsPage: 0 unless finite. *)
Definition toNumber (value : number) : number :=
  if Num.isFinite value then value else Num.zero.

(** The colour of the text of the drift column. *)
Definition driftTextColor (value : number) : string :=
  if Num.geb (Num.abs (toNumber value)) (Num.of_Z 5) then "#d46b08"
  else "#1f4f94".

(** The stroke of the strength bar and the tag of the status column. *)
Definition driftStrokeColor (row : DriftItem) : string :=
  if is_alerted row then "#fa8c16" else "#1f4f94".

Definition statusTagColor (value : bool) : string :=
  if value then "error" else "success".

(** *** What the backend computes *)

(** Modelled from the spec: section 4.4, "drift_pct = actual −
    target_weight_global; is_alerted = |drift_pct| ≥ configured
    threshold"; the drift endpoint of the backend is not among the
    sources. *)
Definition driftItem (threshold : number) (node_id : Z) (name : string)
    (target actual : number) : DriftItem :=
  let drift := Num.sub actual target in
  mkDrift node_id name target actual drift
          (Num.geb (Num.abs drift) threshold).

(** Modelled from the spec: section 4.4, "total_return = total_assets −
    net_contribution; total_return_rate = total_return / net_contribution
    when net_contribution > 0, else null"; the returns-curve endpoint of
    the backend is not among the sources. *)
Definition curvePoint (date : string) (net_contribution total_assets : number)
    : ReturnCurvePoint :=
  let total_return := Num.sub total_assets net_contribution in
  mkPoint date net_contribution total_assets total_return
          (if Num.gtb net_contribution Num.zero
           then Some (Num.div total_return net_contribution)
           else None).

End Dashboard.

(** ** Sample data *)

Module Samples.
Import Allocation AllocationServer.

(** Collation by code units, for the ASCII names of the samples. *)
#[export] Instance codeUnitCollator : Collator :=
  fun _ a b =>
    match String.compare a b with
    | Lt => -1
    | Eq => 0
    | Gt => 1
    end.

Definition sampleNodes : list AllocationNode :=
  [ mkNode 3 (Some 1) "us" (Num.of_Z 50) 0;
    mkNode 1 None "equity" (Num.of_Z 60) 0;
    mkNode 2 None "bond" (Num.of_Z 40) 1;
    mkNode 4 (Some 1) "cn" (Num.of_Z 50) 1;
    mkNode 5 (Some 9) "orphan" (Num.of_Z 100) 0 ].

Definition sampleInstruments : list Instrument :=
  [ mkInstrument 11 "AAPL" "Apple" (Some 3);
    mkInstrument 12 "600519.SS" "Moutai" None ].

Definition sampleServer : ServerState :=
  mkServer sampleNodes sampleInstruments.

(** The page after [load], node [selected] selected, with the roots'
    weights edited to 55 and [bond]. *)
Definition samplePageAt (selected : option Z) (bond : number)
    (draft : option Z) : PageState :=
  mkPage sampleNodes sampleInstruments "" NoMessage false selected
         (<[1 := Num.of_Z 55]> (<[2 := bond]> ∅)) draft None [].

Definition samplePage (bond : number) : PageState :=
  samplePageAt (Some 1) bond None.

(** The ASCII part of [trim] and [toUpperCase], for the samples. *)
Definition asciiUpper (c : ascii) : ascii :=
  let n := N_of_ascii c in
  if ((97 <=? n) && (n <=? 122))%N then ascii_of_N (n - 32) else c.

Fixpoint dropSpaces (l : list ascii) : list ascii :=
  match l with
  | c :: l' => if Ascii.eqb c " " then dropSpaces l' else l
  | [] => []
  end.

#[export] Instance asciiBuiltins : StringBuiltins := {
  trim s :=
    string_of_list_ascii
      (rev (dropSpaces (rev (dropSpaces (list_ascii_of_string s)))));
  toUpperCase s :=
    string_of_list_ascii (map asciiUpper (list_ascii_of_string s))
}.

(** A browser that reads no date string beyond the common format. *)
#[export] Instance strictHost : JSDate.DateHost := fun _ => None.

(** Month and day as the zh-CN locale prints them, "03/15", for a
    browser whose time zone is UTC. *)
#[export] Instance utcMonthDay : DateLocale :=
  fun time =>
    string_of_list_ascii
      (JSDate.pad2 (JSDate.MonthFromTime time + 1)
       ++ "/"%char :: JSDate.pad2 (JSDate.DateFromTime time)).

Definition sampleRegistry : list Transactions.Instrument :=
  [ Transactions.mkInstrument 1 "AAPL" "US" "STOCK" "USD" "Apple" (Some 1) None ].

Definition emptyLedger : Ledger.State :=
  Ledger.mkLedger [] 1 0 sampleRegistry [] (fun _ => Err "offline").

Definition cashInForm : Transactions.TransactionForm :=
  Transactions.mkForm "CASH_IN" 1 None None None None None
    (Some (Num.of_Z 10000)) (Some Num.zero) (Some Num.zero) "cny"
    "2026-02-08T09:30:00" None.

Definition buyForm : Transactions.TransactionForm :=
  Transactions.mkForm "BUY" 1 None (Some " aapl ") None
    (Some (Num.of_Z 10)) (Some (Num.of_Z 100)) None
    (Some (Num.of_Z 1)) (Some Num.zero) "usd" "2026-02-08T10:00:00" None.

Definition transferForm : Transactions.TransactionForm :=
  Transactions.mkForm "INTERNAL_TRANSFER" 1 (Some 2) None None None None
    (Some (Num.of_Z 5000)) None None "CNY" "2026-02-08T11:00:00" None.

Definition emptyPage : Transactions.PageState :=
  Transactions.mkPage sampleRegistry [] [] Transactions.NoError
    Transactions.NoSuccess false None None None Transactions.NoHint None "".

#[local] Existing Instance Ledger.specBackend.

(** The page and the ledger after the three forms were submitted in
    turn, at the clock value 0. *)
Definition afterCashIn : Transactions.PageState * Ledger.State :=
  Transactions.onCreate 0 cashInForm emptyPage emptyLedger.

Definition afterBuy : Transactions.PageState * Ledger.State :=
  Transactions.onCreate 0 buyForm afterCashIn.1 afterCashIn.2.

Definition afterTransfer : Transactions.PageState * Ledger.State :=
  Transactions.onCreate 0 transferForm afterBuy.1 afterBuy.2.

End Samples.

(** ** Walks up the allocation tree (DashboardPage, AllocationPage) *)

Module Tree.
Import Allocation.

(** The loop of [getRootNode]: [steps] bounds the number of its rounds,
    and a chain of parents that does not end within them yields [None]
    (the loop does not end). *)
Fixpoint climb (steps : nat) (nm : gmap Z AllocationNode)
    (current : AllocationNode) : option AllocationNode :=
  match steps with
  | O => None
  | Datatypes.S steps' =>
      match parent_id current with
      | None => Some current
      | Some pid =>
          match nm !! pid with
          | None => Some current
          | Some parent => climb steps' nm parent
          end
      end
  end.

(** [getRootNode]: [Some None] is the answer null. *)
Definition getRootNode (steps : nat) (nodeId : Z)
    (nm : gmap Z AllocationNode) : option (option AllocationNode) :=
  match nm !! nodeId with
  | None => Some None
  | Some current => Some <$> climb steps nm current
  end.

(** The loop of [getDirectChildUnderNode]. *)
Fixpoint descendTo (steps : nat) (nm : gmap Z AllocationNode)
    (ancestorId : Z) (current : AllocationNode)
    : option (option AllocationNode) :=
  match steps with
  | O => None
  | Datatypes.S steps' =>
      match parent_id current with
      | None => Some None
      | Some pid =>
          if pid =? ancestorId then Some (Some current)
          else
            match nm !! pid with
            | None => Some None
            | Some parent => descendTo steps' nm ancestorId parent
            end
      end
  end.

Definition getDirectChildUnderNode (steps : nat) (leafNodeId ancestorId : Z)
    (nm : gmap Z AllocationNode) : option (option AllocationNode) :=
  match nm !! leafNodeId with
  | None => Some None
  | Some current => descendTo steps nm ancestorId current
  end.

(** The loop of [buildAllocationNodePath]: [path.unshift(parent.name)]
    while the parent id names a node. *)
Fixpoint pathNames (steps : nat) (nm : gmap Z AllocationNode)
    (parentId : option Z) (path : list string) : option (list string) :=
  match steps with
  | O => None
  | Datatypes.S steps' =>
      match parentId with
      | None => Some path
      | Some pid =>
          match nm !! pid with
          | None => Some path
          | Some parent =>
              pathNames steps' nm (parent_id parent) (name parent :: path)
          end
      end
  end.

(** [path.join(" / ")]. *)
Definition joinPath (path : list string) : string := String.concat " / " path.

Definition buildAllocationNodePath (steps : nat) (node : AllocationNode)
    (nm : gmap Z AllocationNode) : option string :=
  joinPath <$> pathNames steps nm (parent_id node) [name node].

(** The loop of [buildNodePath] of AllocationPage: [while (parentId)]
    also stops at the parent id 0. *)
Fixpoint pathNamesTruthy (steps : nat) (nm : gmap Z AllocationNode)
    (parentId : option Z) (path : list string) : option (list string) :=
  match steps with
  | O => None
  | Datatypes.S steps' =>
      match parentId with
      | None => Some path
      | Some pid =>
          if pid =? 0 then Some path
          else
            match nm !! pid with
            | None => Some path
            | Some parent =>
                pathNamesTruthy steps' nm (parent_id parent)
                                (name parent :: path)
            end
      end
  end.

Definition buildNodePath (steps : nat) (node : AllocationNode)
    (nm : gmap Z AllocationNode) : option string :=
  joinPath <$> pathNamesTruthy steps nm (parent_id node) [name node].

End Tree.

(** ** The navigation of App *)

Module Nav.

(** The keys of [NAV_ITEMS], in their order. *)
Definition NAV_KEYS : list string :=
  ["/"; "/allocation"; "/tags"; "/accounts"; "/transactions"; "/holdings";
   "/custom-instruments"].

(** [s.startsWith(p)]. *)
Definition startsWith (s p : string) : bool := String.prefix p s.

(** [selectedKey] of App, for [location.pathname]. *)
Definition selectedKey (locationPathname : string) : string :=
  let pathname :=
    if startsWith locationPathname "/instruments" then "/holdings"
    else locationPathname in
  if String.eqb pathname "/" then "/"
  else
    match List.find (fun key => startsWith pathname key
                                && negb (String.eqb key "/")) NAV_KEYS with
    | Some found => found
    | None => "/"
    end.

End Nav.

(** ** The drift table of HoldingsPage *)

Module Holdings.
Import Dashboard.

(** [String.prototype.toLowerCase] is the browser's. *)
Class LowerCase := toLowerCase : string -> string.

Section Filters.
Context `{LowerCase}.

(** [filteredDrifts]: [driftFilter] is "ALL", "ALERT_ONLY" or
    "NORMAL_ONLY". *)
Definition filteredDrifts (nodeDrifts : list DriftItem)
    (driftFilter driftKeyword : string) : list DriftItem :=
  filter (fun row =>
            let byKeyword :=
              if negb (String.eqb driftKeyword "")
              then Transactions.includes (toLowerCase (name row))
                                         (toLowerCase driftKeyword)
              else true in
            (if String.eqb driftFilter "ALERT_ONLY"
             then byKeyword && is_alerted row
             else if String.eqb driftFilter "NORMAL_ONLY"
             then byKeyword && negb (is_alerted row)
             else byKeyword) = true)
         nodeDrifts.

(** [driftAlertCount] and the count of the tag above the table. *)
Definition alertCount (rows : list DriftItem) : nat :=
  length (filter (fun item => is_alerted item = true) rows).

End Filters.

End Holdings.

(** ** auth/session.ts *)

Module Session.

Record AuthUser := mkUser {
  user_id : Z;
  username : string;
  role : string;
  is_active : bool;
  last_login_at : option string;
  created_at : string;
  updated_at : string
}.

Record AuthSession := mkSession {
  access_token : string;
  token_type : string;
  expires_at : string;
  user : AuthUser
}.

(** What [parseSession] reads of [JSON.parse(raw)]: a field that is
    missing or falsy is [None], and a string field is held as
    [String(field)]. *)
Record ParsedSession := mkParsed {
  parsed_access_token : option string;
  parsed_expires_at : option string;
  parsed_user : option AuthUser
}.

(** [JSON.stringify] and [JSON.parse] are the browser's; [None] is the
    SyntaxError that [JSON.parse] throws. *)
Class Json := {
  stringify : AuthSession -> string;
  parse : string -> option ParsedSession
}.

Definition SESSION_KEY : string := "portfolio.auth.session".
Definition REMEMBERED_USER_KEY : string := "portfolio.auth.remembered.username".

(** [window.localStorage]; [None] is [safeStorage()] answering null
    where there is no window. *)
Definition Storage := option (gmap string string).

Section WithJson.
Context `{Json} `{JSDate.DateHost}.

Definition parseSession (raw : string) : option AuthSession :=
  match parse raw with
  | None => None
  | Some parsed =>
      match parsed_access_token parsed, parsed_expires_at parsed,
            parsed_user parsed with
      | Some token, Some expires, Some u =>
          Some (mkSession token "bearer" expires u)
      | _, _, _ => None
      end
  end.

(** [getStoredSession]; [now] is what [Date.now()] answers, and an
    [expires_at] that the browser's [Date.parse] does not read is NaN,
    which is not [<= now]. *)
Definition getStoredSession (now : Z) (storage : Storage)
    : option AuthSession * Storage :=
  match storage with
  | None => (None, storage)
  | Some items =>
      match items !! SESSION_KEY with
      | None => (None, storage)
      | Some raw =>
          if String.eqb raw "" then (None, storage)
          else
            match parseSession raw with
            | None => (None, storage)
            | Some session =>
                match JSDate.Date_parse (expires_at session) with
                | Some expiry =>
                    if expiry <=? now
                    then (None, Some (delete SESSION_KEY items))
                    else (Some session, storage)
                | None => (Some session, storage)
                end
            end
      end
  end.

Definition saveSession (session : AuthSession) (rememberUsername : bool)
    (storage : Storage) : Storage :=
  match storage with
  | None => None
  | Some items =>
      let items := <[SESSION_KEY := stringify session]> items in
      Some (if rememberUsername
            then <[REMEMBERED_USER_KEY := username (user session)]> items
            else delete REMEMBERED_USER_KEY items)
  end.

Definition clearSession (storage : Storage) : Storage :=
  delete SESSION_KEY <$> storage.

Definition getRememberedUsername (storage : Storage) : string :=
  match storage with
  | Some items => default "" (items !! REMEMBERED_USER_KEY)
  | None => ""
  end.

Definition getAccessToken (now : Z) (storage : Storage)
    : option string * Storage :=
  let '(session, storage') := getStoredSession now storage in
  (access_token <$> session, storage').

End WithJson.

End Session.

(** ** The requests of the transactions page that change the server *)

Module Wire.
Import Transactions.

(** POST /instruments, and the requests on /transactions.  The other
    calls of the page (the lists, the quote lookup) are GET requests:
    they read the server and are not kept. *)
Inductive Mutation :=
  | CreateInstrument (body : InstrumentPayload)
  | OnTransactions (req : Request).

(** A backend that also keeps every request that changes it, oldest
    first. *)
#[export] Instance recorded {S : Type} `{Backend S}
    : Backend (S * list Mutation) := {
  get_all srv := get_all srv.1;
  get_instruments srv := get_instruments srv.1;
  lookup_quote symbol srv := lookup_quote symbol srv.1;
  post_instrument body srv :=
    let '(r, s') := post_instrument body srv.1 in
    (r, (s', srv.2 ++ [CreateInstrument body]));
  send req srv :=
    let '(r, s') := send req srv.1 in (r, (s', srv.2 ++ [OnTransactions req]))
}.

End Wire.

(** ** More sample data *)

Module MoreSamples.
Import Samples.

(** A ledger whose quote provider finds every symbol. *)
Definition quotingLedger : Ledger.State :=
  Ledger.mkLedger [] 1 0 sampleRegistry []
    (fun symbol =>
       Ok (Transactions.mkLookup symbol None true "ok" (Some "Microsoft")
             (Some "410.5") (Some "usd") (Some "NASDAQ") (Some "EQUITY")
             None)).

(** A BUY of 0.00000001 units at the price 0.00000001 of a symbol that
    the page does not hold. *)
Definition tinyBuy : Transactions.TransactionForm :=
  Transactions.mkForm "BUY" 1 None (Some "msft") None
    (Some (Num.of_ratio false 1 100000000))
    (Some (Num.of_ratio false 1 100000000)) None None None "usd"
    "2026-02-08T10:00:00" None.


(** A BUY whose symbol is blank. *)
Definition blankBuy : Transactions.TransactionForm :=
  Transactions.mkForm "BUY" 1 None (Some "  ") None (Some (Num.of_Z 10))
         (Some (Num.of_Z 100)) None None None "usd" "2026-02-08T10:00:00"
         None.

(** The body that [buyForm] posts. *)
Definition buyBody : Transactions.TransactionPayload :=
  Transactions.mkPayload "BUY" 1 None (Some 1) (Some (Num.of_Z 10)) (Some (Num.of_Z 100))
            (Some (Num.of_Z 1000)) (Num.of_Z 1) Num.zero "USD"
            "2026-02-08T02:00:00.000Z" "Asia/Shanghai" None.

(** A ledger whose quote provider knows no symbol. *)
Definition unknownLedger : Ledger.State :=
  Ledger.mkLedger [] 1 0 sampleRegistry []
    (fun symbol =>
       Ok (Transactions.mkLookup symbol None false "not_found" None None None None None
                    None)).

(** A row of the ledger. *)
Definition cashRow : Transactions.Transaction :=
  Transactions.mkTx 7 "CASH_IN" 1 None None None (Num.of_Z 10000) Num.zero Num.zero
       "cny" "2024-03-15T01:30:00+00:00" "Asia/Shanghai" None None.

(** A node that names itself as parent. *)
Definition selfParent : Allocation.AllocationNode :=
  Allocation.mkNode 8 (Some 8) "loop" (Num.of_Z 100) 0.

End MoreSamples.

(** ** Sample sessions *)

Module SessionSamples.
Import Session.

Definition sampleUser : AuthUser :=
  mkUser 1 "alice" "ADMIN" true None "2024-01-01T00:00:00Z"
         "2024-01-01T00:00:00Z".

Definition sampleSession (expires : string) : AuthSession :=
  mkSession "t0k3n" "bearer" expires sampleUser.

Fixpoint beforeSpace (s : string) : string :=
  match s with
  | EmptyString => EmptyString
  | String c rest =>
      if Ascii.eqb c " " then EmptyString else String c (beforeSpace rest)
  end.

Fixpoint afterSpace (s : string) : string :=
  match s with
  | EmptyString => EmptyString
  | String c rest => if Ascii.eqb c " " then rest else afterSpace rest
  end.

Definition nonBlank (s : string) : option string :=
  if String.eqb s "" then None else Some s.

(** A codec for the samples: the token, a space and the expiry stand for
    a session of [sampleUser]. *)
Definition sampleJson : Json := {|
  stringify session := access_token session +:+ " " +:+ expires_at session;
  parse raw :=
    Some (mkParsed (nonBlank (beforeSpace raw)) (nonBlank (afterSpace raw))
                   (Some sampleUser))
|}.

(** A browser in the time zone Asia/Shanghai: a date-time without an
    offset is local time, eight hours ahead of UTC. *)
Definition shanghaiHost : JSDate.DateHost :=
  fun value => JSDate.parseIsoInstant (value +:+ "+08:00").

End SessionSamples.

(** * Theorems *)

(** ** The allocation tree *)

Module AllocationFacts.
Import Allocation.

Lemma nodeMap_foldl_lookup (l : list AllocationNode)
    (m : gmap Z AllocationNode) (k : Z) (n : AllocationNode) :
  foldl (fun m item => <[id item := item]> m) m l !! k = Some n ->
  (n ∈ l /\ id n = k) \/ m !! k = Some n.
Proof.
  revert m. induction l as [|a l IH]; intros m Hl; simpl in *.
  - by right.
  - destruct (IH _ Hl) as [[Hin Hid]|Hm].
    + left. split; [by apply elem_of_cons; right | done].
    + destruct (decide (id a = k)) as [<-|Hne].
      * rewrite lookup_insert_eq in Hm. injection Hm as <-.
        left. split; [by apply elem_of_cons; left | done].
      * rewrite lookup_insert_ne in Hm by done. by right.
Qed.

Lemma nodeMap_lookup (nodes : list AllocationNode) (k : Z)
    (n : AllocationNode) :
  nodeMap nodes !! k = Some n -> n ∈ nodes /\ id n = k.
Proof.
  intros Hl. destruct (nodeMap_foldl_lookup _ _ _ _ Hl) as [?|Hm]; [done|].
  by rewrite lookup_empty in Hm.
Qed.

Lemma nodeMap_foldl_notin (l : list AllocationNode)
    (m : gmap Z AllocationNode) (k : Z) :
  k ∉ map id l ->
  foldl (fun m item => <[id item := item]> m) m l !! k = m !! k.
Proof.
  revert m. induction l as [|a l IH]; intros m Hk; simpl in *; [done|].
  apply not_elem_of_cons in Hk as [Hka Hkl].
  rewrite IH by done. by rewrite lookup_insert_ne.
Qed.

Lemma nodeMap_lookup_NoDup (nodes : list AllocationNode)
    (n : AllocationNode) :
  NoDup (map id nodes) -> n ∈ nodes -> nodeMap nodes !! id n = Some n.
Proof.
  unfold nodeMap. generalize (∅ : gmap Z AllocationNode).
  induction nodes as [|a l IH]; intros m Hnd Hin; simpl in *.
  - by apply elem_of_nil in Hin.
  - apply NoDup_cons in Hnd as [Ha Hnd].
    apply elem_of_cons in Hin as [->|Hin].
    + rewrite nodeMap_foldl_notin by done. by rewrite lookup_insert_eq.
    + by apply IH.
Qed.

(** More stack never changes an answer. *)
Lemma globalWeight_mono (f f' : nat) (nm : gmap Z AllocationNode)
    (n : AllocationNode) (w : number) :
  globalWeight f nm n = Some w -> (f <= f')%nat ->
  globalWeight f' nm n = Some w.
Proof.
  revert f' n w. induction f as [|f IH]; intros f' n w Hw Hle; [done|].
  destruct f' as [|f']; [lia|]. simpl in *.
  destruct (parent_id n) as [pid|]; [|done].
  destruct (nm !! pid) as [p|]; [|done].
  destruct (globalWeight f nm p) as [pw|] eqn:Hp; [|done].
  rewrite (IH f' p pw Hp) by lia. done.
Qed.

Lemma globalWeight_agree (f f' : nat) (nm : gmap Z AllocationNode)
    (n : AllocationNode) (w w' : number) :
  globalWeight f nm n = Some w -> globalWeight f' nm n = Some w' -> w = w'.
Proof.
  intros Hw Hw'.
  destruct (Nat.le_ge_cases f f') as [Hle|Hle].
  - rewrite (globalWeight_mono _ _ _ _ _ Hw Hle) in Hw'. congruence.
  - rewrite (globalWeight_mono _ _ _ _ _ Hw' Hle) in Hw. congruence.
Qed.

Lemma chainEnds_globalWeight (f : nat) (nm : gmap Z AllocationNode)
    (n : AllocationNode) :
  chainEnds f nm n = true <-> is_Some (globalWeight f nm n).
Proof.
  revert n. induction f as [|f IH]; intros n; simpl.
  - split; [done | intros [? ?]; done].
  - destruct (parent_id n) as [pid|]; [|by split; eauto].
    destruct (nm !! pid) as [p|]; [|by split; eauto].
    rewrite IH. destruct (globalWeight f nm p); split; eauto;
      intros [? ?]; done.
Qed.

Lemma memoSound_insert nm memo n f w :
  memoSound nm memo -> nm !! id n = Some n ->
  globalWeight f nm n = Some w ->
  memoSound nm (<[id n := w]> memo).
Proof.
  intros Hs Hn Hw k v Hk.
  destruct (decide (id n = k)) as [<-|Hne].
  - rewrite lookup_insert_eq in Hk. injection Hk as <-. eauto.
  - rewrite lookup_insert_ne in Hk by done. eauto.
Qed.

Lemma calc_sound (f : nat) (nm : gmap Z AllocationNode)
    (n : AllocationNode) (memo : gmap Z number) :
  keysById nm -> memoSound nm memo -> nm !! id n = Some n ->
  chainEnds f nm n = true ->
  exists w memo',
    calc f nm n memo = Some (w, memo')
    /\ globalWeight f nm n = Some w
    /\ memo' !! id n = Some w
    /\ memoSound nm memo'
    /\ (forall k v, memo !! k = Some v -> memo' !! k = Some v).
Proof.
  intros Hkeys. revert n memo.
  induction f as [|f IH]; intros n memo Hs Hn Hc; [done|].
  pose proof (proj1 (chainEnds_globalWeight _ _ _) Hc) as [w0 Hw0].
  simpl in *.
  destruct (memo !! id n) as [w|] eqn:Hm.
  - destruct (Hs _ _ Hm) as (n' & f' & Hn' & Hw').
    assert (n' = n) as -> by congruence.
    assert (w = w0) as ->
      by exact (globalWeight_agree f' (Datatypes.S f) nm n w w0 Hw' Hw0).
    exists w0, memo. repeat split; done.
  - destruct (parent_id n) as [pid|] eqn:Hp.
    + destruct (nm !! pid) as [p|] eqn:Hpn.
      * pose proof (Hkeys _ _ Hpn) as Hpid. subst pid.
        destruct (IH p memo Hs Hpn Hc) as (pw & memo1 & Hcalc & Hgw & _ & Hs1 & Hext).
        rewrite Hcalc, Hgw. eexists _, _. repeat split.
        -- by rewrite lookup_insert_eq.
        -- eapply (memoSound_insert _ _ _ (Datatypes.S f)); [done..|].
           simpl. by rewrite Hp, Hpn, Hgw.
        -- intros k v Hk. destruct (decide (id n = k)) as [<-|Hne].
           ++ congruence.
           ++ rewrite lookup_insert_ne by done. eauto.
      * eexists _, _. repeat split.
        -- by rewrite lookup_insert_eq.
        -- eapply (memoSound_insert _ _ _ 1); [done..|].
           simpl. by rewrite Hp, Hpn.
        -- intros k v Hk. destruct (decide (id n = k)) as [<-|Hne].
           ++ congruence.
           ++ by rewrite lookup_insert_ne.
    + eexists _, _. repeat split.
      * by rewrite lookup_insert_eq.
      * eapply (memoSound_insert _ _ _ 1); [done..|].
        simpl. by rewrite Hp.
      * intros k v Hk. destruct (decide (id n = k)) as [<-|Hne].
        -- congruence.
        -- by rewrite lookup_insert_ne.
Qed.

Lemma forEach_calc_sound (f : nat) (nm : gmap Z AllocationNode)
    (l : list AllocationNode) (memo : gmap Z number) :
  keysById nm -> memoSound nm memo ->
  (forall n, n ∈ l -> nm !! id n = Some n /\ chainEnds f nm n = true) ->
  exists memo',
    foldl (fun acc node =>
             match acc with
             | None => None
             | Some map => snd <$> calc f nm node map
             end) (Some memo) l = Some memo'
    /\ memoSound nm memo'
    /\ (forall k v, memo !! k = Some v -> memo' !! k = Some v)
    /\ (forall n, n ∈ l -> memo' !! id n = globalWeight f nm n).
Proof.
  intros Hkeys. revert memo.
  induction l as [|a l IH]; intros memo Hs Hl; simpl.
  - exists memo. repeat split; try done.
    intros n Hn. by apply elem_of_nil in Hn.
  - destruct (Hl a) as [Ha Hc]; [by apply elem_of_cons; left|].
    destruct (calc_sound f nm a memo Hkeys Hs Ha Hc)
      as (w & memo1 & Hcalc & Hgw & Hida & Hs1 & Hext1).
    rewrite Hcalc. simpl.
    destruct (IH memo1 Hs1) as (memo2 & Hfold & Hs2 & Hext2 & Hall).
    { intros n Hn. apply Hl. by apply elem_of_cons; right. }
    exists memo2. repeat split; try done.
    + eauto.
    + intros n Hn. apply elem_of_cons in Hn as [->|Hn]; [|by apply Hall].
      rewrite Hgw. by apply Hext2.
Qed.

Lemma isForest_spec (nodes : list AllocationNode) :
  isForest nodes = true ->
  NoDup (map id nodes)
  /\ forall n, n ∈ nodes ->
       chainEnds (length nodes) (nodeMap nodes) n = true.
Proof.
  unfold isForest. intros [Hnd Hall]%andb_true_iff.
  apply bool_decide_eq_true in Hnd. split; [done|].
  intros n Hn. rewrite forallb_forall in Hall. apply Hall.
  by apply list_elem_of_In.
Qed.

(** C2. In an allocation tree every node's entry of the memoised
    [nodeGlobalWeightMap] is the global weight that the plain recursion
    gives: the own target weight at a root, 0 under a parent id that
    names no node, and otherwise the parent's entry times the own
    target weight, divided by 100. *)
Theorem nodeGlobalWeightMap_correct (nodes : list AllocationNode) :
  isForest nodes = true ->
  exists M : gmap Z number,
    nodeGlobalWeightMap nodes = Some M
    /\ forall node, node ∈ nodes ->
         M !! id node = globalWeight (length nodes) (nodeMap nodes) node
         /\ match parent_id node with
            | None => M !! id node = Some (target_weight node)
            | Some pid =>
                match nodeMap nodes !! pid with
                | None => M !! id node = Some Num.zero
                | Some parent =>
                    exists parentWeight,
                      M !! id parent = Some parentWeight
                      /\ M !! id node =
                           Some (Num.div
                                   (Num.mul parentWeight (target_weight node))
                                   Num.hundred)
                end
            end.
Proof.
  intros [Hnd Hchain]%isForest_spec.
  assert (Hkeys : keysById (nodeMap nodes)).
  { intros k n Hk. by apply nodeMap_lookup in Hk as [_ ?]. }
  destruct (forEach_calc_sound (length nodes) (nodeMap nodes) nodes ∅ Hkeys)
    as (M & Hfold & _ & _ & Hall).
  { intros k w Hk. by rewrite lookup_empty in Hk. }
  { intros n Hn. split; [by apply nodeMap_lookup_NoDup | by apply Hchain]. }
  exists M. split; [exact Hfold|].
  intros node Hnode. split; [by apply Hall|].
  rewrite (Hall node Hnode).
  pose proof (Hchain node Hnode) as Hc.
  clear Hfold. revert Hall Hc. generalize (length nodes) as L.
  intros [|f] Hall Hc; [done|]. simpl in Hc |- *.
  destruct (parent_id node) as [pid|]; [|done].
  destruct (nodeMap nodes !! pid) as [parent|] eqn:Hp; [|done].
  apply nodeMap_lookup in Hp as [Hpin _].
  apply chainEnds_globalWeight in Hc as [pw Hpw].
  exists pw. rewrite Hpw. split; [|done].
  rewrite (Hall parent Hpin).
  apply (globalWeight_mono f); [done | lia].
Qed.

(** *** Sorting and lookups by id *)

Lemma sort_insert_perm {A} (cmp : A -> A -> Z) (x : A) (l : list A) :
  sort_insert cmp x l ≡ₚ x :: l.
Proof.
  induction l as [|y l IH]; simpl; [done|].
  destruct (cmp x y <=? 0); [done|].
  rewrite IH. apply Permutation_swap.
Qed.

Lemma sortBy_perm {A} (cmp : A -> A -> Z) (l : list A) :
  sortBy cmp l ≡ₚ l.
Proof.
  induction l as [|x l IH]; simpl; [done|].
  unfold sortBy in *. simpl. rewrite sort_insert_perm. by rewrite IH.
Qed.

Lemma elem_of_getSiblingNodes `{Collator} (nodes : list AllocationNode)
    (parentId : option Z) (n : AllocationNode) :
  n ∈ getSiblingNodes nodes parentId <-> n ∈ nodes /\ parent_id n = parentId.
Proof.
  unfold getSiblingNodes. rewrite sortBy_perm.
  rewrite list_elem_of_filter. tauto.
Qed.

Lemma same_id_same_node (l : list AllocationNode) (m n : AllocationNode) :
  NoDup (map id l) -> m ∈ l -> n ∈ l -> id m = id n -> m = n.
Proof.
  induction l as [|a l IH]; intros Hnd Hm Hn Hid; simpl in *.
  - by apply elem_of_nil in Hm.
  - apply NoDup_cons in Hnd as [Ha Hnd].
    apply elem_of_cons in Hm as [->|Hm]; apply elem_of_cons in Hn as [->|Hn].
    + done.
    + exfalso. apply Ha. rewrite Hid. by apply list_elem_of_fmap_2.
    + exfalso. apply Ha. rewrite <- Hid. by apply list_elem_of_fmap_2.
    + by apply IH.
Qed.

(** *** The sibling weight batch *)

Import AllocationServer.

Lemma proposedWeight_payload (st : PageState) (siblings : list AllocationNode)
    (n : AllocationNode) :
  (forall m, m ∈ siblings -> id m = id n -> m = n) -> n ∈ siblings ->
  proposedWeight (payloadItems st siblings) n
  = default (target_weight n) (nodeWeightDrafts st !! id n).
Proof.
  unfold proposedWeight.
  induction siblings as [|a l IH]; intros Huniq Hn; simpl.
  - by apply elem_of_nil in Hn.
  - destruct (id a =? id n) eqn:Heq.
    + apply Z.eqb_eq in Heq.
      rewrite (Huniq a) by (done || by apply elem_of_cons; left). done.
    + apply elem_of_cons in Hn as [->|Hn]; [by rewrite Z.eqb_refl in Heq|].
      apply IH; [|done]. intros m Hm. apply Huniq. by apply elem_of_cons; right.
Qed.

Lemma isHundred_99_101 :
  isHundred (Num.of_Z 99) = false /\ isHundred (Num.of_Z 101) = false.
Proof. split; vm_compute; reflexivity. Qed.

(** C1. The save handler sends nothing when the proposed weights of the
    children of [parentId] do not total 100 within the tolerance: the
    server state, the node list and the drafts stay as they were,
    whatever the backend is, and totals of 99 and of 101 are such totals.
    When the total is within the tolerance the whole batch goes out in
    one request, and the backend of the spec gives every child its
    proposed weight and leaves every other node alone. *)
Theorem saveNodeSiblingWeights_gate `{Collator} (parentId : option Z)
    (st : PageState) :
  (forall (S : Type) (B : Backend S) (srv : S),
      isHundred (proposedTotal st parentId) = false ->
      let r := saveNodeSiblingWeights parentId st srv in
      r.2 = srv /\ nodes r.1 = nodes st
      /\ nodeWeightDrafts r.1 = nodeWeightDrafts st
      /\ error r.1 = error st)
  /\ (proposedTotal st parentId = Num.of_Z 99
      \/ proposedTotal st parentId = Num.of_Z 101 ->
      isHundred (proposedTotal st parentId) = false)
  /\ (forall srv : ServerState,
      isHundred (proposedTotal st parentId) = true ->
      srv_nodes srv = nodes st -> NoDup (map id (nodes st)) ->
      let r := saveNodeSiblingWeights parentId st srv in
      nodes r.1 = srv_nodes r.2
      /\ map id (srv_nodes r.2) = map id (nodes st)
      /\ (forall n, n ∈ nodes st -> parent_id n = parentId ->
            mkNode (id n) (parent_id n) (name n)
                   (default (target_weight n) (nodeWeightDrafts st !! id n))
                   (order_index n) ∈ srv_nodes r.2)
      /\ (forall n, n ∈ nodes st -> parent_id n <> parentId ->
            n ∈ srv_nodes r.2)).
Proof.
  split; [|split].
  - intros S B srv Hno. unfold saveNodeSiblingWeights.
    destruct (length _ =? 0)%nat; [done|].
    fold (proposedWeights st parentId). fold (proposedTotal st parentId).
    rewrite Hno. done.
  - intros [-> | ->]; apply isHundred_99_101.
  - intros srv Hyes Hsync Hnd. unfold saveNodeSiblingWeights.
    destruct (length _ =? 0)%nat eqn:Hlen.
    + apply Nat.eqb_eq, nil_length_inv in Hlen.
      simpl. rewrite Hsync. repeat split; try done.
      intros n Hn Hp. exfalso.
      assert (Hin : n ∈ getSiblingNodes (nodes st) parentId)
        by by apply elem_of_getSiblingNodes.
      rewrite Hlen in Hin. by apply elem_of_nil in Hin.
    + fold (proposedWeights st parentId). fold (proposedTotal st parentId).
      rewrite Hyes. simpl. unfold batchUpdateWeights.
      fold (proposedTotal st parentId). rewrite Hyes. simpl.
      rewrite Hsync. repeat split.
      * rewrite <- list_fmap_compose. apply list_fmap_ext.
        intros i n _. simpl. by destruct (bool_decide _).
      * intros n Hn Hp.
        apply (list_elem_of_fmap_2' _ _ n); [done|].
        rewrite bool_decide_eq_true_2 by done. f_equal.
        unfold proposedWeights. symmetry. apply proposedWeight_payload.
        -- intros m Hm Hid. apply elem_of_getSiblingNodes in Hm as [Hm _].
           by apply (same_id_same_node (nodes st)).
        -- by apply elem_of_getSiblingNodes.
      * intros n Hn Hp.
        apply (list_elem_of_fmap_2' _ _ n); [done|].
        by rewrite bool_decide_eq_false_2.
Qed.

(** *** Leaves and bindings *)

Lemma elem_of_parentSet (nodes : list AllocationNode) (k : Z) :
  k ∈ parentSet nodes <-> exists m, m ∈ nodes /\ parent_id m = Some k.
Proof.
  unfold parentSet.
  assert (Hgen : forall (l : list AllocationNode) (s : gset Z),
    k ∈ foldl (fun s node =>
                 match parent_id node with
                 | Some p => {[p]} ∪ s
                 | None => s
                 end) s l
    <-> k ∈ s \/ exists m, m ∈ l /\ parent_id m = Some k).
  { induction l as [|a l IH]; intros s; simpl.
    - split; [by left|]. intros [?|(m & Hm & _)]; [done|].
      by apply elem_of_nil in Hm.
    - rewrite IH. split.
      + intros [Hk|(m & Hm & Hp)].
        * destruct (parent_id a) as [p|] eqn:Hpa; [|by left].
          apply elem_of_union in Hk as [Hk|Hk]; [|by left].
          apply elem_of_singleton in Hk as ->.
          right. exists a. split; [by apply elem_of_cons; left | done].
        * right. exists m. split; [by apply elem_of_cons; right | done].
      + intros [Hk|(m & Hm & Hp)].
        * left. destruct (parent_id a); [|done].
          apply elem_of_union. by right.
        * apply elem_of_cons in Hm as [->|Hm].
          -- left. rewrite Hp. apply elem_of_union. left.
             by apply elem_of_singleton.
          -- right. eauto. }
  rewrite Hgen. split; [|by right].
  intros [Hk|?]; [|done]. by apply elem_of_empty in Hk.
Qed.

Lemma elem_of_leafNodes (nodes : list AllocationNode) (n : AllocationNode) :
  n ∈ leafNodes nodes
  <-> n ∈ nodes /\ forall m, m ∈ nodes -> parent_id m <> Some (id n).
Proof.
  unfold leafNodes. rewrite list_elem_of_filter, elem_of_parentSet.
  split.
  - intros [Hno Hn]. split; [done|]. intros m Hm Hp. apply Hno. eauto.
  - intros [Hn Hno]. split; [|done]. intros (m & Hm & Hp). by apply (Hno m).
Qed.

Lemma self_parent_never_ends (k : nat) (nm : gmap Z AllocationNode)
    (n : AllocationNode) :
  nm !! id n = Some n -> parent_id n = Some (id n) ->
  chainEnds k nm n = false.
Proof.
  intros Hn Hp. induction k as [|k IH]; [done|].
  simpl. by rewrite Hp, Hn.
Qed.

Lemma forest_no_self_parent (nodes : list AllocationNode)
    (n : AllocationNode) :
  isForest nodes = true -> n ∈ nodes -> parent_id n <> Some (id n).
Proof.
  intros [Hnd Hchain]%isForest_spec Hn Hp.
  pose proof (Hchain n Hn) as Hc.
  rewrite self_parent_never_ends in Hc; [done| |done].
  by apply nodeMap_lookup_NoDup.
Qed.

Lemma sortBy_length {A} (cmp : A -> A -> Z) (l : list A) :
  length (sortBy cmp l) = length l.
Proof. by rewrite sortBy_perm. Qed.

Lemma grouped_lookup (l : list AllocationNode)
    (m : gmap (option Z) (list AllocationNode)) (key : option Z) :
  default [] (foldl (fun m node =>
                       let key := parent_id node in
                       <[key := default [] (m !! key) ++ [node]]> m) m l
              !! key)
  = default [] (m !! key) ++ filter (fun n => parent_id n = key) l.
Proof.
  revert m. induction l as [|a l IH]; intros m; simpl.
  - by rewrite app_nil_r.
  - rewrite IH. destruct (decide (parent_id a = key)) as [Heq|Hne].
    + rewrite filter_cons_True by done. subst key.
      rewrite lookup_insert_eq. simpl. by rewrite <- app_assoc.
    + rewrite filter_cons_False by done.
      by rewrite lookup_insert_ne.
Qed.

Lemma selectedNodeHasChildren_spec `{Collator} {S} `{Backend S}
    (st : PageState) (node : AllocationNode) :
  selectedNode st = Some node ->
  selectedNodeHasChildren st = true
  <-> exists m, m ∈ nodes st /\ parent_id m = Some (id node).
Proof.
  intros Hsel. unfold selectedNodeHasChildren. rewrite Hsel.
  unfold childrenMap. rewrite lookup_fmap.
  pose proof (grouped_lookup (nodes st) ∅ (Some (id node))) as Hg.
  rewrite lookup_empty in Hg. simpl in Hg.
  destruct (foldl _ _ _ !! Some (id node)) as [l|]; simpl in *.
  - rewrite sortBy_length, Hg. split.
    + intros Hlen. apply Nat.ltb_lt in Hlen.
      destruct (filter _ _) as [|m l'] eqn:Hf; [simpl in Hlen; lia|].
      assert (Hm : m ∈ filter (fun n => parent_id n = Some (id node)) (nodes st))
        by (rewrite Hf; by apply elem_of_cons; left).
      apply list_elem_of_filter in Hm as [Hp Hm]. eauto.
    + intros (m & Hm & Hp). apply Nat.ltb_lt.
      assert (Hin : m ∈ filter (fun n => parent_id n = Some (id node)) (nodes st))
        by by apply list_elem_of_filter.
      destruct (filter _ _); [by apply elem_of_nil in Hin | simpl; lia].
  - split; [done|]. intros (m & Hm & Hp).
    assert (Hin : m ∈ filter (fun n => parent_id n = Some (id node)) (nodes st))
      by by apply list_elem_of_filter.
    rewrite <- Hg in Hin. by apply elem_of_nil in Hin.
Qed.

Lemma selectedNode_in_nodes (st : PageState) (node : AllocationNode) :
  selectedNode st = Some node -> node ∈ nodes st.
Proof.
  unfold selectedNode. destruct (selectedNodeId st) as [i|]; [|done].
  destruct (i =? 0); [done|]. intros Hl. by apply nodeMap_lookup in Hl as [? _].
Qed.

Lemma canBind_iff_leaf `{Collator} {S} `{Backend S}
    (st : PageState) (node : AllocationNode) :
  selectedNode st = Some node ->
  selectedNodeCanBindInstruments st = true <-> node ∈ leafNodes (nodes st).
Proof.
  intros Hsel. unfold selectedNodeCanBindInstruments. rewrite Hsel.
  rewrite negb_true_iff, <- not_true_iff_false.
  rewrite (selectedNodeHasChildren_spec st node Hsel), elem_of_leafNodes.
  pose proof (selectedNode_in_nodes st node Hsel). split.
  - intros Hno. split; [done|]. intros m Hm Hp. apply Hno. eauto.
  - intros [_ Hno] (m & Hm & Hp). by apply (Hno m).
Qed.

Lemma bindings_cons (i : Instrument) (l : list Instrument) :
  bindings (i :: l)
  = match allocation_node_id i with
    | Some k => (instrument_id i, k) :: bindings l
    | None => bindings l
    end.
Proof. unfold bindings. simpl. by destruct (allocation_node_id i). Qed.

Lemma bindings_overwrite_absent (draft n : Z) (l : list Instrument) :
  draft ∉ map instrument_id l ->
  filter (fun b => b.1 = draft)
         (bindings (map (overwriteBinding draft (Some n)) l)) = [].
Proof.
  induction l as [|a l IH]; intros Hno; [done|].
  change (draft ∉ instrument_id a :: map instrument_id l) in Hno.
  apply not_elem_of_cons in Hno as [Hna Hnl].
  change (map (overwriteBinding draft (Some n)) (a :: l))
    with (overwriteBinding draft (Some n) a
          :: map (overwriteBinding draft (Some n)) l).
  rewrite bindings_cons. unfold overwriteBinding at 1 2.
  destruct (instrument_id a =? draft) eqn:Heq; [apply Z.eqb_eq in Heq; done|].
  destruct (allocation_node_id a) as [k|]; [|by apply IH].
  rewrite filter_cons_False by (simpl; congruence). by apply IH.
Qed.

Lemma bindings_overwrite_present (draft n : Z) (l : list Instrument) :
  NoDup (map instrument_id l) -> draft ∈ map instrument_id l ->
  filter (fun b => b.1 = draft)
         (bindings (map (overwriteBinding draft (Some n)) l)) = [(draft, n)].
Proof.
  induction l as [|a l IH]; intros Hnd Hin.
  - by apply elem_of_nil in Hin.
  - change (NoDup (instrument_id a :: map instrument_id l)) in Hnd.
    change (draft ∈ instrument_id a :: map instrument_id l) in Hin.
    apply NoDup_cons in Hnd as [Ha Hnd].
    change (map (overwriteBinding draft (Some n)) (a :: l))
      with (overwriteBinding draft (Some n) a
            :: map (overwriteBinding draft (Some n)) l).
    rewrite bindings_cons. unfold overwriteBinding at 1 2.
    destruct (instrument_id a =? draft) eqn:Heq.
    + apply Z.eqb_eq in Heq. simpl.
      rewrite filter_cons_True by done. rewrite Heq. f_equal.
      apply bindings_overwrite_absent. by rewrite <- Heq.
    + apply Z.eqb_neq in Heq.
      apply elem_of_cons in Hin as [Hin|Hin]; [done|].
      destruct (allocation_node_id a) as [k|]; [|by apply IH].
      rewrite filter_cons_False by (simpl; congruence). by apply IH.
Qed.

(** C6. In an allocation tree the page's leaves are the nodes that no
    other node names as parent.  Binding to the selected node is refused
    without any request when that node has children; on a selected leaf
    the request goes out, and the backend of the spec overwrites the
    instrument's single [allocation_node_id]: the instrument list keeps
    its ids and holds exactly one binding for the instrument, the new
    one. *)
Theorem leaf_binding `{Collator} (st : PageState) :
  isForest (nodes st) = true ->
  (forall n, n ∈ nodes st ->
     n ∈ leafNodes (nodes st)
     <-> forall m, m ∈ nodes st -> m <> n -> parent_id m <> Some (id n))
  /\ (forall node, selectedNode st = Some node ->
       (node ∉ leafNodes (nodes st) ->
        forall (S : Type) (B : Backend S) (srv : S),
          let r := bindInstrumentToNode st srv in
          r.2 = srv /\ instruments r.1 = instruments st
          /\ toasts r.1 = toasts st ++ [SelectLeafAndInstrument])
       /\ (node ∈ leafNodes (nodes st) ->
           forall (srv : ServerState) (draft : Z),
             leafInstrumentDraftId st = Some draft ->
             srv_nodes srv = nodes st ->
             NoDup (map instrument_id (srv_instruments srv)) ->
             draft ∈ map instrument_id (srv_instruments srv) ->
             let r := bindInstrumentToNode st srv in
             messageText r.1 = InstrumentAdded
             /\ instruments r.1 = srv_instruments r.2
             /\ map instrument_id (srv_instruments r.2)
                = map instrument_id (srv_instruments srv)
             /\ filter (fun b => b.1 = draft) (bindings (srv_instruments r.2))
                = [(draft, id node)]
             /\ forall i, i ∈ srv_instruments srv ->
                  instrument_id i <> draft -> i ∈ srv_instruments r.2)).
Proof.
  intros Hforest. split.
  - intros n Hn. rewrite elem_of_leafNodes. split.
    + intros [_ Hno] m Hm _. by apply Hno.
    + intros Hno. split; [done|]. intros m Hm Hp.
      destruct (decide (id m = id n)) as [Heq|Hne].
      * assert (m = n) as ->.
        { apply (same_id_same_node (nodes st)); try done.
          by apply isForest_spec in Hforest as [? _]. }
        by apply (forest_no_self_parent (nodes st) n).
      * apply (Hno m); [done | congruence | done].
  - intros node Hsel. split.
    + intros Hnoleaf S B srv. unfold bindInstrumentToNode. rewrite Hsel.
      destruct (selectedNodeCanBindInstruments st) eqn:Hcan; [|done].
      exfalso. apply Hnoleaf. by apply (canBind_iff_leaf st node Hsel).
    + intros Hleaf srv draft Hdraft Hsync Hnd Hin.
      unfold bindInstrumentToNode. rewrite Hsel, Hdraft.
      rewrite (proj2 (canBind_iff_leaf st node Hsel) Hleaf).
      simpl. unfold patchInstrument.
      assert (Hex : existsb (fun i => instrument_id i =? draft)
                      (srv_instruments srv) = true).
      { apply existsb_exists. apply list_elem_of_fmap in Hin as (i & -> & Hi).
        exists i. split; [by apply list_elem_of_In | apply Z.eqb_refl]. }
      rewrite Hex. simpl.
      assert (Hnode : existsb (fun n => id n =? id node) (srv_nodes srv) = true).
      { apply existsb_exists. exists node. split; [|apply Z.eqb_refl].
        apply list_elem_of_In. rewrite Hsync.
        by apply selectedNode_in_nodes. }
      rewrite Hnode. simpl.
      assert (Hch : hasChildren (srv_nodes srv) (id node) = false).
      { apply not_true_iff_false. intros Hc. apply existsb_exists in Hc
          as (m & Hm & Hp). apply bool_decide_eq_true in Hp.
        apply elem_of_leafNodes in Hleaf as [_ Hno].
        apply (Hno m); [|done]. rewrite <- Hsync. by apply list_elem_of_In. }
      rewrite Hch. simpl. repeat split.
      * rewrite <- list_fmap_compose. apply list_fmap_ext.
        intros k i _. simpl. unfold overwriteBinding.
        by destruct (instrument_id i =? draft).
      * by apply (bindings_overwrite_present draft (id node)).
      * intros i Hi Hne. apply (list_elem_of_fmap_2' _ _ i); [done|].
        apply Z.eqb_neq in Hne. unfold overwriteBinding. by rewrite Hne.
Qed.

(** *** The sample tree *)

Import Samples.

Lemma nodeGlobalWeightMap_correct_witness :
  isForest sampleNodes = true
  /\ exists M : gmap Z number,
       nodeGlobalWeightMap sampleNodes = Some M
       /\ forall node, node ∈ sampleNodes ->
            M !! id node
            = globalWeight (length sampleNodes) (nodeMap sampleNodes) node
            /\ match parent_id node with
               | None => M !! id node = Some (target_weight node)
               | Some pid =>
                   match nodeMap sampleNodes !! pid with
                   | None => M !! id node = Some Num.zero
                   | Some parent =>
                       exists parentWeight,
                         M !! id parent = Some parentWeight
                         /\ M !! id node =
                              Some (Num.div
                                      (Num.mul parentWeight
                                               (target_weight node))
                                      Num.hundred)
                   end
               end.
Proof.
  split; [vm_compute; reflexivity|].
  apply (nodeGlobalWeightMap_correct sampleNodes). vm_compute; reflexivity.
Defined.

Lemma sampleNodes_NoDup : NoDup (map id sampleNodes).
Proof.
  apply (bool_decide_eq_true_1 (NoDup (map id sampleNodes))).
  vm_compute; reflexivity.
Qed.

Lemma saveNodeSiblingWeights_gate_witness :
  (isHundred (proposedTotal (samplePage (Num.of_Z 39)) None) = false
   /\ (let r := saveNodeSiblingWeights None (samplePage (Num.of_Z 39))
                 sampleServer in
      r.2 = sampleServer
      /\ nodes r.1 = sampleNodes
      /\ nodeWeightDrafts r.1 = nodeWeightDrafts (samplePage (Num.of_Z 39))
      /\ error r.1 = ""))
  /\ (isHundred (proposedTotal (samplePage (Num.of_Z 45)) None) = true
      /\ (let r := saveNodeSiblingWeights None (samplePage (Num.of_Z 45))
                    sampleServer in
         nodes r.1 = srv_nodes r.2
         /\ map id (srv_nodes r.2) = map id sampleNodes
         /\ mkNode 1 None "equity" (Num.of_Z 55) 0 ∈ srv_nodes r.2
         /\ mkNode 2 None "bond" (Num.of_Z 45) 1 ∈ srv_nodes r.2
         /\ mkNode 3 (Some 1) "us" (Num.of_Z 50) 0 ∈ srv_nodes r.2)).
Proof.
  split.
  - split; [vm_compute; reflexivity|].
    apply (proj1 (saveNodeSiblingWeights_gate None (samplePage (Num.of_Z 39)))).
    vm_compute; reflexivity.
  - split; [vm_compute; reflexivity|].
    destruct (proj2 (proj2 (saveNodeSiblingWeights_gate None
                              (samplePage (Num.of_Z 45)))) sampleServer)
      as (H1 & H2 & H3 & H4).
    + vm_compute; reflexivity.
    + reflexivity.
    + exact sampleNodes_NoDup.
    + split; [exact H1|]. split; [exact H2|]. repeat split.
      * apply (H3 (mkNode 1 None "equity" (Num.of_Z 60) 0));
          [repeat constructor | reflexivity].
      * apply (H3 (mkNode 2 None "bond" (Num.of_Z 40) 1));
          [repeat constructor | reflexivity].
      * apply (H4 (mkNode 3 (Some 1) "us" (Num.of_Z 50) 0));
          [repeat constructor | discriminate].
Defined.

Lemma leaf_binding_witness :
  isForest sampleNodes = true
  /\ (let st := samplePageAt (Some 1) (Num.of_Z 45) (Some 12) in
      let node := mkNode 1 None "equity" (Num.of_Z 60) 0 in
      selectedNode st = Some node
      /\ (node ∉ leafNodes sampleNodes)
      /\ (let r := bindInstrumentToNode st sampleServer in
         r.2 = sampleServer /\ instruments r.1 = sampleInstruments
         /\ toasts r.1 = [SelectLeafAndInstrument]))
  /\ (let st := samplePageAt (Some 4) (Num.of_Z 45) (Some 11) in
      let node := mkNode 4 (Some 1) "cn" (Num.of_Z 50) 1 in
      selectedNode st = Some node
      /\ node ∈ leafNodes sampleNodes
      /\ (let r := bindInstrumentToNode st sampleServer in
         messageText r.1 = InstrumentAdded
         /\ instruments r.1 = srv_instruments r.2
         /\ map instrument_id (srv_instruments r.2) = [11; 12]
         /\ filter (fun b => b.1 = 11) (bindings (srv_instruments r.2))
            = [(11, 4)]
         /\ mkInstrument 12 "600519.SS" "Moutai" None
            ∈ srv_instruments r.2)).
Proof.
  assert (Hforest : isForest sampleNodes = true) by (vm_compute; reflexivity).
  split; [exact Hforest|]. split.
  - assert (Hsel : selectedNode (samplePageAt (Some 1) (Num.of_Z 45) (Some 12))
                   = Some (mkNode 1 None "equity" (Num.of_Z 60) 0))
      by (vm_compute; reflexivity).
    assert (Hno : mkNode 1 None "equity" (Num.of_Z 60) 0 ∉ leafNodes sampleNodes).
    { apply (bool_decide_eq_true_1 (_ ∉ _)). vm_compute; reflexivity. }
    split; [exact Hsel|]. split; [exact Hno|].
    exact (proj1 (proj2 (leaf_binding
                           (samplePageAt (Some 1) (Num.of_Z 45) (Some 12))
                           Hforest) _ Hsel) Hno _ _ sampleServer).
  - assert (Hsel : selectedNode (samplePageAt (Some 4) (Num.of_Z 45) (Some 11))
                   = Some (mkNode 4 (Some 1) "cn" (Num.of_Z 50) 1))
      by (vm_compute; reflexivity).
    assert (Hleaf : mkNode 4 (Some 1) "cn" (Num.of_Z 50) 1 ∈ leafNodes sampleNodes).
    { apply (bool_decide_eq_true_1 (_ ∈ _)). vm_compute; reflexivity. }
    split; [exact Hsel|]. split; [exact Hleaf|].
    destruct (proj2 (proj2 (leaf_binding
                              (samplePageAt (Some 4) (Num.of_Z 45) (Some 11))
                              Hforest) _ Hsel) Hleaf sampleServer 11)
      as (H1 & H2 & H3 & H4 & H5).
    + reflexivity.
    + reflexivity.
    + apply (bool_decide_eq_true_1 (NoDup _)). vm_compute; reflexivity.
    + repeat constructor.
    + split; [exact H1|]. split; [exact H2|]. split; [exact H3|].
      split; [exact H4|].
      apply (H5 (mkInstrument 12 "600519.SS" "Moutai" None));
        [repeat constructor | discriminate].
Defined.

End AllocationFacts.


(** ** Dates *)

Module JSDateFacts.
Import JSDate.

(** *** The calendar *)

Lemma DaysInYear_leap (y : Z) : DaysInYear y = 365 + leapDays y.
Proof.
  unfold leapDays, DaysInYear.
  destruct (y mod 4 =? 0), (y mod 100 =? 0), (y mod 400 =? 0); reflexivity.
Qed.

Lemma leapDays_range (y : Z) : leapDays y = 0 \/ leapDays y = 1.
Proof. unfold leapDays. destruct (DaysInYear y =? 366); auto. Qed.

Lemma DayFromYear_step (y : Z) :
  DayFromYear (y + 1) = DayFromYear y + DaysInYear y.
Proof.
  unfold DayFromYear, DaysInYear.
  destruct (y mod 4 =? 0) eqn:H4; destruct (y mod 100 =? 0) eqn:H100;
    destruct (y mod 400 =? 0) eqn:H400; simpl;
    rewrite ?Z.eqb_eq, ?Z.eqb_neq in *;
    Z.div_mod_to_equations; lia.
Qed.

Lemma DayFromYear_mono (y y' : Z) : y < y' -> DayFromYear y < DayFromYear y'.
Proof. unfold DayFromYear. intros. Z.div_mod_to_equations. lia. Qed.

(** [YearFromDay] is the year of the specification: the largest year
    that starts on or before the day. *)
Lemma YearFromDay_spec (d : Z) :
  DayFromYear (YearFromDay d) <= d < DayFromYear (YearFromDay d + 1).
Proof.
  unfold YearFromDay.
  set (y := 1970 + 400 * d / 146097).
  assert (DayFromYear (y - 1) <= d < DayFromYear (y + 2)).
  { unfold DayFromYear, y. Z.div_mod_to_equations. lia. }
  destruct (DayFromYear (y + 1) <=? d) eqn:H1.
  - apply Z.leb_le in H1. replace (y + 1 + 1) with (y + 2) by lia. lia.
  - apply Z.leb_gt in H1. destruct (d <? DayFromYear y) eqn:H2.
    + apply Z.ltb_lt in H2. replace (y - 1 + 1) with y by lia. lia.
    + apply Z.ltb_ge in H2. lia.
Qed.

Lemma YearFromDay_unique (d y : Z) :
  DayFromYear y <= d < DayFromYear (y + 1) -> YearFromDay d = y.
Proof.
  intros Hy. pose proof (YearFromDay_spec d) as Hs.
  destruct (Z.lt_trichotomy (YearFromDay d) y) as [Hlt|[Heq|Hgt]]; [|done|].
  - assert (DayFromYear (YearFromDay d + 1) <= DayFromYear y).
    { destruct (Z.eq_dec (YearFromDay d + 1) y) as [->|]; [lia|].
      apply Z.lt_le_incl, DayFromYear_mono. lia. }
    lia.
  - assert (DayFromYear (y + 1) <= DayFromYear (YearFromDay d)).
    { destruct (Z.eq_dec (y + 1) (YearFromDay d)) as [->|]; [lia|].
      apply Z.lt_le_incl, DayFromYear_mono. lia. }
    lia.
Qed.

Lemma YearFromDay_range (d lo hi : Z) :
  DayFromYear lo <= d < DayFromYear hi -> lo <= YearFromDay d < hi.
Proof.
  intros Hd. pose proof (YearFromDay_spec d) as Hs. split.
  - destruct (Z.le_gt_cases lo (YearFromDay d)) as [|Hgt]; [done|].
    assert (DayFromYear (YearFromDay d + 1) <= DayFromYear lo).
    { destruct (Z.eq_dec (YearFromDay d + 1) lo) as [->|]; [lia|].
      apply Z.lt_le_incl, DayFromYear_mono. lia. }
    lia.
  - destruct (Z.lt_ge_cases (YearFromDay d) hi) as [|Hge]; [done|].
    assert (DayFromYear hi <= DayFromYear (YearFromDay d)).
    { destruct (Z.eq_dec hi (YearFromDay d)) as [->|]; [lia|].
      apply Z.lt_le_incl, DayFromYear_mono. lia. }
    lia.
Qed.

Lemma Day_of (day tod : Z) :
  0 <= tod < msPerDay -> Day (day * msPerDay + tod) = day.
Proof. unfold Day, msPerDay. intros. Z.div_mod_to_equations. lia. Qed.

Ltac decide_ltb :=
  repeat match goal with
         | |- context [?a <? ?b] => destruct (Z.ltb_spec a b); try lia
         end.

Ltac month_cases m :=
  let Hm := fresh "Hm" in
  assert (Hm : m = 0 \/ m = 1 \/ m = 2 \/ m = 3 \/ m = 4 \/ m = 5 \/ m = 6
               \/ m = 7 \/ m = 8 \/ m = 9 \/ m = 10 \/ m = 11) by lia;
  repeat (destruct Hm as [Hm|Hm]; [subst m|]); [..|subst m].

(** A real date is the date of the day that [MakeDay] gives for it. *)
Lemma civil_of_MakeDay (Y M D t : Z) :
  1 <= M <= 12 -> 1 <= D <= daysInMonth Y M -> Day t = MakeDay Y (M - 1) D ->
  YearFromTime t = Y /\ MonthFromTime t = M - 1 /\ DateFromTime t = D.
Proof.
  intros HM HD Hday.
  assert (Hym : (M - 1) / 12 = 0 /\ (M - 1) mod 12 = M - 1)
    by (Z.div_mod_to_equations; lia).
  unfold MakeDay in Hday. destruct Hym as [Hq Hr]. rewrite Hq, Hr in Hday.
  replace (Y + 0) with Y in Hday by lia.
  destruct (leapDays_range Y) as [Hl|Hl].
  all: assert (HY : YearFromTime t = Y);
    [ unfold YearFromTime; apply YearFromDay_unique;
      rewrite DayFromYear_step, DaysInYear_leap, Hday, Hl;
      set (m := M - 1) in *; assert (0 <= m <= 11) by lia;
      replace M with (m + 1) in HD by lia; clearbody m;
      month_cases m; simpl in *; rewrite ?Hl in HD; lia
    | split; [exact HY|];
      unfold DateFromTime, MonthFromTime, DayWithinYear, InLeapYear;
      rewrite HY, Hday, Hl;
      set (m := M - 1) in *; assert (0 <= m <= 11) by lia;
      replace M with (m + 1) in HD by lia; replace D with (D + 0) by lia;
      clearbody m; month_cases m; simpl in *; rewrite ?Hl in HD;
      decide_ltb; simpl; lia ].
Qed.

(** Every day is the day that [MakeDay] gives for its own date. *)
Lemma MakeDay_of_civil (t : Z) :
  0 <= MonthFromTime t <= 11
  /\ 1 <= DateFromTime t
       <= daysInMonth (YearFromTime t) (MonthFromTime t + 1)
  /\ MakeDay (YearFromTime t) (MonthFromTime t) (DateFromTime t) = Day t.
Proof.
  pose proof (YearFromDay_spec (Day t)) as Hs.
  rewrite DayFromYear_step, DaysInYear_leap in Hs.
  fold (YearFromTime t) in Hs.
  assert (Hm : 0 <= MonthFromTime t <= 11)
    by (unfold MonthFromTime; decide_ltb; lia).
  split; [exact Hm|]. split.
  - unfold DateFromTime, MonthFromTime, DayWithinYear, InLeapYear.
    set (Y := YearFromTime t) in *. set (d := Day t) in *.
    destruct (leapDays_range Y) as [Hl|Hl]; rewrite Hl in *.
    all: decide_ltb; simpl; rewrite ?Hl; simpl; lia.
  - unfold MakeDay. rewrite Z.div_small, Z.mod_small by lia.
    replace (YearFromTime t + 0) with (YearFromTime t) by lia.
    unfold DateFromTime, DayWithinYear, InLeapYear. lia.
Qed.

Lemma time_fields (day h m s ms : Z) :
  0 <= h < 24 -> 0 <= m < 60 -> 0 <= s < 60 -> 0 <= ms < 1000 ->
  let t := MakeDate day (MakeTime h m s ms) in
  Day t = day /\ HourFromTime t = h /\ MinFromTime t = m
  /\ SecFromTime t = s /\ msFromTime t = ms.
Proof.
  intros Hh Hm Hs Hms t. subst t.
  unfold MakeDate, MakeTime, Day, HourFromTime, MinFromTime, SecFromTime,
    msFromTime, msPerDay, msPerHour, msPerMinute, msPerSecond.
  repeat split; Z.div_mod_to_equations; lia.
Qed.

Lemma time_decompose (t : Z) :
  0 <= HourFromTime t < 24 /\ 0 <= MinFromTime t < 60
  /\ 0 <= SecFromTime t < 60 /\ 0 <= msFromTime t < 1000
  /\ t = MakeDate (Day t)
                  (MakeTime (HourFromTime t) (MinFromTime t) (SecFromTime t)
                            (msFromTime t)).
Proof.
  unfold MakeDate, MakeTime, Day, HourFromTime, MinFromTime, SecFromTime,
    msFromTime, msPerDay, msPerHour, msPerMinute, msPerSecond.
  repeat split; Z.div_mod_to_equations; lia.
Qed.

(** *** Digits *)

Lemma enum_seqZ (P : Z -> Prop) `{!forall n, Decision (P n)} (lo len : Z) :
  forallb (fun n => bool_decide (P n)) (seqZ lo len) = true ->
  forall n, lo <= n < lo + len -> P n.
Proof.
  intros Hall n Hn. rewrite forallb_forall in Hall.
  eapply bool_decide_eq_true_1, Hall.
  apply list_elem_of_In, elem_of_seqZ. lia.
Qed.

Lemma digitOf_digitChar (d : Z) :
  0 <= d <= 9 -> digitOf (digitChar d) = Some d.
Proof.
  intros Hd.
  apply (enum_seqZ (fun d => digitOf (digitChar d) = Some d) 0 10);
    [vm_compute; reflexivity | lia].
Qed.

Lemma digitChar_digitOf (c : ascii) (d : Z) :
  digitOf c = Some d -> c = digitChar d /\ 0 <= d <= 9.
Proof.
  destruct c as [[] [] [] [] [] [] [] []]; vm_compute; intros [= <-];
    (split; [reflexivity | split; discriminate]).
Qed.

Lemma pad2_digits (n : Z) :
  0 <= n < 100 -> pad2 n = [digitChar (n / 10); digitChar (n mod 10)].
Proof.
  apply (enum_seqZ
           (fun n => pad2 n = [digitChar (n / 10); digitChar (n mod 10)])
           0 100).
  vm_compute; reflexivity.
Qed.

Lemma pad3_digits (n : Z) :
  0 <= n < 1000 ->
  padStart 3 (String_of_Z n)
  = [digitChar (n / 100); digitChar (n / 10 mod 10); digitChar (n mod 10)].
Proof.
  apply (enum_seqZ
           (fun n => padStart 3 (String_of_Z n)
                     = [digitChar (n / 100); digitChar (n / 10 mod 10);
                        digitChar (n mod 10)])
           0 1000).
  vm_compute; reflexivity.
Qed.

Lemma pad4_digits (y : Z) :
  0 <= y < 10000 -> padStart 4 (String_of_Z y) = fourDigits y.
Proof.
  apply (enum_seqZ (fun y => padStart 4 (String_of_Z y) = fourDigits y)
           0 10000).
  vm_compute; reflexivity.
Qed.

Lemma year_digits (y : Z) :
  1000 <= y < 10000 -> String_of_Z y = fourDigits y.
Proof.
  intros Hy.
  apply (enum_seqZ (fun y => String_of_Z y = fourDigits y) 1000 9000);
    [vm_compute; reflexivity | lia].
Qed.

Lemma takeDigits_cons (n : nat) (acc d : Z) (l : list ascii) :
  0 <= d <= 9 ->
  takeDigits (S n) acc (digitChar d :: l) = takeDigits n (10 * acc + d) l.
Proof. intros Hd. simpl. by rewrite digitOf_digitChar. Qed.

Lemma takeDigits_pad2 (n : Z) (rest : list ascii) :
  0 <= n < 100 -> takeDigits 2 0 (pad2 n ++ rest) = Some (n, rest).
Proof.
  intros Hn. rewrite pad2_digits by done. cbn [app].
  rewrite !takeDigits_cons by (Z.div_mod_to_equations; lia).
  simpl. do 2 f_equal. Z.div_mod_to_equations; lia.
Qed.

Lemma takeDigits_pad3 (n : Z) (rest : list ascii) :
  0 <= n < 1000 ->
  takeDigits 3 0 (padStart 3 (String_of_Z n) ++ rest) = Some (n, rest).
Proof.
  intros Hn. rewrite pad3_digits by done. cbn [app].
  rewrite !takeDigits_cons by (Z.div_mod_to_equations; lia).
  simpl. do 2 f_equal. Z.div_mod_to_equations; lia.
Qed.

Lemma takeDigits_four (y : Z) (rest : list ascii) :
  0 <= y < 10000 -> takeDigits 4 0 (fourDigits y ++ rest) = Some (y, rest).
Proof.
  intros Hy. unfold fourDigits. cbn [app].
  rewrite !takeDigits_cons by (Z.div_mod_to_equations; lia).
  simpl. do 2 f_equal. Z.div_mod_to_equations; lia.
Qed.

Lemma takeDigits_inv (n : nat) (acc v : Z) (l rest : list ascii) :
  takeDigits n acc l = Some (v, rest) ->
  exists ds : list Z,
    length ds = n /\ Forall (fun d => 0 <= d <= 9) ds
    /\ l = map digitChar ds ++ rest
    /\ v = foldl (fun a d => 10 * a + d) acc ds.
Proof.
  revert acc l. induction n as [|n IH]; intros acc l Ht; simpl in Ht.
  - injection Ht as <- <-. by exists [].
  - destruct l as [|c l]; [done|].
    destruct (digitOf c) as [d|] eqn:Hd; [|done].
    apply digitChar_digitOf in Hd as [-> Hd].
    destruct (IH _ _ Ht) as (ds & Hlen & Hall & -> & ->).
    exists (d :: ds). simpl. repeat split; try done.
    + by rewrite Hlen.
    + by constructor.
Qed.

Lemma expect_inv (c : ascii) (l rest : list ascii) :
  expect c l = Some rest -> l = c :: rest.
Proof.
  destruct l as [|c' l]; [done|]. simpl.
  destruct (Ascii.eqb c c') eqn:Heq; [|done].
  apply Ascii.eqb_eq in Heq as ->. by intros [= ->].
Qed.

Lemma expect_cons (c : ascii) (l : list ascii) : expect c (c :: l) = Some l.
Proof. simpl. by rewrite Ascii.eqb_refl. Qed.

(** *** Reading back what [toISOString] prints *)

Lemma digitChar_not_sign (d : Z) :
  0 <= d <= 9 ->
  Ascii.eqb (digitChar d) "+" || Ascii.eqb (digitChar d) "-" = false.
Proof.
  intros Hd.
  apply (enum_seqZ
           (fun d => Ascii.eqb (digitChar d) "+"
                     || Ascii.eqb (digitChar d) "-" = false) 0 10);
    [vm_compute; reflexivity | lia].
Qed.

Lemma parseYear_four (y : Z) (rest : list ascii) :
  0 <= y < 10000 -> parseYear (fourDigits y ++ rest) = Some (y, rest).
Proof.
  intros Hy. pose proof (takeDigits_four y rest Hy) as Ht.
  unfold fourDigits in *. cbn [app] in *. unfold parseYear.
  rewrite digitChar_not_sign by (Z.div_mod_to_equations; lia). exact Ht.
Qed.

Lemma fractionMs_cons (scale d : Z) (l : list ascii) :
  0 <= d <= 9 ->
  fractionMs scale (digitChar d :: l)
  = (d * scale + (fractionMs (scale / 10) l).1, (fractionMs (scale / 10) l).2).
Proof.
  intros Hd. simpl. rewrite digitOf_digitChar by done.
  by destruct (fractionMs (scale / 10) l).
Qed.

Lemma parseSeconds_full (sec ms : Z) :
  0 <= sec < 100 -> 0 <= ms < 1000 ->
  parseSeconds (":"%char :: pad2 sec
                ++ "."%char :: padStart 3 (String_of_Z ms) ++ ["Z"%char])
  = Some (sec, ms, ["Z"%char]).
Proof.
  intros Hsec Hms. unfold parseSeconds.
  rewrite expect_cons, takeDigits_pad2 by done. cbn [mbind option_bind].
  rewrite expect_cons, pad3_digits by done. cbn [app].
  rewrite digitOf_digitChar by (Z.div_mod_to_equations; lia).
  rewrite bool_decide_eq_true_2 by eauto.
  rewrite !fractionMs_cons by (Z.div_mod_to_equations; lia).
  replace (fractionMs (100 / 10 / 10 / 10) ["Z"%char])
    with (0, ["Z"%char]) by reflexivity.
  cbn [fst snd]. do 3 f_equal.
  change (100 / 10) with 10. change (10 / 10) with 1.
  Z.div_mod_to_equations; lia.
Qed.

Lemma toISOString_chars (t : Z) :
  0 <= YearFromTime t < 10000 ->
  list_ascii_of_string (toISOString t)
  = fourDigits (YearFromTime t)
    ++ "-"%char :: pad2 (MonthFromTime t + 1)
    ++ "-"%char :: pad2 (DateFromTime t)
    ++ "T"%char :: pad2 (HourFromTime t)
    ++ ":"%char :: pad2 (MinFromTime t)
    ++ ":"%char :: pad2 (SecFromTime t)
    ++ "."%char :: padStart 3 (String_of_Z (msFromTime t)) ++ ["Z"%char].
Proof.
  intros HY. unfold toISOString. cbv zeta.
  rewrite list_ascii_of_string_of_list_ascii.
  replace ((0 <=? YearFromTime t) && (YearFromTime t <=? 9999)) with true
    by (symmetry; rewrite andb_true_iff, !Z.leb_le; lia).
  by rewrite pad4_digits.
Qed.

Lemma daysInMonth_le (y m : Z) : daysInMonth y m <= 31.
Proof.
  unfold daysInMonth. destruct (leapDays_range y); repeat case_match; lia.
Qed.

Lemma year_of_range (t lo hi : Z) :
  DayFromYear lo * msPerDay <= t < DayFromYear hi * msPerDay ->
  lo <= YearFromTime t < hi.
Proof.
  intros Ht. apply YearFromDay_range. unfold Day, msPerDay in *.
  Z.div_mod_to_equations; lia.
Qed.

Lemma TimeClip_in_range (t : Z) :
  DayFromYear 0 * msPerDay <= t < DayFromYear 10000 * msPerDay ->
  TimeClip t = Some t.
Proof.
  assert (DayFromYear 0 = -719528) as -> by reflexivity.
  assert (DayFromYear 10000 = 2932897) as -> by reflexivity.
  unfold TimeClip, msPerDay. intros Ht.
  destruct (Z.leb_spec (Z.abs t) 8640000000000000); [done | lia].
Qed.

Ltac read_field :=
  cbn [mbind option_bind];
  first [ rewrite expect_cons
        | rewrite takeDigits_pad2 by lia
        | rewrite takeDigits_four by lia ].

(** An instant of the years 0 to 9999 is read back from what
    [toISOString] prints for it. *)
Lemma parseIsoInstant_toISOString (t : Z) :
  DayFromYear 0 * msPerDay <= t < DayFromYear 10000 * msPerDay ->
  parseIsoInstant (toISOString t) = Some t.
Proof.
  intros Ht. pose proof (year_of_range t 0 10000 Ht) as HY.
  destruct (MakeDay_of_civil t) as (Hm & Hd & Hday).
  destruct (time_decompose t) as (Hh & Hmi & Hs & Hms & Hdec).
  pose proof (daysInMonth_le (YearFromTime t) (MonthFromTime t + 1)) as H31.
  unfold parseIsoInstant. rewrite toISOString_chars by done.
  rewrite parseYear_four by done. do 4 read_field.
  cbn [mbind option_bind].
  replace ((1 <=? MonthFromTime t + 1) && (MonthFromTime t + 1 <=? 12)
           && (1 <=? DateFromTime t)
           && (DateFromTime t
               <=? daysInMonth (YearFromTime t) (MonthFromTime t + 1)))
    with true by (symmetry; rewrite !andb_true_iff, !Z.leb_le; lia).
  cbn [negb]. do 4 read_field. cbn [mbind option_bind].
  rewrite parseSeconds_full by lia. cbn [mbind option_bind].
  change (parseOffset ["Z"%char]) with (Some 0). cbn [mbind option_bind].
  replace ((HourFromTime t <=? 23) && (MinFromTime t <=? 59)
           && (SecFromTime t <=? 59))
    with true by (symmetry; rewrite !andb_true_iff, !Z.leb_le; lia).
  cbn [orb negb].
  replace (MonthFromTime t + 1 - 1) with (MonthFromTime t) by lia.
  rewrite Hday, Z.mul_0_l, Z.sub_0_r, <- Hdec.
  by apply TimeClip_in_range.
Qed.

Lemma Date_parse_toISOString `{DateHost} (t : Z) :
  DayFromYear 0 * msPerDay <= t < DayFromYear 10000 * msPerDay ->
  Date_parse (toISOString t) = Some t.
Proof.
  intros Ht. unfold Date_parse. by rewrite parseIsoInstant_toISOString.
Qed.

Lemma takeDigits_inv4 (v : Z) (l rest : list ascii) :
  takeDigits 4 0 l = Some (v, rest) ->
  l = fourDigits v ++ rest /\ 0 <= v < 10000.
Proof.
  intros Ht. apply takeDigits_inv in Ht as (ds & Hlen & Hall & -> & ->).
  destruct ds as [|a [|b [|c [|d [|]]]]]; try done.
  repeat match goal with
         | H : Forall _ (_ :: _) |- _ => apply Forall_cons in H as [? H]
         end.
  cbn [foldl map]. split; [|lia]. unfold fourDigits. cbn [app].
  repeat f_equal; Z.div_mod_to_equations; lia.
Qed.

Lemma takeDigits_inv2 (v : Z) (l rest : list ascii) :
  takeDigits 2 0 l = Some (v, rest) -> l = pad2 v ++ rest /\ 0 <= v < 100.
Proof.
  intros Ht. apply takeDigits_inv in Ht as (ds & Hlen & Hall & -> & ->).
  destruct ds as [|a [|b [|]]]; try done.
  repeat match goal with
         | H : Forall _ (_ :: _) |- _ => apply Forall_cons in H as [? H]
         end.
  cbn [foldl map]. split; [|lia]. rewrite pad2_digits by lia. cbn [app].
  repeat f_equal; Z.div_mod_to_equations; lia.
Qed.

Lemma length_string_of_list_ascii (l : list ascii) :
  String.length (string_of_list_ascii l) = length l.
Proof. induction l as [|c l IH]; simpl; congruence. Qed.

Lemma length_list_ascii_of_string (s : string) :
  length (list_ascii_of_string s) = String.length s.
Proof. induction s as [|c s IH]; simpl; congruence. Qed.

End JSDateFacts.

(** ** Numbers *)

(** ** Shanghai-local date-times *)

Module DateTimeFacts.
Import JSDate Transactions JSDateFacts.

Lemma length_localChars (y mo d h mi s : Z) :
  0 <= mo < 100 -> 0 <= d < 100 -> 0 <= h < 100 -> 0 <= mi < 100 ->
  0 <= s < 100 ->
  length (localChars y mo d h mi s) = 19%nat.
Proof.
  intros. unfold localChars. by rewrite !pad2_digits by done.
Qed.

Lemma normalize_full (value : string) :
  String.length value = 19%nat -> normalizeDateTimeLocal value = value.
Proof. intros Hlen. unfold normalizeDateTimeLocal. by rewrite Hlen. Qed.

Lemma parse_localChars (y mo d h mi s : Z) :
  0 <= y < 10000 -> 0 <= mo < 100 -> 0 <= d < 100 -> 0 <= h < 100 ->
  0 <= mi < 100 -> 0 <= s < 100 ->
  parseDateTimeLocal (string_of_list_ascii (localChars y mo d h mi s))
  = Some (mkLocal y mo d h mi s).
Proof.
  intros Hy Hmo Hd Hh Hmi Hs. unfold parseDateTimeLocal.
  rewrite normalize_full
    by (rewrite length_string_of_list_ascii; by apply length_localChars).
  rewrite list_ascii_of_string_of_list_ascii. unfold localChars.
  rewrite takeDigits_four by done. do 8 read_field.
  cbn [mbind option_bind]. rewrite expect_cons. cbn [mbind option_bind].
  rewrite <- (app_nil_r (pad2 s)), takeDigits_pad2 by done.
  reflexivity.
Qed.

(** A string that [validLocalDateTime] accepts spells out the fields
    that [parseDateTimeLocal] reads from it. *)
Lemma validLocalDateTime_inv (value : string) :
  validLocalDateTime value = true ->
  exists y mo d h mi s,
    value = string_of_list_ascii (localChars y mo d h mi s)
    /\ 1000 <= y < 10000 /\ 1 <= mo <= 12 /\ 1 <= d <= daysInMonth y mo
    /\ 0 <= h <= 23 /\ 0 <= mi <= 59 /\ 0 <= s <= 59.
Proof.
  unfold validLocalDateTime. rewrite andb_true_iff, Nat.eqb_eq.
  intros [Hlen Hv].
  destruct (parseDateTimeLocal value) as [f|] eqn:Hp; [|done].
  unfold parseDateTimeLocal in Hp. rewrite normalize_full in Hp by done.
  rewrite <- (string_of_list_ascii_of_string value).
  rewrite <- length_list_ascii_of_string in Hlen.
  destruct (takeDigits 4 0 (list_ascii_of_string value))
    as [[y l1]|] eqn:H1; [|done].
  apply takeDigits_inv4 in H1 as [H1 Hy]. rewrite H1 in Hlen |- *.
  cbn [mbind option_bind] in Hp.
  destruct (expect "-" l1) as [l2|] eqn:H2; [|done].
  apply expect_inv in H2 as ->. cbn [mbind option_bind] in Hp.
  destruct (takeDigits 2 0 l2) as [[mo l3]|] eqn:H3; [|done].
  apply takeDigits_inv2 in H3 as [-> Hmo]. cbn [mbind option_bind] in Hp.
  destruct (expect "-" l3) as [l4|] eqn:H4; [|done].
  apply expect_inv in H4 as ->. cbn [mbind option_bind] in Hp.
  destruct (takeDigits 2 0 l4) as [[d l5]|] eqn:H5; [|done].
  apply takeDigits_inv2 in H5 as [-> Hd]. cbn [mbind option_bind] in Hp.
  destruct (expect "T" l5) as [l6|] eqn:H6; [|done].
  apply expect_inv in H6 as ->. cbn [mbind option_bind] in Hp.
  destruct (takeDigits 2 0 l6) as [[h l7]|] eqn:H7; [|done].
  apply takeDigits_inv2 in H7 as [-> Hh]. cbn [mbind option_bind] in Hp.
  destruct (expect ":" l7) as [l8|] eqn:H8; [|done].
  apply expect_inv in H8 as ->. cbn [mbind option_bind] in Hp.
  destruct (takeDigits 2 0 l8) as [[mi l9]|] eqn:H9; [|done].
  apply takeDigits_inv2 in H9 as [-> Hmi]. cbn [mbind option_bind] in Hp.
  destruct l9 as [|c l9].
  { exfalso. revert Hlen. rewrite !pad2_digits by done. discriminate. }
  destruct (expect ":" (c :: l9)) as [l10|] eqn:H10; [|done].
  apply expect_inv in H10. injection H10 as -> ->.
  cbn [mbind option_bind] in Hp.
  destruct (takeDigits 2 0 l10) as [[s l11]|] eqn:H11; [|done].
  apply takeDigits_inv2 in H11 as [-> Hs]. cbn [mbind option_bind] in Hp.
  destruct l11; [|done]. injection Hp as <-.
  unfold validCalendar in Hv. cbn [year month day hour minute second] in Hv.
  rewrite !andb_true_iff, !Z.leb_le in Hv.
  exists y, mo, d, h, mi, s. rewrite app_nil_r. split; [done|]. lia.
Qed.

Lemma range_of_year (t lo hi : Z) :
  lo <= YearFromTime t < hi ->
  DayFromYear lo * msPerDay <= t < DayFromYear hi * msPerDay.
Proof.
  intros HY. pose proof (YearFromDay_spec (Day t)) as Hs.
  fold (YearFromTime t) in Hs.
  assert (DayFromYear lo <= DayFromYear (YearFromTime t)).
  { destruct (Z.eq_dec lo (YearFromTime t)) as [->|]; [lia|].
    apply Z.lt_le_incl, DayFromYear_mono. lia. }
  assert (DayFromYear (YearFromTime t + 1) <= DayFromYear hi).
  { destruct (Z.eq_dec (YearFromTime t + 1) hi) as [->|]; [lia|].
    apply Z.lt_le_incl, DayFromYear_mono. lia. }
  unfold Day, msPerDay in *. Z.div_mod_to_equations; lia.
Qed.

Lemma Date_UTC_plain (y m d h mi s : Z) :
  100 <= y ->
  Date_UTC y m d h mi s
  = TimeClip (MakeDate (MakeDay y m d) (MakeTime h mi s 0)).
Proof.
  intros Hy. unfold Date_UTC.
  by replace ((0 <=? y) && (y <=? 99)) with false
    by (symmetry; rewrite andb_false_iff, !Z.leb_gt; lia).
Qed.

Lemma DayFromYear_1000 : DayFromYear 1000 = -354285.
Proof. reflexivity. Qed.

Lemma DayFromYear_0 : DayFromYear 0 = -719528.
Proof. reflexivity. Qed.

Lemma format_chars (t : Z) :
  let T := t + SHANGHAI_OFFSET_HOURS * 3600 * 1000 in
  DayFromYear 1000 * msPerDay <= T < DayFromYear 10000 * msPerDay ->
  formatUtcToDateTimeLocalByOffset t SHANGHAI_OFFSET_HOURS
  = string_of_list_ascii
      (localChars (YearFromTime T) (MonthFromTime T + 1) (DateFromTime T)
                  (HourFromTime T) (MinFromTime T) (SecFromTime T)).
Proof.
  intros T HT. pose proof (year_of_range T 1000 10000 HT) as HY.
  unfold formatUtcToDateTimeLocalByOffset. fold T.
  rewrite TimeClip_in_range
    by (rewrite DayFromYear_0; rewrite DayFromYear_1000 in HT;
        unfold msPerDay in *; lia).
  by rewrite year_digits.
Qed.

Section WithHost.
Context `{DateHost}.

(** From a local date-time to the instant and back. *)
Lemma local_iso_local (now : Z) (s : string) :
  validLocalDateTime s = true ->
  exists iso,
    shanghaiLocalToIso now s = Some iso
    /\ isoToShanghaiLocalDateTime now iso = s.
Proof.
  intros Hv.
  destruct (validLocalDateTime_inv s Hv)
    as (y & mo & d & h & mi & sec & -> & Hy & Hmo & Hd & Hh & Hmi & Hs).
  pose proof (daysInMonth_le y mo) as H31.
  unfold shanghaiLocalToIso. rewrite parse_localChars by lia.
  cbn [year month day hour minute second].
  rewrite Date_UTC_plain by lia.
  set (t := MakeDate (MakeDay y (mo - 1) d)
                     (MakeTime (h - SHANGHAI_OFFSET_HOURS) mi sec 0)).
  set (T := MakeDate (MakeDay y (mo - 1) d) (MakeTime h mi sec 0)).
  assert (HT : t + SHANGHAI_OFFSET_HOURS * 3600 * 1000 = T).
  { unfold t, T, MakeDate, MakeTime, SHANGHAI_OFFSET_HOURS, msPerHour. lia. }
  destruct (time_fields (MakeDay y (mo - 1) d) h mi sec 0)
    as (HDay & HH & HMi & HS & _); try lia.
  fold T in HDay, HH, HMi, HS.
  destruct (civil_of_MakeDay y mo d T) as (HY & HM & HD); try done.
  assert (HTr : DayFromYear 1000 * msPerDay <= T
                < DayFromYear 10000 * msPerDay)
    by (apply range_of_year; lia).
  assert (Htr : DayFromYear 0 * msPerDay <= t < DayFromYear 10000 * msPerDay).
  { rewrite DayFromYear_0. rewrite DayFromYear_1000 in HTr.
    unfold SHANGHAI_OFFSET_HOURS, msPerDay in *. lia. }
  rewrite TimeClip_in_range by done. cbn [fmap option_fmap option_map].
  eexists; split; [reflexivity|].
  unfold isoToShanghaiLocalDateTime.
  rewrite Date_parse_toISOString, format_chars by (rewrite ?HT; done).
  rewrite HT, HY, HM, HD, HH, HMi, HS.
  by replace (mo - 1 + 1) with mo by lia.
Qed.

(** From an instant to the local date-time and back. *)
Lemma iso_local_iso (now : Z) (iso : string) (t : Z) :
  Date_parse iso = Some t -> wholeSecondInRange t = true ->
  exists iso',
    shanghaiLocalToIso now (isoToShanghaiLocalDateTime now iso) = Some iso'
    /\ Date_parse iso' = Some t.
Proof.
  intros Hp Hw. unfold wholeSecondInRange in Hw.
  rewrite !andb_true_iff, Z.eqb_eq, Z.leb_le, Z.ltb_lt in Hw.
  destruct Hw as [[Hms Hlo] Hhi].
  set (T := t + SHANGHAI_OFFSET_HOURS * 3600 * 1000).
  assert (HTr : DayFromYear 1000 * msPerDay <= T
                < DayFromYear 10000 * msPerDay)
    by (unfold T, msPerHour in *; lia).
  assert (Htr : DayFromYear 0 * msPerDay <= t < DayFromYear 10000 * msPerDay).
  { rewrite DayFromYear_0. rewrite DayFromYear_1000 in HTr.
    unfold T, SHANGHAI_OFFSET_HOURS, msPerDay in *. lia. }
  pose proof (year_of_range T 1000 10000 HTr) as HY.
  destruct (MakeDay_of_civil T) as (Hm & Hd & Hday).
  destruct (time_decompose T) as (Hh & Hmi & Hs & _ & Hdec).
  pose proof (daysInMonth_le (YearFromTime T) (MonthFromTime T + 1)) as H31.
  unfold isoToShanghaiLocalDateTime. rewrite Hp, format_chars by done.
  fold T. unfold shanghaiLocalToIso. rewrite parse_localChars by lia.
  cbn [year month day hour minute second].
  rewrite Date_UTC_plain by lia.
  replace (MonthFromTime T + 1 - 1) with (MonthFromTime T) by lia.
  rewrite Hday.
  assert (Hback : MakeDate (Day T)
                    (MakeTime (HourFromTime T - SHANGHAI_OFFSET_HOURS)
                              (MinFromTime T) (SecFromTime T) 0) = t).
  { assert (Hz : msFromTime T = 0).
    { unfold msFromTime, msPerSecond, T, SHANGHAI_OFFSET_HOURS.
      Z.div_mod_to_equations; lia. }
    rewrite Hz in Hdec. unfold MakeDate, MakeTime in *.
    unfold T, SHANGHAI_OFFSET_HOURS, msPerHour in *. lia. }
  rewrite Hback, TimeClip_in_range by done.
  cbn [fmap option_fmap option_map]. eexists; split; [reflexivity|].
  by apply Date_parse_toISOString.
Qed.

End WithHost.

Section Examples.
#[local] Existing Instance Samples.strictHost.

(** The local form has no place for milliseconds: 2024-03-15
    01:30:00.500 UTC comes back as 01:30:00.000. *)
Lemma roundtrip_drops_milliseconds :
  let iso := "2024-03-15T01:30:00.500Z" in
  Date_parse iso = Some 1710466200500
  /\ isoToShanghaiLocalDateTime 0 iso = "2024-03-15T09:30:00"
  /\ shanghaiLocalToIso 0 (isoToShanghaiLocalDateTime 0 iso)
     = Some "2024-03-15T01:30:00.000Z"
  /\ Date_parse "2024-03-15T01:30:00.000Z" = Some 1710466200000
  /\ ~ (exists iso',
          shanghaiLocalToIso 0 (isoToShanghaiLocalDateTime 0 iso) = Some iso'
          /\ Date_parse iso' = Date_parse iso).
Proof.
  cbv zeta.
  assert (Hback :
    shanghaiLocalToIso 0
      (isoToShanghaiLocalDateTime 0 "2024-03-15T01:30:00.500Z")
    = Some "2024-03-15T01:30:00.000Z") by (vm_compute; reflexivity).
  assert (Hlater : Date_parse "2024-03-15T01:30:00.500Z" = Some 1710466200500)
    by (vm_compute; reflexivity).
  assert (Hearlier :
    Date_parse "2024-03-15T01:30:00.000Z" = Some 1710466200000)
    by (vm_compute; reflexivity).
  split; [exact Hlater|]. split; [vm_compute; reflexivity|].
  split; [exact Hback|]. split; [exact Hearlier|].
  intros (iso' & Hiso & Hparse). rewrite Hback in Hiso.
  injection Hiso as <-. rewrite Hlater, Hearlier in Hparse. discriminate.
Qed.

(** Before the year 1000 the year of the local form is printed without
    its leading zeros, and [Date.UTC] reads the years 0 to 99 as 1900 to
    1999; a date that the calendar does not have rolls over. *)
Lemma roundtrip_outside_the_range :
  (isoToShanghaiLocalDateTime 0 <$> shanghaiLocalToIso 0 "0500-01-01T00:00:00")
  = Some "500-01-01T00:00:00"
  /\ (isoToShanghaiLocalDateTime 0
        <$> shanghaiLocalToIso 0 "0050-01-01T00:00:00")
     = Some "1950-01-01T00:00:00"
  /\ (isoToShanghaiLocalDateTime 0
        <$> shanghaiLocalToIso 0 "2024-02-30T00:00:00")
     = Some "2024-03-01T00:00:00".
Proof. repeat split; vm_compute; reflexivity. Qed.

End Examples.

(** C10, as amended.  The two conversions are inverse to each other at
    the resolution of one second, with the fixed offset of eight hours
    and no daylight saving: a string YYYY-MM-DDTHH:mm:ss that names a
    real date and time of day in the years 1000 to 9999 comes back
    unchanged from [shanghaiLocalToIso] followed by
    [isoToShanghaiLocalDateTime]; and an instant on a whole second whose
    Shanghai-local year is 1000 to 9999 is shown as the date and time of
    day eight hours later, and [shanghaiLocalToIso] of that gives a
    string for the same instant. *)
Theorem shanghai_roundtrip `{DateHost} (now : Z) :
  (forall s : string,
     validLocalDateTime s = true ->
     exists iso,
       shanghaiLocalToIso now s = Some iso
       /\ isoToShanghaiLocalDateTime now iso = s)
  /\ (forall (iso : string) (t : Z),
        Date_parse iso = Some t -> wholeSecondInRange t = true ->
        let T := t + 8 * msPerHour in
        isoToShanghaiLocalDateTime now iso
        = string_of_list_ascii
            (localChars (YearFromTime T) (MonthFromTime T + 1)
                        (DateFromTime T) (HourFromTime T) (MinFromTime T)
                        (SecFromTime T))
        /\ exists iso',
             shanghaiLocalToIso now (isoToShanghaiLocalDateTime now iso)
             = Some iso'
             /\ Date_parse iso' = Some t).
Proof.
  split; [apply local_iso_local|].
  intros iso t Hp Hw T. split; [|by apply iso_local_iso].
  unfold isoToShanghaiLocalDateTime. rewrite Hp.
  unfold wholeSecondInRange in Hw.
  rewrite !andb_true_iff, Z.leb_le, Z.ltb_lt in Hw.
  rewrite format_chars by (unfold SHANGHAI_OFFSET_HOURS, msPerHour in *; lia).
  reflexivity.
Qed.

Section Witness.
#[local] Existing Instance Samples.strictHost.

Lemma shanghai_roundtrip_witness :
  (exists iso,
     shanghaiLocalToIso 0 "2024-03-15T09:30:00" = Some iso
     /\ isoToShanghaiLocalDateTime 0 iso = "2024-03-15T09:30:00")
  /\ (exists iso',
        shanghaiLocalToIso 0
          (isoToShanghaiLocalDateTime 0 "2024-03-15T01:30:00+00:00")
        = Some iso'
        /\ Date_parse iso' = Some 1710466200000).
Proof.
  split.
  - apply (proj1 (shanghai_roundtrip 0)). vm_compute; reflexivity.
  - apply (proj2 (shanghai_roundtrip 0) "2024-03-15T01:30:00+00:00"
             1710466200000); vm_compute; reflexivity.
Defined.

End Witness.

End DateTimeFacts.

(** ** The dashboard *)

Module DashboardFacts.
Import Dashboard.

Lemma curveSeries_app (a b : list ReturnCurvePoint) :
  curveSeries (a ++ b) = curveSeries a ++ curveSeries b.
Proof. unfold curveSeries. apply omap_app. Qed.

Lemma derived_last_rate (totalAssets : number) (curve : list ReturnCurvePoint)
    (p : ReturnCurvePoint) (driftItems : list DriftItem) :
  totalReturnRate (derived totalAssets (curve ++ [p]) driftItems)
  = total_return_rate p.
Proof. unfold derived. cbn [totalReturnRate]. by rewrite last_snoc. Qed.

Lemma derived_latest_skips_null (totalAssets : number)
    (curve : list ReturnCurvePoint) (p : ReturnCurvePoint)
    (driftItems : list DriftItem) :
  total_return_rate p = None ->
  latestRate (derived totalAssets (curve ++ [p]) driftItems)
  = latestRate (derived totalAssets curve driftItems).
Proof.
  intros Hnull. unfold derived. cbn [latestRate].
  rewrite omap_app. cbn [omap list_omap]. rewrite Hnull.
  by rewrite app_nil_r.
Qed.

Lemma curveSeries_without (before after : list ReturnCurvePoint)
    (p : ReturnCurvePoint) :
  total_return_rate p = None ->
  curveSeries (before ++ p :: after) = curveSeries (before ++ after).
Proof.
  intros Hnull. rewrite !curveSeries_app. f_equal.
  unfold curveSeries. cbn [omap list_omap]. by rewrite Hnull.
Qed.

Lemma curveSeries_with (before after : list ReturnCurvePoint)
    (p : ReturnCurvePoint) (rate : number) :
  total_return_rate p = Some rate -> Num.isFinite rate = true ->
  curveSeries (before ++ p :: after)
  = curveSeries before ++ (date p, rate) :: curveSeries after.
Proof.
  intros Hrate Hfin. rewrite curveSeries_app. f_equal.
  unfold curveSeries. cbn [omap list_omap]. by rewrite Hrate, Hfin.
Qed.

Lemma curveRates_without (totalAssets : number)
    (before after : list ReturnCurvePoint) (p : ReturnCurvePoint)
    (driftItems : list DriftItem) :
  total_return_rate p = None ->
  latestRate (derived totalAssets (before ++ p :: after) driftItems)
  = latestRate (derived totalAssets (before ++ after) driftItems)
  /\ peakRate (derived totalAssets (before ++ p :: after) driftItems)
     = peakRate (derived totalAssets (before ++ after) driftItems).
Proof.
  intros Hnull. unfold derived. cbn [latestRate peakRate].
  rewrite !omap_app. cbn [omap list_omap]. by rewrite Hnull.
Qed.

(** C7.  The point of a day has total_return = total_assets −
    net_contribution; its rate is total_return / net_contribution when
    net_contribution > 0 and null otherwise.  Wherever the day stands in
    the curve, a null rate stays null on the page: it is shown as "-"
    and not as a percentage; the series of the chart, the chart itself,
    the latest rate and the peak rate are those of the curve without
    that day, so that no value, 0 or other, is drawn for it; and when
    the day is the last one the card of the total return rate shows
    "-".  A day with a finite rate is drawn with that rate, between the
    days before and after it. *)
Theorem null_rate_propagates `{DateLocale} `{JSDate.DateHost}
    (day : string) (nc ta totalAssets : number)
    (before after : list ReturnCurvePoint) (driftItems : list DriftItem) :
  let p := curvePoint day nc ta in
  let curve := before ++ p :: after in
  let shown := derived totalAssets curve driftItems in
  let without := derived totalAssets (before ++ after) driftItems in
  total_return p = Num.sub ta nc
  /\ (Num.gtb nc Num.zero = true ->
      total_return_rate p = Some (Num.div (total_return p) nc)
      /\ (Num.isFinite (Num.div (total_return p) nc) = true ->
          curveSeries curve
          = curveSeries before
            ++ (day, Num.div (total_return p) nc) :: curveSeries after)
      /\ (after = [] ->
          totalReturnRate shown = Some (Num.div (total_return p) nc)))
  /\ (Num.gtb nc Num.zero = false ->
      total_return_rate p = None
      /\ rateText (total_return_rate p) = Literal "-"
      /\ rateText (total_return_rate p) <> formatPercent (Some Num.zero)
      /\ curveSeries curve = curveSeries before ++ curveSeries after
      /\ buildCurveOption curve = buildCurveOption (before ++ after)
      /\ latestRate shown = latestRate without
      /\ peakRate shown = peakRate without
      /\ (after = [] ->
          totalReturnRate shown = None
          /\ rateText (totalReturnRate shown) = Literal "-"))
  /\ (forall (points : list ReturnCurvePoint) (d : string) (r : number),
        (d, r) ∈ curveSeries points
        <-> exists q, q ∈ points /\ date q = d
                      /\ total_return_rate q = Some r
                      /\ Num.isFinite r = true).
Proof.
  intros p curve shown without. subst curve shown without.
  split; [reflexivity|]. split; [|split].
  - intros Hnc.
    assert (Hrate : total_return_rate p
                    = Some (Num.div (total_return p) nc)).
    { unfold p, curvePoint. cbn [total_return_rate total_return].
      by rewrite Hnc. }
    split; [exact Hrate|]. split.
    + intros Hfin. by apply curveSeries_with.
    + intros ->. by rewrite derived_last_rate.
  - intros Hnc.
    assert (Hnull : total_return_rate p = None).
    { unfold p, curvePoint. cbn [total_return_rate]. by rewrite Hnc. }
    pose proof (curveSeries_without before after p Hnull) as Hseries.
    destruct (curveRates_without totalAssets before after p driftItems Hnull)
      as [Hlatest Hpeak].
    rewrite Hnull. repeat split; try done.
    + by rewrite Hseries, curveSeries_app.
    + unfold buildCurveOption. by rewrite Hseries.
    + subst after. by rewrite derived_last_rate.
    + subst after. by rewrite derived_last_rate, Hnull.
  - intros points d r. unfold curveSeries. rewrite list_elem_of_omap. split.
    + intros (q & Hq & Hsome). exists q. split; [done|].
      destruct (total_return_rate q) as [rate|]; [|done].
      destruct (Num.isFinite rate) eqn:Hfin; [|done].
      by injection Hsome as <- <-.
    + intros (q & Hq & <- & Hrate & Hfin). exists q. split; [done|].
      by rewrite Hrate, Hfin.
Qed.

(** The sample of the boundary: target 60, actual 65, threshold 5. *)
Definition boundaryItem : DriftItem :=
  driftItem (Num.of_Z 5) 1 "Equity" (Num.of_Z 60) (Num.of_Z 65).

(** C9.  A node whose weight is off by exactly the threshold of 5 is
    alerted, and the drift table of the holdings page styles it as
    alerted; the bar of the dashboard chart compares with [>] and keeps
    the colour of a node within the threshold. *)
Theorem drift_boundary_rendering :
  is_alerted boundaryItem = true
  /\ drift_pct boundaryItem = Num.of_Z 5
  /\ driftTextColor (drift_pct boundaryItem) = "#d46b08"
  /\ driftStrokeColor boundaryItem = "#fa8c16"
  /\ statusTagColor (is_alerted boundaryItem) = "error"
  /\ (map bar_color <$> (bars <$> buildDriftOption [boundaryItem]))
     = Some ["#1f4f94"]
  /\ driftBarColor (Num.of_ratio false 501 100) = "#d9363e".
Proof. repeat split; vm_compute; reflexivity. Qed.

(** What the model of the backend answers for [is_alerted] is the
    comparison [>=], the boundary included. *)
Lemma driftItem_alerted (threshold target actual : number) (id : Z)
    (label : string) :
  is_alerted (driftItem threshold id label target actual)
  = Num.geb (Num.abs (Num.sub actual target)) threshold.
Proof. reflexivity. Qed.

End DashboardFacts.

Module NumFacts.

Lemma positive_iff (x : number) :
  Num.falsy x || Num.leb x Num.zero = negb (Num.gtb x Num.zero).
Proof. destruct x as [[]|[]| |[] m e]; reflexivity. Qed.

Lemma finite_positive (x : number) :
  negb (Num.isFinite x) || Num.leb x Num.zero = false ->
  Num.isFinite x = true /\ Num.gtb x Num.zero = true.
Proof. destruct x as [[]|[]| |[] m e]; simpl; intros Hx; try done. Qed.

End NumFacts.

(** ** The transactions page *)

Module TransactionsFacts.
Import Transactions.

Section WithBackend.
Context `{Collator} `{StringBuiltins} `{JSDate.DateHost} {S : Type}
        `{Backend S}.

Lemma ensure_keeps_trace (symbol : string) (accountId : Z)
    (fallbackCurrency : string) (st : PageState) (srv : S)
    (log : list Request) :
  (ensureInstrumentBySymbol symbol accountId fallbackCurrency st (srv, log)).2.2
  = log.
Proof.
  unfold ensureInstrumentBySymbol.
  destruct (instrumentBySymbol (instruments st) !! symbol); [done|].
  match goal with |- context [match ?f with Ok _ => _ | Err _ => _ end] =>
    destruct f as [lookup|e] end; [|done].
  destruct (negb (l_found lookup)); [done|].
  destruct (instrumentBySymbol (instruments st) !! _); [done|].
  simpl. destruct (post_instrument _ srv) as [[created|e] srv']; simpl.
  - done.
  - destruct (get_instruments srv'); [|done].
    by destruct (List.find _ _).
Qed.


Lemma isTransferRow_spec (tx : Transaction) :
  isTransferRow tx = true <-> inTransferPair tx.
Proof.
  unfold isTransferRow, inTransferPair, truthy.
  destruct (tx_transfer_group_id tx) as [g|].
  - rewrite negb_true_iff. split.
    + intros Hne. exists g. split; [done|]. by apply String.eqb_neq.
    + intros (g' & [= <-] & Hne). by apply String.eqb_neq.
  - split; [done|]. by intros (g & ? & _).
Qed.

(** C5. On a row that is a leg of a transfer pair the edit button, the
    reverse button and the reverse pop-confirm are disabled, so that a
    click on either changes nothing and sends nothing; the row explains
    that a transfer is deleted and created anew.  On every other row
    both are enabled: unless the row is busy, the edit click opens the
    edit form on that row and confirming the reversal sends the reverse
    request for it. *)
Theorem transfer_rows_locked (now : Z) (tx : Transaction) (st : PageState)
    (srv : S) :
  let a := actionsColumn st tx in
  (inTransferPair tx ->
     edit_disabled a = true /\ reverse_disabled a = true
     /\ reverse_confirm_disabled a = true
     /\ edit_tooltip a = DeleteAndRecreate
     /\ reverse_tooltip a = DeleteAndRecreate
     /\ delete_description a = DeletesBothLegs
     /\ rowEvent now ClickEdit tx st (srv, []) = (st, (srv, []))
     /\ rowEvent now ConfirmReverse tx st (srv, []) = (st, (srv, [])))
  /\ (~ inTransferPair tx ->
      edit_disabled a = false /\ reverse_disabled a = false
      /\ reverse_confirm_disabled a = false
      /\ (rowActionLoadingId st <> Some (tx_id tx) ->
          editingTx (rowEvent now ClickEdit tx st (srv, [])).1 = Some tx
          /\ (rowEvent now ConfirmReverse tx st (srv, [])).2.2
             = [ReverseTransaction (tx_id tx)])).
Proof.
  intros a. subst a. split.
  - intros Hpair. apply isTransferRow_spec in Hpair as Hrow.
    unfold rowEvent, actionsColumn. simpl. rewrite Hrow.
    unfold isTransferRow in Hrow. rewrite Hrow. simpl. done.
  - intros Hno.
    assert (Hrow : isTransferRow tx = false).
    { apply not_true_iff_false. intros Hrow. by apply Hno, isTransferRow_spec. }
    unfold rowEvent, actionsColumn. simpl. rewrite Hrow. simpl.
    repeat split; try done.
    + rewrite bool_decide_eq_false_2 by done. done.
    + rewrite bool_decide_eq_false_2 by done. unfold onReverse. simpl.
      by destruct (send (ReverseTransaction (tx_id tx)) srv) as [[?|?] ?].
Qed.

(** Every request that a row event sends names that row. *)
Lemma rowEvent_requests (now : Z) (ev : RowEvent) (tx : Transaction)
    (st : PageState) (srv : S) :
  match (rowEvent now ev tx st (srv, [])).2.2 with
  | [] => True
  | [DeleteTransaction id] => ev = ConfirmDelete /\ id = tx_id tx
  | [ReverseTransaction id] =>
      ev = ConfirmReverse /\ id = tx_id tx /\ isTransferRow tx = false
  | _ => False
  end.
Proof.
  unfold rowEvent, actionsColumn. simpl.
  destruct ev; simpl.
  - by destruct (isTransferRow tx || _).
  - destruct (isTransferRow tx) eqn:Hrow; simpl; [done|].
    destruct (bool_decide _); simpl; [done|]. unfold onReverse. simpl.
    by destruct (send (ReverseTransaction (tx_id tx)) srv) as [[?|?] ?].
  - destruct (bool_decide _); simpl; [done|]. unfold onDelete. simpl.
    by destruct (send (DeleteTransaction (tx_id tx)) srv) as [[?|?] ?].
Qed.

(** The settlement shown for a trade with a valid amount is
    amount - fee - tax for a SELL and amount + fee + tax for a BUY. *)
Lemma createSettlementPreview_trade (createType : string)
    (amount fee tax : number) :
  has TRADE_TYPES createType = true ->
  Num.isFinite amount = true -> Num.gtb amount Num.zero = true ->
  createSettlementPreview createType (Some amount) (Some fee) (Some tax)
  = Some (if String.eqb createType "SELL"
          then Num.sub (Num.sub amount fee) tax
          else Num.add (Num.add amount fee) tax).
Proof.
  intros Htrade Hfin Hpos. unfold createSettlementPreview.
  rewrite Htrade. simpl. rewrite Hfin. simpl.
  assert (Hle : Num.leb amount Num.zero = false).
  { destruct amount as [[]|[]| |[] m e]; done. }
  rewrite Hle. by destruct (String.eqb createType "SELL").
Qed.

End WithBackend.

End TransactionsFacts.


(** ** The ledger *)

Module LedgerFacts.
Import Transactions Ledger.

Lemma groupName_inj (n m : N) : groupName n = groupName m -> n = m.
Proof.
  unfold groupName. simpl. intros Heq. injection Heq as Heq.
  by apply (inj pretty).
Qed.

Lemma groupName_nonempty (n : N) : groupName n <> "".
Proof. done. Qed.

Lemma findRow_Some (id : Z) (L : State) (t : Transaction) :
  findRow id L = Some t -> t ∈ rows L /\ tx_id t = id.
Proof.
  unfold findRow. intros [Hin Heq]%find_some.
  split; [by apply list_elem_of_In | by apply Z.eqb_eq].
Qed.

Lemma same_id_same_row (l : list Transaction) (a b : Transaction) :
  NoDup (map tx_id l) -> a ∈ l -> b ∈ l -> tx_id a = tx_id b -> a = b.
Proof.
  induction l as [|x l IH]; intros Hnd Ha Hb Hid.
  - by apply elem_of_nil in Ha.
  - change (NoDup (tx_id x :: map tx_id l)) in Hnd.
    apply NoDup_cons in Hnd as [Hx Hnd].
    apply elem_of_cons in Ha as [->|Ha]; apply elem_of_cons in Hb as [->|Hb].
    + done.
    + exfalso. apply Hx. rewrite Hid. by apply list_elem_of_fmap_2.
    + exfalso. apply Hx. rewrite <- Hid. by apply list_elem_of_fmap_2.
    + by apply IH.
Qed.

Lemma findRow_NoDup (L : State) (t : Transaction) :
  NoDup (map tx_id (rows L)) -> t ∈ rows L -> findRow (tx_id t) L = Some t.
Proof.
  intros Hnd Hin. unfold findRow.
  destruct (List.find _ _) as [t'|] eqn:Hf.
  - apply find_some in Hf as [Hin' Heq]. apply Z.eqb_eq in Heq.
    f_equal. apply (same_id_same_row (rows L)); try done.
    by apply list_elem_of_In.
  - exfalso. apply list_elem_of_In in Hin.
    apply (find_none _ _ Hf t) in Hin. by rewrite Z.eqb_refl in Hin.
Qed.

Lemma filter_ext_in {A} (P Q : A -> Prop) `{!forall x, Decision (P x)}
    `{!forall x, Decision (Q x)} (l : list A) :
  (forall x, x ∈ l -> P x <-> Q x) -> filter P l = filter Q l.
Proof.
  induction l as [|a l IH]; intros Hext; [done|].
  rewrite !filter_cons.
  assert (Ha : P a <-> Q a) by (apply Hext; by apply elem_of_cons; left).
  rewrite IH by (intros x Hx; apply Hext; by apply elem_of_cons; right).
  destruct (decide (P a)), (decide (Q a)); tauto || done.
Qed.

Lemma filter_none {A} (P : A -> Prop) `{!forall x, Decision (P x)} (l : list A) :
  (forall x, x ∈ l -> ~ P x) -> filter P l = [].
Proof.
  induction l as [|a l IH]; intros Hno; [done|].
  rewrite filter_cons_False by (apply Hno; by apply elem_of_cons; left).
  apply IH. intros x Hx. apply Hno. by apply elem_of_cons; right.
Qed.

Lemma length_filter_complement {A} (P : A -> Prop) `{!forall x, Decision (P x)}
    (l : list A) :
  length l = (length (filter P l) + length (filter (fun x => ~ P x) l))%nat.
Proof.
  rewrite <- length_app. by rewrite filter_app_complement.
Qed.

Lemma one_row_per_id (l : list Transaction) (t : Transaction) :
  NoDup (map tx_id l) -> t ∈ l ->
  length (filter (fun r => tx_id r = tx_id t) l) = 1%nat.
Proof.
  induction l as [|a l IH]; intros Hnd Hin.
  - by apply elem_of_nil in Hin.
  - change (NoDup (tx_id a :: map tx_id l)) in Hnd.
    apply NoDup_cons in Hnd as [Ha Hnd].
    destruct (decide (tx_id a = tx_id t)) as [Heq|Hne].
    + rewrite filter_cons_True by done. simpl. f_equal.
      rewrite filter_none; [done|]. intros x Hx Hxid. apply Ha.
      rewrite Heq, <- Hxid. by apply list_elem_of_fmap_2.
    + rewrite filter_cons_False by done.
      apply elem_of_cons in Hin as [->|Hin]; [done|]. by apply IH.
Qed.

Lemma wf_snoc_ungrouped (l : list Transaction) (i : Z) (n : N)
    (t : Transaction) :
  wellFormedRows l i n -> tx_id t = i -> tx_transfer_group_id t = None ->
  wellFormedRows (l ++ [t]) (i + 1) n.
Proof.
  intros (Hnd & Hlt & Hgen & Hlegs) Hid Hg. repeat split.
  - rewrite map_app. apply NoDup_app. split; [done|]. split.
    + intros x Hx Hx'. simpl in Hx'. apply list_elem_of_singleton in Hx'.
      apply list_elem_of_fmap in Hx as (r & -> & Hr).
      specialize (Hlt r Hr). lia.
    + simpl. apply NoDup_singleton.
  - intros r [Hr|Hr]%elem_of_app.
    + specialize (Hlt r Hr). lia.
    + apply list_elem_of_singleton in Hr as ->. lia.
  - intros r g [Hr|Hr]%elem_of_app Hrg; [by eapply Hgen|].
    apply list_elem_of_singleton in Hr as ->. congruence.
  - intros r g [Hr|Hr]%elem_of_app Hrg.
    + rewrite filter_app, length_app, (Hlegs r g Hr Hrg).
      rewrite filter_cons_False by congruence. done.
    + apply list_elem_of_singleton in Hr as ->. congruence.
Qed.

Lemma wf_snoc_pair (l : list Transaction) (i : Z) (n : N)
    (a b : Transaction) :
  wellFormedRows l i n -> tx_id a = i -> tx_id b = i + 1 ->
  tx_transfer_group_id a = Some (groupName n) ->
  tx_transfer_group_id b = Some (groupName n) ->
  wellFormedRows (l ++ [a; b]) (i + 2) (N.succ n).
Proof.
  intros (Hnd & Hlt & Hgen & Hlegs) Hida Hidb Hga Hgb.
  assert (Hfresh : forall r, r ∈ l ->
            tx_transfer_group_id r <> Some (groupName n)).
  { intros r Hr Hrg. destruct (Hgen r _ Hr Hrg) as (k & Hk & Heq).
    apply groupName_inj in Heq. lia. }
  repeat split.
  - rewrite map_app. apply NoDup_app. split; [done|]. split.
    + intros x Hx Hx'. simpl in Hx'.
      apply list_elem_of_fmap in Hx as (r & -> & Hr). specialize (Hlt r Hr).
      apply elem_of_cons in Hx' as [Hx'|Hx'];
        [lia | apply list_elem_of_singleton in Hx'; lia].
    + simpl. apply NoDup_cons. split; [|apply NoDup_singleton].
      intros Hx. apply list_elem_of_singleton in Hx. lia.
  - intros r [Hr|Hr]%elem_of_app.
    + specialize (Hlt r Hr). lia.
    + apply elem_of_cons in Hr as [->|Hr];
        [lia | apply list_elem_of_singleton in Hr as ->; lia].
  - intros r g [Hr|Hr]%elem_of_app Hrg.
    + destruct (Hgen r g Hr Hrg) as (k & Hk & ->). exists k. split; [lia|done].
    + exists n. split; [lia|].
      apply elem_of_cons in Hr as [->|Hr];
        [congruence | apply list_elem_of_singleton in Hr as ->; congruence].
  - intros r g Hr Hrg. rewrite filter_app, length_app.
    destruct (decide (g = groupName n)) as [->|Hne].
    + rewrite (filter_none _ l) by (intros x Hx; by apply Hfresh).
      rewrite filter_cons_True by done.
      rewrite filter_cons_True by done. done.
    + apply elem_of_app in Hr as [Hr|Hr].
      * rewrite (Hlegs r g Hr Hrg).
        rewrite filter_cons_False by congruence.
        rewrite filter_cons_False by congruence. done.
      * apply elem_of_cons in Hr as [->|Hr];
          [congruence | apply list_elem_of_singleton in Hr as ->; congruence].
Qed.

Lemma wf_filter_group (l : list Transaction) (i : Z) (n : N) (g0 : string) :
  wellFormedRows l i n ->
  wellFormedRows (filter (fun r => tx_transfer_group_id r <> Some g0) l) i n.
Proof.
  intros (Hnd & Hlt & Hgen & Hlegs). repeat split.
  - eapply sublist_NoDup; [exact Hnd|]. apply fmap_sublist, sublist_filter.
  - intros r [_ Hr]%list_elem_of_filter. by apply Hlt.
  - intros r g [_ Hr]%list_elem_of_filter Hrg. by eapply Hgen.
  - intros r g [Hne Hr]%list_elem_of_filter Hrg.
    rewrite list_filter_filter_l; [by eapply Hlegs|].
    intros x Hx. congruence.
Qed.

Lemma wf_filter_id (l : list Transaction) (i : Z) (n : N) (t : Transaction) :
  wellFormedRows l i n -> t ∈ l -> tx_transfer_group_id t = None ->
  wellFormedRows (filter (fun r => tx_id r <> tx_id t) l) i n.
Proof.
  intros (Hnd & Hlt & Hgen & Hlegs) Ht Htg. repeat split.
  - eapply sublist_NoDup; [exact Hnd|]. apply fmap_sublist, sublist_filter.
  - intros r [_ Hr]%list_elem_of_filter. by apply Hlt.
  - intros r g [_ Hr]%list_elem_of_filter Hrg. by eapply Hgen.
  - intros r g [Hne Hr]%list_elem_of_filter Hrg.
    rewrite list_filter_filter, <- (Hlegs r g Hr Hrg).
    f_equal. apply filter_ext_in. intros x Hx. split; [tauto|].
    intros Hxg. split; [done|]. intros Hxid.
    assert (x = t) by by apply (same_id_same_row l). congruence.
Qed.

Lemma wf_replace (l : list Transaction) (i : Z) (n : N) (t t' : Transaction) :
  wellFormedRows l i n -> t ∈ l -> tx_transfer_group_id t = None ->
  tx_transfer_group_id t' = None -> tx_id t' = tx_id t ->
  wellFormedRows (map (fun r => if tx_id r =? tx_id t then t' else r) l) i n.
Proof.
  intros (Hnd & Hlt & Hgen & Hlegs) Ht Htg Htg' Hid.
  set (f := fun r => if tx_id r =? tx_id t then t' else r).
  assert (Hfid : forall r, tx_id (f r) = tx_id r).
  { intros r. unfold f. destruct (tx_id r =? tx_id t) eqn:Heq; [|done].
    apply Z.eqb_eq in Heq. congruence. }
  assert (Hfg : forall r, r ∈ l ->
            tx_transfer_group_id (f r) = tx_transfer_group_id r).
  { intros r Hr. unfold f. destruct (tx_id r =? tx_id t) eqn:Heq; [|done].
    apply Z.eqb_eq in Heq.
    assert (r = t) by by apply (same_id_same_row l). congruence. }
  assert (Hcount : forall g,
            length (filter (fun r => tx_transfer_group_id r = Some g) (map f l))
            = length (filter (fun r => tx_transfer_group_id r = Some g) l)).
  { intros g. clear Hnd Hlt Hgen Hlegs Ht. induction l as [|a l IH]; [done|].
    simpl. rewrite !filter_cons.
    rewrite (Hfg a) by (by apply elem_of_cons; left).
    destruct (decide (tx_transfer_group_id a = Some g)); simpl;
      rewrite IH; try done; intros r Hr; apply Hfg; by apply elem_of_cons; right. }
  repeat split.
  - rewrite <- list_fmap_compose.
    assert (Hmap : (tx_id ∘ f) <$> l = tx_id <$> l)
      by (apply list_fmap_ext; intros k r _; apply Hfid).
    by rewrite Hmap.
  - intros r (r0 & -> & Hr0)%list_elem_of_fmap. rewrite Hfid. by apply Hlt.
  - intros r g (r0 & -> & Hr0)%list_elem_of_fmap Hrg.
    rewrite Hfg in Hrg by done. by eapply Hgen.
  - intros r g (r0 & -> & Hr0)%list_elem_of_fmap Hrg.
    rewrite Hfg in Hrg by done. rewrite Hcount. by eapply Hlegs.
Qed.

Lemma create_wellFormed (body : TransactionPayload) (L : State) :
  wellFormed L -> wellFormed (create body L).2.
Proof.
  intros Hwf. unfold create.
  destruct (negb (validBody body)); [done|].
  destruct (oversells body (rows L)); [done|].
  destruct (String.eqb (p_type body) "INTERNAL_TRANSFER").
  - by apply wf_snoc_pair.
  - by apply wf_snoc_ungrouped.
Qed.

Lemma update_wellFormed (id : Z) (body : TransactionPayload) (L : State) :
  wellFormed L -> wellFormed (update id body L).2.
Proof.
  intros Hwf. unfold update.
  destruct (findRow id L) as [t|] eqn:Hfind; [|done].
  apply findRow_Some in Hfind as [Hin <-].
  destruct (tx_transfer_group_id t) as [g|] eqn:Hg; [done|].
  rewrite bool_decide_eq_false_2 by (intros [? ?]; done).
  destruct (negb (validBody body) || _); [done|].
  by apply wf_replace.
Qed.

Lemma delete_wellFormed (id : Z) (L : State) :
  wellFormed L -> wellFormed (delete id L).2.
Proof.
  intros Hwf. unfold delete.
  destruct (findRow id L) as [t|] eqn:Hfind; [|done].
  apply findRow_Some in Hfind as [Hin <-].
  destruct (tx_transfer_group_id t) as [g|] eqn:Hg.
  - by apply wf_filter_group.
  - by apply wf_filter_id.
Qed.

Lemma reverse_wellFormed (id : Z) (L : State) :
  wellFormed L -> wellFormed (reverse id L).2.
Proof.
  intros Hwf. unfold reverse.
  destruct (findRow id L) as [t|]; [|done].
  destruct (bool_decide _); [done|].
  by apply wf_snoc_ungrouped.
Qed.

Lemma reachable_wellFormed (L : State) : reachable L -> wellFormed L.
Proof.
  induction 1 as [registry quotes provider|req L _ IH|body L _ IH].
  - repeat split; simpl.
    + apply NoDup_nil_2.
    + intros t Ht. by apply elem_of_nil in Ht.
    + intros t g Ht. by apply elem_of_nil in Ht.
    + intros t g Ht. by apply elem_of_nil in Ht.
  - destruct req as [body|id body|id|id]; simpl.
    + by apply create_wellFormed.
    + by apply update_wellFormed.
    + pose proof (delete_wellFormed id L IH) as Hd.
      by destruct (delete id L).
    + by apply reverse_wellFormed.
  - unfold createInstrument. by destruct (existsb _ _).
Qed.

(** C4. In every ledger that the operations of the spec can produce,
    deleting a row of a transfer group removes exactly the two legs of
    that group and answers a count of 2, and deleting any other row
    removes exactly that row and answers 1; either way the rows that stay
    are the old rows, unchanged and in order.  The page sends this delete
    for the row whose pop-confirm is confirmed and then shows the
    reduced ledger. *)
Theorem delete_removes_pair `{Collator} `{StringBuiltins} `{JSDate.DateHost}
    (L : State) (tx : Transaction) :
  reachable L -> tx ∈ rows L ->
  let r := delete (tx_id tx) L in
  match tx_transfer_group_id tx with
  | Some g =>
      r.1 = Ok (mkDeleted true 2)
      /\ rows r.2
         = filter (fun t => tx_transfer_group_id t <> Some g) (rows L)
      /\ length (filter (fun t => tx_transfer_group_id t = Some g) (rows L))
         = 2%nat
  | None =>
      r.1 = Ok (mkDeleted true 1)
      /\ rows r.2 = filter (fun t => t <> tx) (rows L)
  end
  /\ rows r.2 `sublist_of` rows L
  /\ (forall (now : Z) (st : PageState),
        rowActionLoadingId st <> Some (tx_id tx) ->
        let page := rowEvent now ConfirmDelete tx st L in
        page.2 = r.2 /\ txs page.1 = rows r.2
        /\ successMessage page.1 = TxDeleted).
Proof.
  intros Hreach Hin r.
  pose proof (reachable_wellFormed L Hreach) as (Hnd & Hlt & Hgen & Hlegs).
  assert (Hfind : findRow (tx_id tx) L = Some tx) by by apply findRow_NoDup.
  subst r. unfold delete. rewrite Hfind.
  split; [|split].
  - destruct (tx_transfer_group_id tx) as [g|] eqn:Hg; simpl.
    + pose proof (Hlegs tx g Hin Hg) as Htwo.
      split; [|by split]. do 2 f_equal.
      rewrite (length_filter_complement
                 (fun t => tx_transfer_group_id t = Some g) (rows L)).
      rewrite Htwo. lia.
    + assert (Hsame : filter (fun t => tx_id t <> tx_id tx) (rows L)
                      = filter (fun t => t <> tx) (rows L)).
      { apply filter_ext_in. intros x Hx. split.
        - intros Hne ->. done.
        - intros Hne Hid. apply Hne. by apply (same_id_same_row (rows L)). }
      split; [|done]. do 2 f_equal.
      rewrite (length_filter_complement
                 (fun t => tx_id t = tx_id tx) (rows L)).
      rewrite one_row_per_id by done. lia.
  - destruct (tx_transfer_group_id tx); simpl; apply sublist_filter.
  - intros now st Hload. unfold rowEvent. simpl.
    rewrite bool_decide_eq_false_2 by done.
    unfold onDelete. simpl. unfold delete. rewrite Hfind. simpl. done.
Qed.

(** The ids the ledger generates are never empty, so that on the rows it
    serves "has a group id" and the page's truthiness test agree. *)
Lemma ledger_rows_truthy (L : State) (tx : Transaction) :
  reachable L -> tx ∈ rows L ->
  inTransferPair tx <-> is_Some (tx_transfer_group_id tx).
Proof.
  intros Hreach Hin. split.
  - intros (g & Hg & _). by exists g.
  - intros [g Hg]. exists g. split; [done|].
    destruct (reachable_wellFormed L Hreach) as (_ & _ & Hgen & _).
    destruct (Hgen tx g Hin Hg) as (n & _ & ->). apply groupName_nonempty.
Qed.

(** The ledger of the spec refuses to update or to reverse a leg. *)
Lemma ledger_rejects_leg_changes (L : State) (tx : Transaction)
    (body : TransactionPayload) :
  reachable L -> tx ∈ rows L -> is_Some (tx_transfer_group_id tx) ->
  (exists e, update (tx_id tx) body L = (Err e, L))
  /\ (exists e, reverse (tx_id tx) L = (Err e, L)).
Proof.
  intros Hreach Hin Hg.
  destruct (reachable_wellFormed L Hreach) as (Hnd & _).
  unfold update, reverse. rewrite (findRow_NoDup L tx Hnd Hin).
  rewrite bool_decide_eq_true_2 by done. eauto.
Qed.

Lemma cashBalance_snoc (account : Z) (l : list Transaction) (tx : Transaction) :
  cashBalance account (l ++ [tx]) = applyCash account (cashBalance account l) tx.
Proof. unfold cashBalance. by rewrite foldl_app. Qed.

(** C8. The settlement the form shows for a trade is amount - fee - tax
    for a SELL and amount + fee + tax for a BUY; in the ledger of the
    spec a SELL row adds the former to the cash of its account and a BUY
    row takes the latter from it; and CASH_IN 10000 followed by BUY 10 at
    100 with fee 1, submitted through the form, leaves a cash balance of
    8999 and a holding of 10 at an average cost of 100. *)
Theorem trade_cash_effect (account : Z) (l : list Transaction) (tx : Transaction) :
  tx_account_id tx = account ->
  (tx_type tx = "SELL" ->
     createSettlementPreview "SELL" (Some (tx_amount tx)) (Some (tx_fee tx))
                             (Some (tx_tax tx))
     = (if Num.isFinite (tx_amount tx) && Num.gtb (tx_amount tx) Num.zero
        then Some (Num.sub (Num.sub (tx_amount tx) (tx_fee tx)) (tx_tax tx))
        else None)
     /\ cashBalance account (l ++ [tx])
        = Num.add (cashBalance account l)
                  (Num.sub (Num.sub (tx_amount tx) (tx_fee tx)) (tx_tax tx)))
  /\ (tx_type tx = "BUY" ->
      createSettlementPreview "BUY" (Some (tx_amount tx)) (Some (tx_fee tx))
                              (Some (tx_tax tx))
      = (if Num.isFinite (tx_amount tx) && Num.gtb (tx_amount tx) Num.zero
         then Some (Num.add (Num.add (tx_amount tx) (tx_fee tx)) (tx_tax tx))
         else None)
      /\ cashBalance account (l ++ [tx])
         = Num.sub (cashBalance account l)
                   (Num.add (Num.add (tx_amount tx) (tx_fee tx)) (tx_tax tx)))
  /\ (map tx_type (rows Samples.afterBuy.2) = ["CASH_IN"; "BUY"]
      /\ cashBalance 1 (rows Samples.afterBuy.2) = Num.of_Z 8999
      /\ holding 1 1 (rows Samples.afterBuy.2)
         = mkPosition (Num.of_Z 10) (Num.of_Z 100)).
Proof.
  intros Hacc.
  assert (Hprev : forall t,
    createSettlementPreview t (Some (tx_amount tx)) (Some (tx_fee tx))
                            (Some (tx_tax tx))
    = if has TRADE_TYPES t
      then if Num.isFinite (tx_amount tx) && Num.gtb (tx_amount tx) Num.zero
           then Some (if String.eqb t "SELL"
                      then Num.sub (Num.sub (tx_amount tx) (tx_fee tx))
                                   (tx_tax tx)
                      else Num.add (Num.add (tx_amount tx) (tx_fee tx))
                                   (tx_tax tx))
           else None
      else None).
  { intros t. unfold createSettlementPreview.
    destruct (has TRADE_TYPES t); [|done]. simpl.
    destruct (tx_amount tx) as [[]|[]| |[] m e]; simpl; try done;
      by destruct (String.eqb t "SELL"). }
  split; [|split].
  - intros Htype. split.
    + rewrite Hprev. simpl. by destruct (_ && _).
    + rewrite cashBalance_snoc. unfold applyCash, isInflow.
      rewrite Hacc, Z.eqb_refl, Htype. done.
  - intros Htype. split.
    + rewrite Hprev. simpl. by destruct (_ && _).
    + rewrite cashBalance_snoc. unfold applyCash, isInflow.
      rewrite Hacc, Z.eqb_refl, Htype. done.
  - vm_compute. done.
Qed.

(** *** The page over the ledger of the spec *)

Section PageOverLedger.
Context `{Collator} `{StringBuiltins}.

Lemma ensure_reachable (symbol : string) (accountId : Z)
    (fallbackCurrency : string) (st : PageState) (L : State) :
  reachable L ->
  reachable (ensureInstrumentBySymbol symbol accountId fallbackCurrency st L).2.
Proof.
  intros Hreach. unfold ensureInstrumentBySymbol.
  destruct (instrumentBySymbol (instruments st) !! symbol); [done|].
  match goal with |- context [match ?f with Ok _ => _ | Err _ => _ end] =>
    destruct f as [lookup|e] end; [|done].
  destruct (negb (l_found lookup)); [done|].
  destruct (instrumentBySymbol (instruments st) !! _); [done|].
  match goal with |- context [post_instrument ?b L] =>
    pose proof (reachable_instrument b L Hreach) as Hnew;
    change (post_instrument b L) with (createInstrument b L);
    destruct (createInstrument b L) as [[created|e] L'] end; simpl in *.
  - done.
  - by destruct (List.find _ _).
Qed.

Lemma onCreate_reachable (now : Z) (values : TransactionForm)
    (st : PageState) (L : State) :
  reachable L -> reachable (onCreate now values st L).2.
Proof.
  intros Hreach. unfold onCreate.
  destruct (_ && String.eqb _ ""); [done|].
  match goal with
  | |- context [if ?c then ensureInstrumentBySymbol ?a ?b ?d ?s ?v else ?alt] =>
      set (ensured := if c then ensureInstrumentBySymbol a b d s v else alt);
      assert (Hens : reachable ensured.2)
        by (subst ensured; destruct c; [by apply ensure_reachable | done])
  end.
  destruct ensured as [[outcome st1] L1]. simpl in Hens.
  destruct outcome as [|instrument]; [done|].
  destruct (_ && negb (bool_decide (is_Some instrument))); [done|].
  match goal with |- context [if ?c then (setError CounterpartyRequired _, _) else _] =>
    destruct c end; [done|].
  match goal with |- context [if ?c then (setError QuantityPriceRequired _, _) else _] =>
    destruct c end; [done|].
  match goal with |- context [if ?c then (setError AmountNotPositive _, _) else _] =>
    destruct c end; [done|].
  destruct (shanghaiLocalToIso now (v_executed_at values)); [|done].
  match goal with |- context [send ?req L1] =>
    pose proof (reachable_send req L1 Hens) as Hsend;
    change (send req L1) with (handle req L1);
    destruct (handle req L1) as [[?|e] L'] end; done.
Qed.

End PageOverLedger.

End LedgerFacts.

(** ** The claims on the sample data *)

Module Witnesses.
Import Transactions Ledger Samples.
Import TransactionsFacts LedgerFacts.

Lemma afterTransfer_reachable : reachable afterTransfer.2.
Proof.
  apply onCreate_reachable, onCreate_reachable, onCreate_reachable.
  apply reachable_empty.
Qed.


Lemma delete_removes_pair_witness :
  let leg := mkTx 3 "CASH_OUT" 1 None None None (Num.of_Z 5000) Num.zero
                  Num.zero "CNY" "2026-02-08T03:00:00.000Z" "Asia/Shanghai"
                  (Some "tg-0") None in
  reachable afterTransfer.2 /\ leg ∈ rows afterTransfer.2
  /\ (delete 3 afterTransfer.2).1 = Ok (mkDeleted true 2)
  /\ map tx_id (rows (delete 3 afterTransfer.2).2) = [1; 2]
  /\ rows (delete 3 afterTransfer.2).2 `sublist_of` rows afterTransfer.2.
Proof.
  intros leg.
  assert (Hin : leg ∈ rows afterTransfer.2).
  { apply (bool_decide_eq_true_1 (_ ∈ _)). vm_compute; reflexivity. }
  split; [exact afterTransfer_reachable|]. split; [exact Hin|].
  destruct (delete_removes_pair afterTransfer.2 leg afterTransfer_reachable Hin)
    as (Hpair & Hsub & _).
  cbv beta iota zeta delta [leg tx_transfer_group_id] in Hpair.
  destruct Hpair as (Hcount & Hrows & _).
  split; [exact Hcount|]. split; [|exact Hsub].
  vm_compute; reflexivity.
Defined.

Lemma transfer_rows_locked_witness :
  let leg := mkTx 3 "CASH_OUT" 1 None None None (Num.of_Z 5000) Num.zero
                  Num.zero "CNY" "2026-02-08T03:00:00.000Z" "Asia/Shanghai"
                  (Some "tg-0") None in
  let buy := mkTx 2 "BUY" 1 (Some 1) (Some (Num.of_Z 10)) (Some (Num.of_Z 100))
                  (Num.of_Z 1000) (Num.of_Z 1) Num.zero "USD"
                  "2026-02-08T02:00:00.000Z" "Asia/Shanghai" None None in
  (inTransferPair leg
   /\ rowEvent 0 ClickEdit leg afterTransfer.1 (afterTransfer.2, [])
      = (afterTransfer.1, (afterTransfer.2, []))
   /\ rowEvent 0 ConfirmReverse leg afterTransfer.1 (afterTransfer.2, [])
      = (afterTransfer.1, (afterTransfer.2, [])))
  /\ (~ inTransferPair buy
      /\ editingTx (rowEvent 0 ClickEdit buy afterTransfer.1
                             (afterTransfer.2, [])).1 = Some buy
      /\ (rowEvent 0 ConfirmReverse buy afterTransfer.1
                   (afterTransfer.2, [])).2.2 = [ReverseTransaction 2]).
Proof.
  intros leg buy. split.
  - assert (Hpair : inTransferPair leg) by (exists "tg-0"; split; done).
    split; [exact Hpair|].
    destruct (proj1 (transfer_rows_locked 0 leg afterTransfer.1 afterTransfer.2)
                Hpair) as (_ & _ & _ & _ & _ & _ & Hedit & Hrev).
    split; [exact Hedit | exact Hrev].
  - assert (Hno : ~ inTransferPair buy) by (intros (g & Hg & _); done).
    split; [exact Hno|].
    destruct (proj2 (transfer_rows_locked 0 buy afterTransfer.1 afterTransfer.2)
                Hno) as (_ & _ & _ & Hoffered).
    apply Hoffered. vm_compute. done.
Defined.

Lemma trade_cash_effect_witness :
  let buy := mkTx 2 "BUY" 1 (Some 1) (Some (Num.of_Z 10)) (Some (Num.of_Z 100))
                  (Num.of_Z 1000) (Num.of_Z 1) Num.zero "USD"
                  "2026-02-08T02:00:00.000Z" "Asia/Shanghai" None None in
  rows afterBuy.2 = rows afterCashIn.2 ++ [buy]
  /\ cashBalance 1 (rows afterCashIn.2 ++ [buy])
     = Num.sub (cashBalance 1 (rows afterCashIn.2))
               (Num.add (Num.add (Num.of_Z 1000) (Num.of_Z 1)) Num.zero)
  /\ cashBalance 1 (rows afterCashIn.2) = Num.of_Z 10000.
Proof.
  intros buy. split; [vm_compute; reflexivity|]. split.
  - exact (proj2 (proj1 (proj2 (trade_cash_effect 1 (rows afterCashIn.2) buy
                                  eq_refl)) eq_refl)).
  - vm_compute; reflexivity.
Defined.

Lemma null_rate_propagates_witness :
  let first := Dashboard.curvePoint "2024-03-14T00:00:00Z" (Num.of_Z 100)
                                    (Num.of_Z 110) in
  let missing := Dashboard.curvePoint "2024-03-15T00:00:00Z" Num.zero
                                      (Num.of_Z 100) in
  let third := Dashboard.curvePoint "2024-03-16T00:00:00Z" (Num.of_Z 100)
                                    (Num.of_Z 120) in
  Dashboard.total_return_rate missing = None
  /\ Dashboard.total_return_rate first = Some (Num.of_ratio false 1 10)
  /\ Dashboard.curveSeries [first; missing; third]
     = [("2024-03-14T00:00:00Z", Num.of_ratio false 1 10);
        ("2024-03-16T00:00:00Z", Num.of_ratio false 2 10)]
  /\ (Dashboard.dates <$> Dashboard.buildCurveOption [first; missing; third])
     = Some ["03/14"; "03/16"]
  /\ Dashboard.latestRate
       (Dashboard.derived (Num.of_Z 120) [first; third; missing] [])
     = Some (Num.of_ratio false 2 10)
  /\ Dashboard.rateText
       (Dashboard.totalReturnRate
          (Dashboard.derived (Num.of_Z 120) [first; third; missing] []))
     = Dashboard.Literal "-".
Proof.
  set (first := Dashboard.curvePoint "2024-03-14T00:00:00Z" (Num.of_Z 100)
                                     (Num.of_Z 110)).
  set (third := Dashboard.curvePoint "2024-03-16T00:00:00Z" (Num.of_Z 100)
                                     (Num.of_Z 120)).
  cbv zeta.
  pose proof (DashboardFacts.null_rate_propagates
                "2024-03-15T00:00:00Z" Num.zero (Num.of_Z 100) (Num.of_Z 120)
                [first] [third] [])
    as (_ & _ & Hmiddle & _).
  pose proof (DashboardFacts.null_rate_propagates
                "2024-03-15T00:00:00Z" Num.zero (Num.of_Z 100) (Num.of_Z 120)
                [first; third] [] [])
    as (_ & _ & Hlast & _).
  pose proof (DashboardFacts.null_rate_propagates
                "2024-03-14T00:00:00Z" (Num.of_Z 100) (Num.of_Z 110)
                (Num.of_Z 120) [] [] [])
    as (_ & Hrate & _).
  cbv zeta in Hmiddle, Hlast, Hrate. fold first in Hrate.
  specialize (Hmiddle eq_refl) as (H1 & _ & _ & H4 & H5 & _).
  specialize (Hlast eq_refl) as (_ & _ & _ & _ & _ & H6 & _ & H8).
  specialize (Hrate eq_refl) as (H9 & _).
  specialize (H8 eq_refl) as [_ H8].
  cbn [app] in H4, H5, H6, H8.
  split; [exact H1|]. split; [rewrite H9; vm_compute; reflexivity|].
  split; [rewrite H4; vm_compute; reflexivity|].
  split; [rewrite H5; vm_compute; reflexivity|].
  split; [rewrite H6; vm_compute; reflexivity|].
  exact H8.
Defined.

End Witnesses.

(** * Further properties of the pages *)

(** ** Date-times of the transaction form *)

Module DateTimeExtra.
Import JSDate Transactions JSDateFacts DateTimeFacts.

Lemma list_ascii_of_string_app (a b : string) :
  list_ascii_of_string (a ++ b)%string
  = list_ascii_of_string a ++ list_ascii_of_string b.
Proof.
  induction a as [|c a IH]; [done|].
  simpl. f_equal. exact IH.
Qed.

Lemma length_string_app (a b : string) :
  String.length (a ++ b)%string = (String.length a + String.length b)%nat.
Proof.
  induction a as [|c a IH]; [done|].
  simpl. f_equal. exact IH.
Qed.

Lemma normalize_short (value : string) :
  String.length value = 16%nat ->
  normalizeDateTimeLocal value = (value ++ ":00")%string.
Proof. intros Hlen. unfold normalizeDateTimeLocal. by rewrite Hlen. Qed.

Lemma normalize_other (value : string) :
  String.length value <> 16%nat -> normalizeDateTimeLocal value = value.
Proof.
  intros Hlen. unfold normalizeDateTimeLocal.
  by destruct (Nat.eqb_spec (String.length value) 16).
Qed.

(** The characters that [parseDateTimeLocal] reads are those of the
    fields it answers, with or without the seconds. *)
Lemma parseDateTimeLocal_chars (value : string) (f : LocalDateTime) :
  parseDateTimeLocal value = Some f ->
  (0 <= year f < 10000 /\ 0 <= month f < 100 /\ 0 <= day f < 100
   /\ 0 <= hour f < 100 /\ 0 <= minute f < 100 /\ 0 <= second f < 100)
  /\ (String.length (normalizeDateTimeLocal value) = 16%nat
      \/ String.length (normalizeDateTimeLocal value) = 19%nat).
Proof.
  unfold parseDateTimeLocal. intros Hp.
  rewrite <- (length_list_ascii_of_string (normalizeDateTimeLocal value)).
  destruct (takeDigits 4 0 (list_ascii_of_string _))
    as [[y l1]|] eqn:H1; [|done].
  apply takeDigits_inv4 in H1 as [-> Hy]. cbn [mbind option_bind] in Hp.
  destruct (expect "-" l1) as [l2|] eqn:H2; [|done].
  apply expect_inv in H2 as ->. cbn [mbind option_bind] in Hp.
  destruct (takeDigits 2 0 l2) as [[mo l3]|] eqn:H3; [|done].
  apply takeDigits_inv2 in H3 as [-> Hmo]. cbn [mbind option_bind] in Hp.
  destruct (expect "-" l3) as [l4|] eqn:H4; [|done].
  apply expect_inv in H4 as ->. cbn [mbind option_bind] in Hp.
  destruct (takeDigits 2 0 l4) as [[d l5]|] eqn:H5; [|done].
  apply takeDigits_inv2 in H5 as [-> Hd]. cbn [mbind option_bind] in Hp.
  destruct (expect "T" l5) as [l6|] eqn:H6; [|done].
  apply expect_inv in H6 as ->. cbn [mbind option_bind] in Hp.
  destruct (takeDigits 2 0 l6) as [[h l7]|] eqn:H7; [|done].
  apply takeDigits_inv2 in H7 as [-> Hh]. cbn [mbind option_bind] in Hp.
  destruct (expect ":" l7) as [l8|] eqn:H8; [|done].
  apply expect_inv in H8 as ->. cbn [mbind option_bind] in Hp.
  destruct (takeDigits 2 0 l8) as [[mi l9]|] eqn:H9; [|done].
  apply takeDigits_inv2 in H9 as [-> Hmi]. cbn [mbind option_bind] in Hp.
  destruct l9 as [|c l9].
  { injection Hp as <-. cbn [year month day hour minute second].
    split; [lia|]. left. by rewrite !pad2_digits by done. }
  destruct (expect ":" (c :: l9)) as [l10|] eqn:H10; [|done].
  apply expect_inv in H10. injection H10 as -> ->.
  cbn [mbind option_bind] in Hp.
  destruct (takeDigits 2 0 l10) as [[s l11]|] eqn:H11; [|done].
  apply takeDigits_inv2 in H11 as [-> Hs]. cbn [mbind option_bind] in Hp.
  destruct l11; [|done]. injection Hp as <-.
  cbn [year month day hour minute second].
  split; [lia|]. right. by rewrite !pad2_digits by done.
Qed.

Lemma parseDateTimeLocal_length (value : string) (f : LocalDateTime) :
  parseDateTimeLocal value = Some f ->
  String.length value = 16%nat \/ String.length value = 19%nat.
Proof.
  intros Hp. apply parseDateTimeLocal_chars in Hp as [_ Hlen].
  destruct (Nat.eq_dec (String.length value) 16%nat) as [H16|H16]; [by left|].
  rewrite normalize_other in Hlen by done. destruct Hlen; [done | by right].
Qed.

Lemma parseDateTimeLocal_minutes (value : string) (f : LocalDateTime) :
  String.length value = 16%nat ->
  parseDateTimeLocal value = Some f -> second f = 0.
Proof.
  intros Hlen. unfold parseDateTimeLocal.
  rewrite normalize_short, list_ascii_of_string_app by done.
  rewrite <- length_list_ascii_of_string in Hlen.
  destruct (list_ascii_of_string value)
    as [|c1 [|c2 [|c3 [|c4 [|c5 [|c6 [|c7 [|c8 [|c9 [|c10 [|c11 [|c12
        [|c13 [|c14 [|c15 [|c16 [|]]]]]]]]]]]]]]]]]; try done.
  clear Hlen. cbn [app list_ascii_of_string]. intros Hp.
  unfold expect in Hp.
  repeat (cbn [mbind option_bind takeDigits] in Hp; case_match; try done).
  all: cbn [mbind option_bind takeDigits] in Hp.
  all: repeat match goal with
              | H : digitOf "0"%char = _ |- _ => cbv in H
              end.
  all: by simplify_eq.
Qed.

(** X1.  [parseDateTimeLocal] reads only strings of 16 or 19 characters;
    the fields it answers are a year from 0 to 9999 and two-digit
    numbers, and a string of 16 characters (no seconds) is read like the
    same string followed by ":00", with second 0. *)
Theorem parseDateTimeLocal_shape (value : string) (f : LocalDateTime) :
  parseDateTimeLocal value = Some f ->
  (String.length value = 16%nat \/ String.length value = 19%nat)
  /\ 0 <= year f <= 9999 /\ 0 <= month f <= 99 /\ 0 <= day f <= 99
  /\ 0 <= hour f <= 99 /\ 0 <= minute f <= 99 /\ 0 <= second f <= 99
  /\ (String.length value = 16%nat ->
      second f = 0
      /\ parseDateTimeLocal (value ++ ":00")%string = Some f).
Proof.
  intros Hp. pose proof (parseDateTimeLocal_length _ _ Hp) as Hlen.
  pose proof (parseDateTimeLocal_chars _ _ Hp) as [Hf _].
  split; [done|]. repeat (split; [lia|]).
  intros H16. split; [by eapply parseDateTimeLocal_minutes|].
  rewrite <- Hp. unfold parseDateTimeLocal.
  rewrite (normalize_short value) by done.
  rewrite normalize_other; [done|]. rewrite length_string_app, H16. done.
Qed.

Lemma parseDateTimeLocal_shape_witness :
  second (mkLocal 2024 3 15 9 30 0) = 0
  /\ parseDateTimeLocal "2024-03-15T09:30:00"
     = Some (mkLocal 2024 3 15 9 30 0).
Proof.
  apply (parseDateTimeLocal_shape "2024-03-15T09:30" (mkLocal 2024 3 15 9 30 0));
    vm_compute; reflexivity.
Defined.

(** X2.  A value of any other length is not a local date-time, and
    [shanghaiLocalToIso] answers the present instant for it. *)
Theorem shanghaiLocalToIso_fallback (now : Z) (value : string) :
  String.length value <> 16%nat -> String.length value <> 19%nat ->
  parseDateTimeLocal value = None
  /\ shanghaiLocalToIso now value = Some (toISOString now).
Proof.
  intros H16 H19.
  assert (Hnone : parseDateTimeLocal value = None).
  { destruct (parseDateTimeLocal value) as [f|] eqn:Hp; [|done].
    by destruct (parseDateTimeLocal_length _ _ Hp). }
  split; [done|]. unfold shanghaiLocalToIso. by rewrite Hnone.
Qed.

Lemma shanghaiLocalToIso_fallback_witness :
  shanghaiLocalToIso 1710466200000 "2024-03-15"
  = Some "2024-03-15T01:30:00.000Z".
Proof.
  destruct (shanghaiLocalToIso_fallback 1710466200000 "2024-03-15")
    as [_ ->]; [vm_compute; discriminate..|].
  vm_compute; reflexivity.
Defined.

(** The local date-time of an instant, read back, is the instant cut
    down to the whole second. *)
Lemma format_then_iso (now t : Z) :
  DayFromYear 1000 * msPerDay <= t + 8 * msPerHour
  < DayFromYear 10000 * msPerDay ->
  shanghaiLocalToIso now
    (formatUtcToDateTimeLocalByOffset t SHANGHAI_OFFSET_HOURS)
  = Some (toISOString (t - t mod 1000))
  /\ DayFromYear 0 * msPerDay <= t - t mod 1000
     < DayFromYear 10000 * msPerDay.
Proof.
  intros Hr. set (T := t + SHANGHAI_OFFSET_HOURS * 3600 * 1000).
  assert (HTr : DayFromYear 1000 * msPerDay <= T
                < DayFromYear 10000 * msPerDay)
    by (unfold T, SHANGHAI_OFFSET_HOURS, msPerHour in *; lia).
  assert (Htr : DayFromYear 0 * msPerDay <= t - t mod 1000
                < DayFromYear 10000 * msPerDay).
  { rewrite DayFromYear_0. rewrite DayFromYear_1000 in HTr.
    unfold T, SHANGHAI_OFFSET_HOURS, msPerDay in *.
    Z.div_mod_to_equations; lia. }
  split; [|done].
  pose proof (year_of_range T 1000 10000 HTr) as HY.
  destruct (MakeDay_of_civil T) as (Hm & Hd & Hday).
  destruct (time_decompose T) as (Hh & Hmi & Hs & _ & Hdec).
  pose proof (daysInMonth_le (YearFromTime T) (MonthFromTime T + 1)) as H31.
  rewrite format_chars by done. fold T.
  unfold shanghaiLocalToIso. rewrite parse_localChars by lia.
  cbn [year month day hour minute second].
  rewrite Date_UTC_plain by lia.
  replace (MonthFromTime T + 1 - 1) with (MonthFromTime T) by lia.
  rewrite Hday.
  assert (Hback : MakeDate (Day T)
                    (MakeTime (HourFromTime T - SHANGHAI_OFFSET_HOURS)
                              (MinFromTime T) (SecFromTime T) 0)
                  = t - t mod 1000).
  { assert (Hz : msFromTime T = t mod 1000).
    { unfold msFromTime, msPerSecond, T, SHANGHAI_OFFSET_HOURS.
      Z.div_mod_to_equations; lia. }
    rewrite Hz in Hdec. unfold MakeDate, MakeTime in *.
    unfold T, SHANGHAI_OFFSET_HOURS, msPerHour in *. lia. }
  rewrite Hback, TimeClip_in_range by done. reflexivity.
Qed.

(** X3.  What the edit form shows for an instant, sent back as it is,
    is the instant cut down to the whole second: the milliseconds are
    dropped and nothing else changes. *)
Theorem roundtrip_truncates_to_second `{DateHost} (now : Z) (iso : string)
    (t : Z) :
  Date_parse iso = Some t ->
  DayFromYear 1000 * msPerDay <= t + 8 * msPerHour
  < DayFromYear 10000 * msPerDay ->
  exists iso',
    shanghaiLocalToIso now (isoToShanghaiLocalDateTime now iso) = Some iso'
    /\ Date_parse iso' = Some (t - t mod 1000).
Proof.
  intros Hp Hr. destruct (format_then_iso now t Hr) as [Hiso Htr].
  unfold isoToShanghaiLocalDateTime. rewrite Hp.
  eexists; split; [exact Hiso|]. by apply Date_parse_toISOString.
Qed.

Section Witness.
#[local] Existing Instance Samples.strictHost.

Lemma roundtrip_truncates_to_second_witness :
  exists iso',
    shanghaiLocalToIso 0
      (isoToShanghaiLocalDateTime 0 "2024-03-15T01:30:00.789Z")
    = Some iso'
    /\ Date_parse iso' = Some (1710466200789 - 1710466200789 mod 1000).
Proof.
  apply (roundtrip_truncates_to_second 0 "2024-03-15T01:30:00.789Z"
           1710466200789); vm_compute; [reflexivity|].
  split; [discriminate | reflexivity].
Defined.

End Witness.

(** X4.  The date-time the create form starts with is a well-formed
    local date-time, and sent as it is it stands for the present instant
    cut down to the whole second. *)
Theorem getNowShanghaiDateTime_valid (now : Z) :
  DayFromYear 1000 * msPerDay <= now + 8 * msPerHour
  < DayFromYear 10000 * msPerDay ->
  validLocalDateTime (getNowShanghaiDateTime now) = true
  /\ shanghaiLocalToIso now (getNowShanghaiDateTime now)
     = Some (toISOString (now - now mod 1000)).
Proof.
  intros Hr. split; [|by apply format_then_iso].
  set (T := now + SHANGHAI_OFFSET_HOURS * 3600 * 1000).
  assert (HTr : DayFromYear 1000 * msPerDay <= T
                < DayFromYear 10000 * msPerDay)
    by (unfold T, SHANGHAI_OFFSET_HOURS, msPerHour in *; lia).
  pose proof (year_of_range T 1000 10000 HTr) as HY.
  destruct (MakeDay_of_civil T) as (Hm & Hd & Hday).
  destruct (time_decompose T) as (Hh & Hmi & Hs & _ & Hdec).
  pose proof (daysInMonth_le (YearFromTime T) (MonthFromTime T + 1)) as H31.
  unfold getNowShanghaiDateTime, validLocalDateTime.
  rewrite format_chars by done. fold T.
  rewrite length_string_of_list_ascii, length_localChars by lia.
  rewrite parse_localChars by lia. unfold validCalendar.
  cbn [year month day hour minute second Nat.eqb andb].
  rewrite !andb_true_iff, !Z.leb_le. lia.
Qed.

Lemma getNowShanghaiDateTime_valid_witness :
  validLocalDateTime (getNowShanghaiDateTime 1710466200789) = true
  /\ shanghaiLocalToIso 1710466200789 (getNowShanghaiDateTime 1710466200789)
     = Some (toISOString (1710466200789 - 1710466200789 mod 1000)).
Proof.
  apply (getNowShanghaiDateTime_valid 1710466200789).
  vm_compute. split; [discriminate | reflexivity].
Defined.

End DateTimeExtra.

(** ** The handlers of the transactions page *)

Module TransactionsExtra.
Import Transactions Wire TransactionsFacts.

Section WithBackend.
Context `{Collator} `{StringBuiltins} `{JSDate.DateHost} {S : Type}
        `{Backend S}.

Lemma load_error (srv : S) (st : PageState) :
  error (load srv st) = NoError \/ exists e, error (load srv st) = Thrown e.
Proof. unfold load. destruct (get_all srv); simpl; eauto. Qed.

(** What [onCreate] sends: nothing, or one POST whose body is read off
    the form. *)
Lemma onCreate_cases (now : Z) (values : TransactionForm) (st : PageState)
    (srv : S) :
  let r := onCreate now values st (srv, []) in
  let isTrade := has TRADE_TYPES (v_type values) in
  let needsInstrument := has INSTRUMENT_REQUIRED_TYPES (v_type values) in
  let needsCounterparty := String.eqb (v_type values) "INTERNAL_TRANSFER" in
  let q := default Num.zero (v_quantity values) in
  let p := default Num.zero (v_price values) in
  r.2.2 = []
  \/ exists body a,
       r.2.2 = [PostTransaction body]
       /\ (error r.1 = NoError \/ exists e, error r.1 = Thrown e)
       /\ p_type body = v_type values
       /\ p_account_id body = v_account_id values
       /\ p_counterparty_account_id body
          = (if needsCounterparty then v_counterparty_account_id values
             else None)
       /\ (needsCounterparty = true ->
           exists c, v_counterparty_account_id values = Some c /\ c <> 0)
       /\ (needsInstrument = true <-> is_Some (p_instrument_id body))
       /\ p_quantity body = (if isTrade then Some q else None)
       /\ p_price body = (if isTrade then Some p else None)
       /\ p_amount body = Some a
       /\ a = (if isTrade then round8 (Num.mul q p)
               else default Num.zero (v_amount values))
       /\ Num.isFinite a = true /\ Num.gtb a Num.zero = true
       /\ (isTrade = true ->
           Num.gtb q Num.zero = true /\ Num.gtb p Num.zero = true)
       /\ p_fee body
          = (if isTrade then default Num.zero (v_fee values) else Num.zero)
       /\ p_tax body
          = (if isTrade then default Num.zero (v_tax values) else Num.zero)
       /\ p_currency body = toUpperCase (v_currency values)
       /\ shanghaiLocalToIso now (v_executed_at values)
          = Some (p_executed_at body)
       /\ p_executed_tz body = SHANGHAI_TZ
       /\ p_note body = v_note values.
Proof.
  intros r isTrade needsInstrument needsCounterparty q p.
  subst r isTrade needsInstrument needsCounterparty.
  unfold onCreate. cbv zeta. fold q p.
  remember (has TRADE_TYPES (v_type values)) as isTrade eqn:HisTrade.
  remember (has INSTRUMENT_REQUIRED_TYPES (v_type values))
    as needsInstrument eqn:Hneeds.
  remember (String.eqb (v_type values) "INTERNAL_TRANSFER")
    as needsCounterparty eqn:Hcounter.
  clear HisTrade Hneeds Hcounter.
  set (symbol := normalizeSymbol (v_instrument_symbol values)).
  destruct (needsInstrument && String.eqb symbol ""); [by left|].
  match goal with
  | |- context [if ?c then ensureInstrumentBySymbol ?a ?b ?d ?s ?v else ?alt] =>
      set (ensured := if c then ensureInstrumentBySymbol a b d s v else alt);
      assert (Hlog : ensured.2.2 = [])
        by (subst ensured; destruct c; [apply ensure_keeps_trace | done]);
      assert (Hnone : needsInstrument = false ->
                      ensured.1.1 = EnsureReturned None)
        by (intros Hn; subst ensured; by rewrite Hn)
  end.
  destruct ensured as [[outcome st1] [srv1 log1]].
  cbn [fst snd] in Hlog, Hnone. subst log1.
  destruct outcome as [|instrument]; [by left|].
  destruct (needsInstrument && negb (bool_decide (is_Some instrument)))
    eqn:Hins; [by left|].
  match goal with
  | |- context [if ?c then (setError CounterpartyRequired _, _) else _] =>
      destruct c eqn:Hcp
  end; [by left|].
  assert (Hinstr : needsInstrument = true <-> is_Some (i_id <$> instrument)).
  { destruct needsInstrument.
    - cbn [andb] in Hins.
      apply negb_false_iff, bool_decide_eq_true_1 in Hins.
      split; [intros _; by apply fmap_is_Some | done].
    - specialize (Hnone eq_refl). injection Hnone as ->.
      split; [done | by intros [? ?]]. }
  assert (Hparty : needsCounterparty = true ->
                   exists c, v_counterparty_account_id values = Some c
                             /\ c <> 0).
  { intros Hn. rewrite Hn in Hcp. cbn [andb] in Hcp.
    destruct (v_counterparty_account_id values) as [c|]; [|done].
    exists c. split; [done|]. by apply Z.eqb_neq. }
  clear Hins Hcp Hnone.
  assert (Hbool : forall a b c d : bool, a || b || c || d = (a || c) || (b || d))
    by (intros [] [] [] []; reflexivity).
  destruct isTrade; cbn [andb default from_option id].
  - rewrite Hbool, !NumFacts.positive_iff.
    destruct (Num.gtb q Num.zero) eqn:Hq; [|cbn [negb orb]; by left].
    destruct (Num.gtb p Num.zero) eqn:Hp; [|cbn [negb orb]; by left].
    cbn [negb orb].
    match goal with
    | |- context [if ?c then (setError AmountNotPositive _, _) else _] =>
        destruct c eqn:Hamount
    end; [by left|].
    apply NumFacts.finite_positive in Hamount as [Hfin Hpos].
    destruct (shanghaiLocalToIso now (v_executed_at values)) as [iso|];
      [|by left].
    right. simpl.
    match goal with |- context [send (PostTransaction ?b) srv1] =>
      exists b; destruct (send (PostTransaction b) srv1) as [[?|e] srv']
    end.
    all: eexists; simpl; split; [reflexivity|].
    all: split; [first [apply load_error | eauto]|].
    all: by repeat (split; [first [reflexivity | done]|]).
  - match goal with
    | |- context [if ?c then (setError AmountNotPositive _, _) else _] =>
        destruct c eqn:Hamount
    end; [by left|].
    apply NumFacts.finite_positive in Hamount as [Hfin Hpos].
    destruct (shanghaiLocalToIso now (v_executed_at values)) as [iso|];
      [|by left].
    right. simpl.
    match goal with |- context [send (PostTransaction ?b) srv1] =>
      exists b; destruct (send (PostTransaction b) srv1) as [[?|e] srv']
    end.
    all: eexists; simpl; split; [reflexivity|].
    all: split; [first [apply load_error | eauto]|].
    all: by repeat (split; [first [reflexivity | done]|]).
Qed.

Lemma finite_product (q p : number) :
  Num.gtb q Num.zero = true -> Num.gtb p Num.zero = true ->
  Num.isFinite (round8 (Num.mul q p)) = true ->
  Num.isFinite q = true /\ Num.isFinite p = true.
Proof.
  destruct q as [[]|[]| |[] mq eq], p as [[]|[]| |[] mp ep]; try done.
Qed.

Lemma positive_not_leb (x : number) :
  Num.gtb x Num.zero = true -> Num.leb x Num.zero = false.
Proof. destruct x as [[]|[]| |[] m e]; done. Qed.

(** What [ensureInstrumentBySymbol] asks the server to change: nothing,
    or one instrument for a symbol that the page does not hold. *)
Lemma ensure_mutations (symbol : string) (accountId : Z)
    (fallbackCurrency : string) (st : PageState) (srv : S)
    (calls : list Mutation) :
  let r := ensureInstrumentBySymbol symbol accountId fallbackCurrency st
                                    (srv, calls) in
  r.2.2 = calls
  \/ exists body,
       r.2.2 = calls ++ [CreateInstrument body]
       /\ instrumentBySymbol (instruments st) !! symbol = None
       /\ ip_default_account_id body = Some accountId.
Proof.
  intros r. subst r. unfold ensureInstrumentBySymbol.
  destruct (instrumentBySymbol (instruments st) !! symbol) eqn:Hheld;
    [by left|].
  match goal with |- context [match ?f with Ok _ => _ | Err _ => _ end] =>
    destruct f as [lookup|e] end; [|by left].
  destruct (negb (l_found lookup)); [by left|].
  cbv zeta.
  destruct (instrumentBySymbol (instruments st)
              !! normalizeSymbol
                   (Some (default symbol (l_matched_symbol lookup))));
    [by left|].
  right. simpl.
  match goal with |- context [CreateInstrument ?b] => exists b end.
  destruct (post_instrument _ srv) as [[created|e] srv']; simpl.
  - done.
  - destruct (get_instruments srv'); [|done].
    by destruct (List.find _ _).
Qed.

(** What [onCreate] asks the server to change: at most one instrument,
    and after it at most one transaction, whose body is read off the
    form. *)
Lemma onCreate_mutations (now : Z) (values : TransactionForm)
    (st : PageState) (srv : S) :
  let r := onCreate now values st (srv, @nil Mutation) in
  let isTrade := has TRADE_TYPES (v_type values) in
  let needsInstrument := has INSTRUMENT_REQUIRED_TYPES (v_type values) in
  let needsCounterparty := String.eqb (v_type values) "INTERNAL_TRANSFER" in
  let symbol := normalizeSymbol (v_instrument_symbol values) in
  let q := default Num.zero (v_quantity values) in
  let p := default Num.zero (v_price values) in
  exists created : list Mutation,
    (created = []
     \/ exists ibody,
          created = [CreateInstrument ibody]
          /\ needsInstrument = true
          /\ instrumentBySymbol (instruments st) !! symbol = None
          /\ ip_default_account_id ibody = Some (v_account_id values))
    /\ (r.2.2 = created
        \/ exists body a,
             r.2.2 = created ++ [OnTransactions (PostTransaction body)]
             /\ (error r.1 = NoError \/ exists e, error r.1 = Thrown e)
             /\ p_type body = v_type values
             /\ p_account_id body = v_account_id values
             /\ p_counterparty_account_id body
                = (if needsCounterparty then v_counterparty_account_id values
                   else None)
             /\ (needsCounterparty = true ->
                 exists c, v_counterparty_account_id values = Some c
                           /\ c <> 0)
             /\ (needsInstrument = true <-> is_Some (p_instrument_id body))
             /\ p_quantity body = (if isTrade then Some q else None)
             /\ p_price body = (if isTrade then Some p else None)
             /\ p_amount body = Some a
             /\ a = (if isTrade then round8 (Num.mul q p)
                     else default Num.zero (v_amount values))
             /\ Num.isFinite a = true /\ Num.gtb a Num.zero = true
             /\ p_fee body
                = (if isTrade then default Num.zero (v_fee values)
                   else Num.zero)
             /\ p_tax body
                = (if isTrade then default Num.zero (v_tax values)
                   else Num.zero)
             /\ p_currency body = toUpperCase (v_currency values)
             /\ shanghaiLocalToIso now (v_executed_at values)
                = Some (p_executed_at body)
             /\ p_executed_tz body = SHANGHAI_TZ
             /\ p_note body = v_note values).
Proof.
  intros r isTrade needsInstrument needsCounterparty symbol q p.
  subst r isTrade needsInstrument needsCounterparty.
  unfold onCreate. cbv zeta. fold symbol q p.
  remember (has TRADE_TYPES (v_type values)) as isTrade eqn:HisTrade.
  remember (has INSTRUMENT_REQUIRED_TYPES (v_type values))
    as needsInstrument eqn:Hneeds.
  remember (String.eqb (v_type values) "INTERNAL_TRANSFER")
    as needsCounterparty eqn:Hcounter.
  clear HisTrade Hneeds Hcounter.
  destruct (needsInstrument && String.eqb symbol "");
    [exists []; split; by left|].
  match goal with
  | |- context [if ?c then ensureInstrumentBySymbol ?a ?b ?d ?s ?v else ?alt] =>
      set (ensured := if c then ensureInstrumentBySymbol a b d s v else alt);
      assert (Hlog : ensured.2.2 = []
                     \/ exists ibody,
                          ensured.2.2 = [CreateInstrument ibody]
                          /\ needsInstrument = true
                          /\ instrumentBySymbol (instruments st) !! symbol
                             = None
                          /\ ip_default_account_id ibody = Some b);
      [subst ensured; destruct c eqn:Hc; [|by left];
       apply andb_true_iff in Hc as [Hn _];
       destruct (ensure_mutations a b d s srv []) as [Hs|(ib & Hs & Hh & Hd)];
       [by left | right; exists ib; by rewrite Hs]|];
      assert (Hnone : needsInstrument = false ->
                      ensured.1.1 = EnsureReturned None)
        by (intros Hn; subst ensured; by rewrite Hn)
  end.
  destruct ensured as [[outcome st1] [srv1 log1]].
  cbn [fst snd] in Hlog, Hnone. exists log1. split; [exact Hlog|].
  clear Hlog.
  destruct outcome as [|instrument]; [by left|].
  destruct (needsInstrument && negb (bool_decide (is_Some instrument)))
    eqn:Hins; [by left|].
  match goal with
  | |- context [if ?c then (setError CounterpartyRequired _, _) else _] =>
      destruct c eqn:Hcp
  end; [by left|].
  assert (Hinstr : needsInstrument = true <-> is_Some (i_id <$> instrument)).
  { destruct needsInstrument.
    - cbn [andb] in Hins.
      apply negb_false_iff, bool_decide_eq_true_1 in Hins.
      split; [intros _; by apply fmap_is_Some | done].
    - specialize (Hnone eq_refl). injection Hnone as ->.
      split; [done | by intros [? ?]]. }
  assert (Hparty : needsCounterparty = true ->
                   exists c, v_counterparty_account_id values = Some c
                             /\ c <> 0).
  { intros Hn. rewrite Hn in Hcp. cbn [andb] in Hcp.
    destruct (v_counterparty_account_id values) as [c|]; [|done].
    exists c. split; [done|]. by apply Z.eqb_neq. }
  clear Hins Hcp Hnone.
  assert (Hbool : forall a b c d : bool, a || b || c || d = (a || c) || (b || d))
    by (intros [] [] [] []; reflexivity).
  destruct isTrade; cbn [andb default from_option id].
  - rewrite Hbool, !NumFacts.positive_iff.
    destruct (Num.gtb q Num.zero) eqn:Hq; [|cbn [negb orb]; by left].
    destruct (Num.gtb p Num.zero) eqn:Hp; [|cbn [negb orb]; by left].
    cbn [negb orb].
    match goal with
    | |- context [if ?c then (setError AmountNotPositive _, _) else _] =>
        destruct c eqn:Hamount
    end; [by left|].
    apply NumFacts.finite_positive in Hamount as [Hfin Hpos].
    destruct (shanghaiLocalToIso now (v_executed_at values)) as [iso|];
      [|by left].
    right. simpl.
    match goal with |- context [send (PostTransaction ?b) srv1] =>
      exists b; destruct (send (PostTransaction b) srv1) as [[?|e] srv']
    end.
    all: eexists; simpl; split; [reflexivity|].
    all: split; [first [apply load_error | eauto]|].
    all: by repeat (split; [first [reflexivity | done]|]).
  - match goal with
    | |- context [if ?c then (setError AmountNotPositive _, _) else _] =>
        destruct c eqn:Hamount
    end; [by left|].
    apply NumFacts.finite_positive in Hamount as [Hfin Hpos].
    destruct (shanghaiLocalToIso now (v_executed_at values)) as [iso|];
      [|by left].
    right. simpl.
    match goal with |- context [send (PostTransaction ?b) srv1] =>
      exists b; destruct (send (PostTransaction b) srv1) as [[?|e] srv']
    end.
    all: eexists; simpl; split; [reflexivity|].
    all: split; [first [apply load_error | eauto]|].
    all: by repeat (split; [first [reflexivity | done]|]).
Qed.


(** X6.  When [onCreate] leaves one of the form's own complaints (no
    symbol, no counterparty, no valid quantity and price, no positive
    amount, no valid time) on the page, it has sent no request on
    /transactions.  The one request that can have gone out before the
    complaint is the POST /instruments for a symbol that the page did
    not hold, since the instrument is looked up and created before
    counterparty, quantity, price and amount are checked; for a type
    that names no instrument, and for a symbol that the page holds,
    nothing at all was sent. *)
Theorem onCreate_complaint_posts_no_transaction (now : Z)
    (values : TransactionForm) (st : PageState) (srv : S) :
  let r := onCreate now values st (srv, @nil Mutation) in
  error r.1 ∈ [SymbolRequired; CounterpartyRequired; QuantityPriceRequired;
               AmountNotPositive; InvalidTime] ->
  (forall req, OnTransactions req ∉ r.2.2)
  /\ (r.2.2 = []
      \/ exists ibody,
           r.2.2 = [CreateInstrument ibody]
           /\ has INSTRUMENT_REQUIRED_TYPES (v_type values) = true
           /\ instrumentBySymbol (instruments st)
                !! normalizeSymbol (v_instrument_symbol values) = None).
Proof.
  intros r Herr. subst r.
  destruct (onCreate_mutations now values st srv)
    as (log & Hcreated & [Hlog|(body & a & _ & [Hok|[e He]] & _)]).
  - rewrite Hlog in *.
    destruct Hcreated as [->|(ibody & -> & Hn & Hh & _)].
    + split; [|by left]. intros req Hin. by apply elem_of_nil in Hin.
    + split; [|right; by exists ibody]. intros req Hin.
      by apply list_elem_of_singleton in Hin.
  - rewrite Hok in Herr.
    repeat (apply elem_of_cons in Herr as [Herr|Herr]; [discriminate|]).
    by apply elem_of_nil in Herr.
  - rewrite He in Herr.
    repeat (apply elem_of_cons in Herr as [Herr|Herr]; [discriminate|]).
    by apply elem_of_nil in Herr.
Qed.

(** X7.  The amount that [onCreate] sends is the amount that the effect
    on the quantity and the price has put into the form: the rounded
    product for a BUY or SELL, the amount field as it is otherwise. *)
Theorem onCreate_amount_is_shown (now : Z) (values : TransactionForm)
    (st : PageState) (srv : S) (body : TransactionPayload) :
  body ∈ posted (onCreate now values st (srv, [])).2.2 ->
  p_amount body
  = amountEffect (v_type values) (v_quantity values) (v_price values)
                 (v_amount values).
Proof.
  intros Hbody.
  destruct (onCreate_cases now values st srv) as [Hlog|Hsent].
  { rewrite Hlog in Hbody. by apply elem_of_nil in Hbody. }
  destruct Hsent
    as (body' & a & Hlog & _ & _ & _ & _ & _ & _ & _ & _ & Ha & Hval & Hfin
        & Hpos & Htrade & _).
  rewrite Hlog in Hbody. cbn in Hbody.
  apply list_elem_of_singleton in Hbody as ->. rewrite Ha.
  unfold amountEffect. destruct (has TRADE_TYPES (v_type values)).
  - destruct (Htrade eq_refl) as [Hq Hp]. subst a. cbn [negb].
    destruct (finite_product _ _ Hq Hp Hfin) as [Hfq Hfp].
    by rewrite Hfq, Hfp, !positive_not_leb.
  - cbn [negb]. destruct (v_amount values) as [amount|]; [by rewrite Hval|].
    cbn [default from_option id] in Hval. by rewrite Hval in Hpos.
Qed.


(** X9.  When [ensureInstrumentBySymbol] answers that there is no
    instrument, the page says why: the lookup was rate-limited, found
    nothing or failed, or the instrument could not be created. *)
Theorem ensure_none_is_explained (symbol : string) (accountId : Z)
    (fallbackCurrency : string) (st : PageState) (srv : S) :
  let r := ensureInstrumentBySymbol symbol accountId fallbackCurrency st srv in
  r.1.1 = EnsureReturned None ->
  error r.1.2 = YahooRateLimited
  \/ error r.1.2 = SymbolNotFound symbol
  \/ (exists m, error r.1.2 = YahooFailed m)
  \/ (exists e, error r.1.2 = CreateInstrumentFailed e).
Proof.
  intros r. subst r. unfold ensureInstrumentBySymbol.
  destruct (instrumentBySymbol (instruments st) !! symbol); [done|].
  match goal with |- context [match ?f with Ok _ => _ | Err _ => _ end] =>
    destruct f as [lookup|e] end; [|done].
  destruct (l_found lookup); cbn [negb].
  - cbv zeta.
    destruct (instrumentBySymbol (instruments st)
                !! normalizeSymbol
                     (Some (default symbol (l_matched_symbol lookup))));
      [done|].
    match goal with |- context [post_instrument ?b srv] =>
      destruct (post_instrument b srv) as [[created|e] srv']
    end; [done|].
    destruct (get_instruments srv'); [|done].
    destruct (List.find _ _); [done|]. intros _. simpl. eauto.
  - intros _. cbn [fst snd].
    destruct (String.eqb (l_provider_status lookup) "rate_limited");
      [by left|].
    destruct (String.eqb (l_provider_status lookup) "not_found");
      [by right; left|]. right; right; left. by eexists.
Qed.


(** X11.  Opening the edit form on a row and saving it unchanged sends
    one PATCH for that row that repeats the row: the same type, account,
    instrument, quantity, price, amount, fee, tax and note, the currency
    in upper case, and a date-time that stands for the same instant
    (for an instant on a whole second). *)
Theorem edit_then_save_repeats_row (now : Z) (tx : Transaction)
    (st : PageState) (srv : S) (t : Z) :
  JSDate.Date_parse (tx_executed_at tx) = Some t ->
  wholeSecondInRange t = true ->
  let opened := openEditModal now tx st in
  exists form body,
    editForm opened = Some form
    /\ (onUpdate now form opened (srv, [])).2.2
       = [PatchTransaction (tx_id tx) body]
    /\ p_type body = tx_type tx
    /\ p_account_id body = tx_account_id tx
    /\ p_instrument_id body = tx_instrument_id tx
    /\ p_quantity body = tx_quantity tx
    /\ p_price body = tx_price tx
    /\ p_amount body = Some (tx_amount tx)
    /\ p_fee body = tx_fee tx
    /\ p_tax body = tx_tax tx
    /\ p_note body = tx_note tx
    /\ p_currency body = toUpperCase (tx_currency tx)
    /\ JSDate.Date_parse (p_executed_at body) = Some t.
Proof.
  intros Hp Hw opened. subst opened.
  destruct (DateTimeFacts.iso_local_iso now _ _ Hp Hw) as (iso' & Hiso & Hback).
  exists (mkForm (tx_type tx) (tx_account_id tx) None None
                 (tx_instrument_id tx) (tx_quantity tx) (tx_price tx)
                 (Some (tx_amount tx)) (Some (tx_fee tx)) (Some (tx_tax tx))
                 (tx_currency tx)
                 (isoToShanghaiLocalDateTime now (tx_executed_at tx))
                 (tx_note tx)).
  unfold openEditModal, onUpdate.
  cbn [editForm editingTx setEditing setRowActionLoadingId v_executed_at].
  rewrite Hiso. simpl.
  match goal with |- context [send (PatchTransaction _ ?b) srv] =>
    exists b;
    destruct (send (PatchTransaction (tx_id tx) b) srv) as [[?|e] srv']
  end; simpl; by repeat (split; [done|]).
Qed.

(** X12.  Confirming a delete or a reversal sends exactly one request,
    for that row, and whatever the backend answers the row is no longer
    marked busy afterwards; when the backend refuses, the error is
    shown and the rows on the page stay as they were. *)
Theorem row_request_releases_row (tx : Transaction) (st : PageState)
    (srv : S) :
  let d := onDelete tx st (srv, []) in
  let v := onReverse tx st (srv, []) in
  d.2.2 = [DeleteTransaction (tx_id tx)]
  /\ rowActionLoadingId d.1 = None
  /\ v.2.2 = [ReverseTransaction (tx_id tx)]
  /\ rowActionLoadingId v.1 = None
  /\ (forall e srv', send (DeleteTransaction (tx_id tx)) srv = (Err e, srv') ->
      error d.1 = Thrown e /\ txs d.1 = txs st
      /\ successMessage d.1 = successMessage st)
  /\ (forall e srv', send (ReverseTransaction (tx_id tx)) srv = (Err e, srv') ->
      error v.1 = Thrown e /\ txs v.1 = txs st
      /\ successMessage v.1 = successMessage st).
Proof.
  intros d v. subst d v. unfold onDelete, onReverse. simpl.
  destruct (send (DeleteTransaction (tx_id tx)) srv) as [[?|e1] srv1];
    destruct (send (ReverseTransaction (tx_id tx)) srv) as [[?|e2] srv2];
    simpl; repeat split; try done; by simplify_eq.
Qed.

End WithBackend.

End TransactionsExtra.

Module TransactionsExtraWitnesses.
Import Transactions Wire Samples MoreSamples TransactionsExtra.

#[local] Existing Instance Ledger.specBackend.


Lemma onCreate_complaint_posts_no_transaction_witness :
  error (onCreate 0 blankBuy emptyPage (emptyLedger, @nil Mutation)).1
  = SymbolRequired
  /\ (onCreate 0 blankBuy emptyPage (emptyLedger, @nil Mutation)).2.2 = []
  /\ error (onCreate 0 tinyBuy emptyPage (quotingLedger, @nil Mutation)).1
     = AmountNotPositive
  /\ length (onCreate 0 tinyBuy emptyPage
                      (quotingLedger, @nil Mutation)).2.2 = 1%nat
  /\ (forall req,
        OnTransactions req
        ∉ (onCreate 0 tinyBuy emptyPage (quotingLedger, @nil Mutation)).2.2).
Proof.
  assert (Hblank :
    error (onCreate 0 blankBuy emptyPage (emptyLedger, @nil Mutation)).1
    = SymbolRequired) by (vm_compute; reflexivity).
  assert (Htiny :
    error (onCreate 0 tinyBuy emptyPage (quotingLedger, @nil Mutation)).1
    = AmountNotPositive) by (vm_compute; reflexivity).
  split; [exact Hblank|]. split; [vm_compute; reflexivity|].
  split; [exact Htiny|]. split; [vm_compute; reflexivity|].
  apply (onCreate_complaint_posts_no_transaction 0 tinyBuy emptyPage
           quotingLedger).
  rewrite Htiny. do 3 apply list_elem_of_further. apply list_elem_of_here.
Defined.

Lemma onCreate_amount_is_shown_witness :
  p_amount buyBody
  = amountEffect "BUY" (Some (Num.of_Z 10)) (Some (Num.of_Z 100)) None.
Proof.
  apply (onCreate_amount_is_shown 0 buyForm afterCashIn.1 afterCashIn.2).
  assert (Hlog : posted (onCreate 0 buyForm afterCashIn.1
                           (afterCashIn.2, [])).2.2 = [buyBody])
    by (vm_compute; reflexivity).
  rewrite Hlog. apply list_elem_of_here.
Defined.

Lemma ensure_none_is_explained_witness :
  let r := ensureInstrumentBySymbol "MSFT" 1 "USD" emptyPage unknownLedger in
  error r.1.2 = YahooRateLimited
  \/ error r.1.2 = SymbolNotFound "MSFT"
  \/ (exists m, error r.1.2 = YahooFailed m)
  \/ (exists e, error r.1.2 = CreateInstrumentFailed e).
Proof.
  apply (ensure_none_is_explained "MSFT" 1 "USD" emptyPage unknownLedger).
  vm_compute; reflexivity.
Defined.

Lemma edit_then_save_repeats_row_witness :
  exists form body,
    editForm (openEditModal 0 cashRow emptyPage) = Some form
    /\ (onUpdate 0 form (openEditModal 0 cashRow emptyPage)
                 (emptyLedger, [])).2.2
       = [PatchTransaction 7 body]
    /\ p_amount body = Some (Num.of_Z 10000)
    /\ p_currency body = "CNY"
    /\ JSDate.Date_parse (p_executed_at body) = Some 1710466200000.
Proof.
  destruct (edit_then_save_repeats_row 0 cashRow emptyPage emptyLedger
              1710466200000)
    as (form & body & Hform & Hlog & _ & _ & _ & _ & _ & Hamount & _ & _ & _
        & Hcur & Hat);
    [vm_compute; reflexivity..|].
  exists form, body. repeat (split; [done|]). done.
Defined.

End TransactionsExtraWitnesses.

(** ** The allocation page *)

Module AllocationExtra.
Import Allocation AllocationFacts.

Lemma grouped_nonempty (l : list AllocationNode)
    (m : gmap (option Z) (list AllocationNode)) (key : option Z)
    (group : list AllocationNode) :
  (forall k g, m !! k = Some g -> g <> []) ->
  foldl (fun m node =>
           let key := parent_id node in
           <[key := default [] (m !! key) ++ [node]]> m) m l !! key
  = Some group ->
  group <> [].
Proof.
  revert m. induction l as [|a l IH]; intros m Hm; simpl; [by apply Hm|].
  apply IH. intros k g Hk.
  destruct (decide (parent_id a = k)) as [<-|Hne].
  - rewrite lookup_insert_eq in Hk. injection Hk as <-.
    by destruct (default [] (m !! parent_id a)).
  - rewrite lookup_insert_ne in Hk by done. by eapply Hm.
Qed.

(** X13.  The two ways in which the page finds the children of a node
    agree: the group that [childrenMap] keeps under a parent id is the
    list that [getSiblingNodes] answers for it, in the same order, and
    [childrenMap] keeps no empty group. *)
Theorem children_agree `{Collator} (nodes : list AllocationNode)
    (parentId : option Z) :
  default [] (childrenMap nodes !! parentId) = getSiblingNodes nodes parentId
  /\ (forall group, childrenMap nodes !! parentId = Some group ->
        group <> [])
  /\ (childrenMap nodes !! parentId = None
      <-> forall n, n ∈ nodes -> parent_id n <> parentId).
Proof.
  unfold childrenMap, getSiblingNodes. rewrite lookup_fmap.
  pose proof (grouped_lookup nodes ∅ parentId) as Hg.
  rewrite lookup_empty in Hg. simpl in Hg.
  pose proof (grouped_nonempty nodes ∅ parentId) as Hne.
  destruct (foldl _ _ _ !! parentId) as [group|] eqn:Hfold; simpl in *.
  - assert (Hgroup : group <> [])
      by (apply Hne; [by intros ? ? ?%lookup_empty_Some | done]).
    split; [by rewrite Hg|]. split.
    + intros g [= <-] Hnil. apply Hgroup.
      apply Permutation_nil_r. by rewrite <- Hnil, sortBy_perm.
    + split; [done|]. intros Hno. exfalso.
      destruct group as [|m group]; [done|].
      assert (Hm : m ∈ filter (fun n => parent_id n = parentId) nodes)
        by (rewrite <- Hg; apply list_elem_of_here).
      apply list_elem_of_filter in Hm as [Hp Hm]. by apply (Hno m).
  - split; [by rewrite <- Hg|]. split; [done|]. split; [|done].
    intros _ n Hn Hp.
    assert (Hin : n ∈ filter (fun n => parent_id n = parentId) nodes)
      by by apply list_elem_of_filter.
    rewrite <- Hg in Hin. by apply elem_of_nil in Hin.
Qed.

(** X14.  The page offers to bind instruments to the selected node
    exactly when that node is one of [leafNodes]: the test on
    [childrenMap] and the filter on the set of parent ids agree. *)
Theorem leaf_tests_agree `{Collator} {S : Type} `{Backend S}
    (st : PageState) (node : AllocationNode) :
  selectedNode st = Some node ->
  selectedNodeCanBindInstruments st = bool_decide (node ∈ leafNodes (nodes st)).
Proof.
  intros Hsel. pose proof (canBind_iff_leaf st node Hsel) as Hiff.
  destruct (selectedNodeCanBindInstruments st).
  - symmetry. apply bool_decide_eq_true_2. by apply Hiff.
  - symmetry. apply bool_decide_eq_false_2. intros Hleaf.
    by apply Hiff in Hleaf.
Qed.

Lemma drafts_cleared (l : list AllocationNode) (m : gmap Z number) (k : Z) :
  foldl (fun m item => delete (id item) m) m l !! k
  = if bool_decide (k ∈ map id l) then None else m !! k.
Proof.
  revert m. induction l as [|a l IH]; intros m; cbn [foldl map].
  - by rewrite bool_decide_eq_false_2 by apply not_elem_of_nil.
  - rewrite IH. destruct (decide (k = id a)) as [->|Hne].
    + rewrite lookup_delete_eq.
      rewrite (bool_decide_eq_true_2 (id a ∈ id a :: map id l))
        by apply list_elem_of_here.
      by case_bool_decide.
    + rewrite lookup_delete_ne by done.
      rewrite (bool_decide_ext (k ∈ id a :: map id l) (k ∈ map id l));
        [done|].
      rewrite elem_of_cons. split; [by intros [?|?] | by right].
Qed.

Lemma load_keeps_drafts {S : Type} `{Backend S} (srv : S) (st : PageState) :
  nodeWeightDrafts (load srv st) = nodeWeightDrafts st
  /\ messageText (load srv st) = messageText st.
Proof. unfold load. by destruct (get_all srv). Qed.

(** X15.  [saveNodeSiblingWeights] under a parent without children does
    nothing at all.  When the batch goes out and the backend accepts it,
    the weights typed for those children are forgotten and the weights
    typed for other nodes are kept; when the backend refuses it, its
    answer is shown and every typed weight is kept. *)
Theorem saveNodeSiblingWeights_drafts `{Collator} {S : Type} `{Backend S}
    (parentId : option Z) (st : PageState) (srv : S) :
  let siblings := getSiblingNodes (nodes st) parentId in
  let r := saveNodeSiblingWeights parentId st srv in
  (siblings = [] -> r = (st, srv))
  /\ (siblings <> [] -> isHundred (proposedTotal st parentId) = true ->
      match patch_weights_batch parentId (proposedWeights st parentId) srv with
      | (Ok _, srv') =>
          r.2 = srv' /\ messageText r.1 = WeightsUpdated
          /\ forall k,
               nodeWeightDrafts r.1 !! k
               = if bool_decide (k ∈ map id siblings) then None
                 else nodeWeightDrafts st !! k
      | (Err e, srv') =>
          r.2 = srv' /\ error r.1 = e /\ nodes r.1 = nodes st
          /\ nodeWeightDrafts r.1 = nodeWeightDrafts st
          /\ messageText r.1 = messageText st
      end).
Proof.
  intros siblings r. subst r. unfold saveNodeSiblingWeights.
  fold siblings. split.
  - by intros ->.
  - intros Hne Hsum. unfold proposedTotal, proposedWeights in *.
    fold siblings in Hsum |- *.
    destruct siblings as [|a l] eqn:Hs; [done|].
    cbn [length Nat.eqb]. rewrite Hsum. cbn [negb].
    destruct (patch_weights_batch parentId _ srv) as [[u|e] srv']; [|done].
    split; [done|]. destruct (load_keeps_drafts srv'
      (mkPage (nodes st) (instruments st) (error st) WeightsUpdated
              (loading st) (selectedNodeId st)
              (foldl (fun m item => delete (id item) m)
                     (nodeWeightDrafts st) (a :: l))
              (leafInstrumentDraftId st) (instrumentSavingId st)
              (toasts st))) as [Hd Hm].
    cbn [fst]. rewrite Hd, Hm. split; [done|]. intros k.
    cbn [nodeWeightDrafts]. apply drafts_cleared.
Qed.

(** X16.  For an allocation tree, [nodeGlobalWeightMap] holds a weight
    for every node and for nothing else. *)
Theorem nodeGlobalWeightMap_domain (nodes : list AllocationNode) :
  isForest nodes = true ->
  exists M : gmap Z number,
    nodeGlobalWeightMap nodes = Some M
    /\ forall k, is_Some (M !! k) <-> k ∈ map id nodes.
Proof.
  intros [Hnd Hchain]%isForest_spec.
  assert (Hkeys : keysById (nodeMap nodes)).
  { intros k n Hk. by apply nodeMap_lookup in Hk as [_ ?]. }
  destruct (forEach_calc_sound (length nodes) (nodeMap nodes) nodes ∅ Hkeys)
    as (M & Hfold & Hsound & _ & Hall).
  { intros k w Hk. by rewrite lookup_empty in Hk. }
  { intros n Hn. split; [by apply nodeMap_lookup_NoDup | by apply Hchain]. }
  exists M. split; [exact Hfold|]. intros k. split.
  - intros [w Hw]. destruct (Hsound k w Hw) as (n & f & Hn & _).
    apply nodeMap_lookup in Hn as [Hin <-]. by apply list_elem_of_fmap_2.
  - intros (n & -> & Hn)%list_elem_of_fmap. rewrite (Hall n Hn).
    by apply chainEnds_globalWeight, Hchain.
Qed.

Lemma calc_self_parent (stack : nat) (nm : gmap Z AllocationNode)
    (node : AllocationNode) (memo : gmap Z number) :
  nm !! id node = Some node -> parent_id node = Some (id node) ->
  memo !! id node = None ->
  calc stack nm node memo = None.
Proof.
  intros Hn Hp Hm. induction stack as [|stack IH]; [done|].
  cbn [calc]. by rewrite Hm, Hp, Hn, IH.
Qed.

(** A call of [calc] that comes back has memoised nothing for a node
    that is its own parent. *)
Lemma calc_skips_self_parent (stack : nat) (nm : gmap Z AllocationNode)
    (node x : AllocationNode) (memo memo' : gmap Z number) (w : number) :
  keysById nm -> nm !! id node = Some node ->
  parent_id node = Some (id node) -> nm !! id x = Some x ->
  memo !! id node = None ->
  calc stack nm x memo = Some (w, memo') -> memo' !! id node = None.
Proof.
  intros Hkeys Hn Hp. revert x memo memo' w.
  induction stack as [|stack IH]; intros x memo memo' w Hx Hm Hcalc; [done|].
  cbn [calc] in Hcalc.
  assert (Hsame : id x = id node -> x = node) by (intros Hid; congruence).
  destruct (memo !! id x) as [v|] eqn:Hmx; [by simplify_eq|].
  destruct (parent_id x) as [pid|] eqn:Hpx.
  - destruct (nm !! pid) as [parent|] eqn:Hparent.
    + destruct (calc stack nm parent memo) as [[pw memo1]|] eqn:Hrec; [|done].
      injection Hcalc as <- <-.
      pose proof (Hkeys _ _ Hparent) as Hpid. subst pid.
      destruct (decide (id x = id node)) as [Hid|Hne].
      * apply Hsame in Hid as ->.
        assert (parent = node) as -> by congruence.
        by rewrite calc_self_parent in Hrec.
      * rewrite lookup_insert_ne by done. by eapply IH.
    + injection Hcalc as <- <-.
      destruct (decide (id x = id node)) as [Hid|Hne];
        [apply Hsame in Hid as ->; congruence|].
      by rewrite lookup_insert_ne.
  - injection Hcalc as <- <-.
    destruct (decide (id x = id node)) as [Hid|Hne];
      [apply Hsame in Hid as ->; congruence|].
    by rewrite lookup_insert_ne.
Qed.

Lemma forEach_calc_none (stack : nat) (nm : gmap Z AllocationNode)
    (l : list AllocationNode) :
  foldl (fun acc node =>
           match acc with
           | None => None
           | Some map => snd <$> calc stack nm node map
           end) None l = None.
Proof. by induction l. Qed.

Lemma forEach_calc_self_parent (stack : nat) (nm : gmap Z AllocationNode)
    (node : AllocationNode) (l : list AllocationNode) (memo : gmap Z number) :
  keysById nm -> nm !! id node = Some node ->
  parent_id node = Some (id node) ->
  (forall x, x ∈ l -> nm !! id x = Some x) -> node ∈ l ->
  memo !! id node = None ->
  foldl (fun acc node =>
           match acc with
           | None => None
           | Some map => snd <$> calc stack nm node map
           end) (Some memo) l = None.
Proof.
  intros Hkeys Hn Hp. revert memo.
  induction l as [|a l IH]; intros memo Hall Hin Hm.
  - by apply elem_of_nil in Hin.
  - cbn [foldl].
    destruct (calc stack nm a memo) as [[w memo']|] eqn:Hcalc;
      [|apply forEach_calc_none].
    cbn [fmap option_fmap option_map snd].
    apply elem_of_cons in Hin as [<-|Hin];
      [by rewrite calc_self_parent in Hcalc|].
    apply IH; [|done|].
    + intros x Hx. apply Hall. by apply elem_of_cons; right.
    + eapply calc_skips_self_parent; [done..| |done|exact Hcalc].
      apply Hall, list_elem_of_here.
Qed.

(** X17.  [calc] has no guard against a cycle: when one of the nodes
    names itself as parent, the recursion on it never comes back, and
    [nodeGlobalWeightMap] yields no map at all. *)
Theorem nodeGlobalWeightMap_self_parent (nodes : list AllocationNode)
    (node : AllocationNode) :
  NoDup (map id nodes) -> node ∈ nodes -> parent_id node = Some (id node) ->
  nodeGlobalWeightMap nodes = None
  /\ forall stack, calc stack (nodeMap nodes) node ∅ = None.
Proof.
  intros Hnd Hin Hp.
  assert (Hkeys : keysById (nodeMap nodes)).
  { intros k n Hk. by apply nodeMap_lookup in Hk as [_ ?]. }
  assert (Hn : nodeMap nodes !! id node = Some node)
    by by apply nodeMap_lookup_NoDup.
  split; [|intros stack; by apply calc_self_parent].
  apply (forEach_calc_self_parent _ _ node); try done.
  intros x Hx. by apply nodeMap_lookup_NoDup.
Qed.

End AllocationExtra.

Module AllocationExtraWitnesses.
Import Allocation AllocationServer Samples MoreSamples AllocationFacts
  AllocationExtra.

Lemma leaf_tests_agree_witness :
  selectedNodeCanBindInstruments (samplePageAt (Some 3) (Num.of_Z 45) None)
  = bool_decide (mkNode 3 (Some 1) "us" (Num.of_Z 50) 0 ∈ leafNodes sampleNodes).
Proof.
  apply (leaf_tests_agree (S := ServerState)
           (samplePageAt (Some 3) (Num.of_Z 45) None)).
  vm_compute; reflexivity.
Defined.

Lemma nodeGlobalWeightMap_domain_witness :
  exists M : gmap Z number,
    nodeGlobalWeightMap sampleNodes = Some M
    /\ forall k, is_Some (M !! k) <-> k ∈ map id sampleNodes.
Proof. apply nodeGlobalWeightMap_domain. vm_compute; reflexivity. Defined.

Lemma nodeGlobalWeightMap_self_parent_witness :
  nodeGlobalWeightMap (sampleNodes ++ [selfParent]) = None
  /\ forall stack,
       calc stack (nodeMap (sampleNodes ++ [selfParent])) selfParent ∅ = None.
Proof.
  apply nodeGlobalWeightMap_self_parent.
  - apply (bool_decide_eq_true_1
             (NoDup (map id (sampleNodes ++ [selfParent])))).
    vm_compute; reflexivity.
  - apply elem_of_app. right. apply list_elem_of_here.
  - reflexivity.
Defined.

End AllocationExtraWitnesses.

(** ** Walks up the allocation tree *)

Module TreeExtra.
Import Allocation Tree AllocationFacts.

Lemma climb_mono (n m : nat) (nm : gmap Z AllocationNode)
    (c r : AllocationNode) :
  climb n nm c = Some r -> (n <= m)%nat -> climb m nm c = Some r.
Proof.
  revert m c. induction n as [|n IH]; intros m c Hc Hle; [done|].
  destruct m as [|m]; [lia|]. cbn [climb] in *.
  destruct (parent_id c) as [pid|]; [|done].
  destruct (nm !! pid) as [p|]; [|done]. apply IH; [done | lia].
Qed.

(** Where the chain of parents ends, [climb] answers its last node. *)
Lemma climb_top (n : nat) (nm : gmap Z AllocationNode) (c : AllocationNode) :
  keysById nm -> nm !! id c = Some c -> chainEnds n nm c = true ->
  exists r,
    climb n nm c = Some r /\ nm !! id r = Some r
    /\ match parent_id r with
       | None => True
       | Some pid => nm !! pid = None
       end.
Proof.
  intros Hkeys. revert c. induction n as [|n IH]; intros c Hc Hends; [done|].
  cbn [climb chainEnds] in *.
  destruct (parent_id c) as [pid|] eqn:Hp.
  - destruct (nm !! pid) as [p|] eqn:Hpl.
    + apply IH; [|done]. by rewrite (Hkeys _ _ Hpl).
    + exists c. by rewrite Hp.
  - exists c. by rewrite Hp.
Qed.

Lemma climb_of_top (n : nat) (nm : gmap Z AllocationNode)
    (r : AllocationNode) :
  match parent_id r with
  | None => True
  | Some pid => nm !! pid = None
  end ->
  climb (Datatypes.S n) nm r = Some r.
Proof.
  intros Htop. cbn [climb]. destruct (parent_id r) as [pid|]; [|done].
  by rewrite Htop.
Qed.

(** X18.  In an allocation tree [getRootNode] ends.  It answers null
    for an id that names no node, and otherwise a node of the tree whose
    parent id is null or names no node; that node is its own root, a
    node without parent is its own root, and a node has the root of its
    parent. *)
Theorem getRootNode_top (nodes : list AllocationNode) (nodeId : Z) :
  isForest nodes = true ->
  let nm := nodeMap nodes in
  let steps := length nodes in
  match nm !! nodeId with
  | None => getRootNode steps nodeId nm = Some None
  | Some node =>
      exists root,
        getRootNode steps nodeId nm = Some (Some root)
        /\ root ∈ nodes
        /\ match parent_id root with
           | None => True
           | Some pid => nm !! pid = None
           end
        /\ getRootNode steps (id root) nm = Some (Some root)
        /\ (parent_id node = None -> root = node)
        /\ (forall pid parent,
              parent_id node = Some pid -> nm !! pid = Some parent ->
              getRootNode steps pid nm = Some (Some root))
  end.
Proof.
  intros [Hnd Hchain]%isForest_spec nm steps.
  assert (Hkeys : keysById nm).
  { intros k n Hk. by apply nodeMap_lookup in Hk as [_ ?]. }
  unfold getRootNode. destruct (nm !! nodeId) as [node|] eqn:Hnode; [|done].
  pose proof (nodeMap_lookup _ _ _ Hnode) as [Hin Hid].
  assert (Hself : nm !! id node = Some node) by (by rewrite Hid).
  destruct (climb_top steps nm node Hkeys Hself (Hchain node Hin))
    as (root & Hclimb & Hroot & Htop).
  exists root. rewrite Hclimb, Hroot.
  pose proof (nodeMap_lookup _ _ _ Hroot) as [Hrin _].
  assert (Hsteps : exists k, steps = Datatypes.S k).
  { subst steps. destruct nodes; [by apply elem_of_nil in Hin | by eexists]. }
  destruct Hsteps as [k Hk].
  split; [done|]. split; [done|]. split; [done|]. split.
  { rewrite Hk, climb_of_top by done. done. }
  split.
  - intros Hp. rewrite Hk in Hclimb. cbn [climb] in Hclimb.
    rewrite Hp in Hclimb. by injection Hclimb as <-.
  - intros pid parent Hp Hpl. rewrite Hpl.
    rewrite Hk in Hclimb. cbn [climb] in Hclimb.
    rewrite Hp, Hpl in Hclimb.
    rewrite (climb_mono k steps nm parent root Hclimb) by lia. done.
Qed.

Lemma descendTo_sound (steps : nat) (nm : gmap Z AllocationNode)
    (ancestorId : Z) (current c : AllocationNode) :
  keysById nm -> nm !! id current = Some current ->
  descendTo steps nm ancestorId current = Some (Some c) ->
  parent_id c = Some ancestorId /\ nm !! id c = Some c.
Proof.
  intros Hkeys. revert current.
  induction steps as [|steps IH]; intros current Hcur Hd; [done|].
  cbn [descendTo] in Hd.
  destruct (parent_id current) as [pid|] eqn:Hp; [|done].
  destruct (Z.eqb_spec pid ancestorId) as [->|Hne].
  - by injection Hd as <-.
  - destruct (nm !! pid) as [p|] eqn:Hpl; [|done].
    apply (IH p); [|done]. by rewrite (Hkeys _ _ Hpl).
Qed.

Lemma descendTo_ends (steps : nat) (nm : gmap Z AllocationNode)
    (ancestorId : Z) (current : AllocationNode) :
  chainEnds steps nm current = true ->
  is_Some (descendTo steps nm ancestorId current).
Proof.
  revert current. induction steps as [|steps IH]; intros current Hc; [done|].
  cbn [descendTo chainEnds] in *.
  destruct (parent_id current) as [pid|]; [|done].
  destruct (pid =? ancestorId); [done|].
  destruct (nm !! pid) as [p|]; [|done]. by apply IH.
Qed.

(** X19.  In an allocation tree [getDirectChildUnderNode] ends; the
    node it answers is a node of the tree whose parent is the ancestor
    asked for, and a node whose own parent is that ancestor is answered
    itself. *)
Theorem getDirectChildUnderNode_child (nodes : list AllocationNode)
    (leafNodeId ancestorId : Z) :
  isForest nodes = true ->
  let nm := nodeMap nodes in
  let r := getDirectChildUnderNode (length nodes) leafNodeId ancestorId nm in
  is_Some r
  /\ (forall child, r = Some (Some child) ->
        child ∈ nodes /\ parent_id child = Some ancestorId)
  /\ (forall leaf, nm !! leafNodeId = Some leaf ->
        parent_id leaf = Some ancestorId -> r = Some (Some leaf)).
Proof.
  intros [Hnd Hchain]%isForest_spec nm r. subst r.
  assert (Hkeys : keysById nm).
  { intros k n Hk. by apply nodeMap_lookup in Hk as [_ ?]. }
  unfold getDirectChildUnderNode.
  destruct (nm !! leafNodeId) as [leaf|] eqn:Hleaf.
  - pose proof (nodeMap_lookup _ _ _ Hleaf) as [Hin Hid].
    assert (Hself : nm !! id leaf = Some leaf) by (by rewrite Hid).
    split; [by apply descendTo_ends, Hchain|]. split.
    + intros child Hd.
      destruct (descendTo_sound _ _ _ _ _ Hkeys Hself Hd) as [Hp Hc].
      split; [|done]. by apply nodeMap_lookup in Hc as [? _].
    + intros ? [= <-] Hp.
      destruct nodes as [|a l]; [by apply elem_of_nil in Hin|].
      cbn [length descendTo]. by rewrite Hp, Z.eqb_refl.
  - split; [done|]. split; [done | done].
Qed.

Lemma string_app_assoc (a b c : string) :
  ((a ++ b) ++ c)%string = (a ++ (b ++ c))%string.
Proof.
  induction a as [|x a IH]; [done|].
  change (String x (((a ++ b) ++ c))%string = String x (a ++ (b ++ c))%string).
  by rewrite IH.
Qed.

Lemma joinPath_snoc (l : list string) (x : string) :
  l <> [] -> joinPath (l ++ [x]) = (joinPath l ++ " / " ++ x)%string.
Proof.
  unfold joinPath. induction l as [|y l IH]; [done|]. intros _.
  destruct l as [|z l]; [done|].
  change (String.concat " / " ((y :: z :: l) ++ [x]))
    with (y ++ " / " ++ String.concat " / " ((z :: l) ++ [x]))%string.
  rewrite IH by done.
  change (String.concat " / " (y :: z :: l))
    with (y ++ " / " ++ String.concat " / " (z :: l))%string.
  by rewrite !string_app_assoc.
Qed.

Lemma pathNames_acc (steps : nat) (nm : gmap Z AllocationNode)
    (parentId : option Z) (path : list string) :
  pathNames steps nm parentId path
  = (fun l => l ++ path) <$> pathNames steps nm parentId [].
Proof.
  revert parentId path.
  induction steps as [|steps IH]; intros parentId path; [done|].
  cbn [pathNames]. destruct parentId as [pid|]; [|done].
  destruct (nm !! pid) as [p|]; [|done].
  rewrite (IH _ (name p :: path)), (IH _ [name p]).
  rewrite <- option_fmap_compose. apply option_fmap_ext.
  intros l. cbn. by rewrite <- app_assoc.
Qed.

Lemma pathNames_mono (n m : nat) (nm : gmap Z AllocationNode)
    (parentId : option Z) (path names : list string) :
  pathNames n nm parentId path = Some names -> (n <= m)%nat ->
  pathNames m nm parentId path = Some names.
Proof.
  revert m parentId path.
  induction n as [|n IH]; intros m parentId path Hp Hle; [done|].
  destruct m as [|m]; [lia|]. cbn [pathNames] in *.
  destruct parentId as [pid|]; [|done].
  destruct (nm !! pid) as [p|]; [|done]. apply IH; [done | lia].
Qed.

Lemma pathNames_ends (steps : nat) (nm : gmap Z AllocationNode)
    (node : AllocationNode) (path : list string) :
  chainEnds steps nm node = true ->
  is_Some (pathNames steps nm (parent_id node) path).
Proof.
  revert node path.
  induction steps as [|steps IH]; intros node path Hc; [done|].
  cbn [pathNames chainEnds] in *.
  destruct (parent_id node) as [pid|]; [|done].
  destruct (nm !! pid) as [p|]; [|done]. by apply IH.
Qed.

(** X20.  In an allocation tree [buildAllocationNodePath] ends: the
    path of a node without a known parent is its own name, and the path
    of any other node is the path of its parent, " / " and its own
    name. *)
Theorem buildAllocationNodePath_parent (nodes : list AllocationNode)
    (node : AllocationNode) :
  isForest nodes = true -> node ∈ nodes ->
  let nm := nodeMap nodes in
  let steps := length nodes in
  match parent_id node ≫= (nm !!.) with
  | None => buildAllocationNodePath steps node nm = Some (name node)
  | Some parent =>
      exists above,
        buildAllocationNodePath steps parent nm = Some above
        /\ buildAllocationNodePath steps node nm
           = Some (above ++ " / " ++ name node)%string
  end.
Proof.
  intros [Hnd Hchain]%isForest_spec Hin nm steps.
  unfold buildAllocationNodePath.
  assert (Hsteps : exists k, steps = Datatypes.S k).
  { subst steps. destruct nodes; [by apply elem_of_nil in Hin | by eexists]. }
  destruct Hsteps as [k Hk].
  destruct (parent_id node) as [pid|] eqn:Hp; cbn [mbind option_bind];
    [|by rewrite Hk].
  destruct (nm !! pid) as [parent|] eqn:Hpl; [|by rewrite Hk; cbn; rewrite Hpl].
  pose proof (nodeMap_lookup _ _ _ Hpl) as [Hpin _].
  destruct (pathNames_ends steps nm parent [name parent] (Hchain parent Hpin))
    as [names Hnames].
  pose proof (Hchain node Hin) as Hc. fold steps nm in Hc. rewrite Hk in Hc.
  cbn [chainEnds] in Hc. rewrite Hp, Hpl in Hc.
  destruct (pathNames_ends k nm parent [name parent] Hc) as [names' Hk'].
  pose proof (pathNames_mono k steps nm _ _ _ Hk' ltac:(lia)) as Hagree.
  rewrite Hnames in Hagree. injection Hagree as <-.
  exists (joinPath names). rewrite Hnames. split; [done|].
  rewrite Hk. cbn [pathNames]. rewrite Hpl.
  rewrite pathNames_acc in Hk' |- *.
  destruct (pathNames k nm (parent_id parent) []) as [l|]; [|done].
  cbn in Hk' |- *. injection Hk' as <-. f_equal.
  replace (l ++ [name parent; name node])
    with ((l ++ [name parent]) ++ [name node]) by (by rewrite <- app_assoc).
  apply joinPath_snoc. by destruct l.
Qed.

(** X21.  [buildNodePath] of the allocation page tests the parent id
    for truth and [buildAllocationNodePath] of the dashboard tests it
    against null: they give the same path whenever no node has the id 0,
    and under a parent with the id 0 the first gives the node's name
    alone while the second puts the parent's name before it. *)
Theorem node_paths_agree (steps : nat) (nm : gmap Z AllocationNode)
    (node : AllocationNode) :
  (nm !! 0 = None ->
   buildNodePath steps node nm = buildAllocationNodePath steps node nm)
  /\ (forall top,
        nm !! 0 = Some top -> parent_id top = None ->
        parent_id node = Some 0 ->
        buildNodePath (2 + steps) node nm = Some (name node)
        /\ buildAllocationNodePath (2 + steps) node nm
           = Some (name top ++ " / " ++ name node)%string).
Proof.
  split.
  - intros Hzero. unfold buildNodePath, buildAllocationNodePath. f_equal.
    generalize (parent_id node), [name node].
    induction steps as [|steps IH]; intros parentId path; [done|].
    cbn [pathNames pathNamesTruthy]. destruct parentId as [pid|]; [|done].
    destruct (Z.eqb_spec pid 0) as [->|Hne]; [by rewrite Hzero|].
    destruct (nm !! pid); [apply IH | done].
  - intros top Htop Hroot Hp.
    unfold buildNodePath, buildAllocationNodePath.
    cbn [Nat.add pathNames pathNamesTruthy]. rewrite Hp. cbn [Z.eqb].
    by rewrite Htop, Hroot.
Qed.

End TreeExtra.

Module TreeExtraWitnesses.
Import Allocation Tree Samples TreeExtra.

Lemma getRootNode_top_witness :
  exists root,
    getRootNode (length sampleNodes) 3 (nodeMap sampleNodes)
    = Some (Some root)
    /\ root ∈ sampleNodes
    /\ getRootNode (length sampleNodes) (id root) (nodeMap sampleNodes)
       = Some (Some root).
Proof.
  pose proof (getRootNode_top sampleNodes 3 eq_refl) as Hroot.
  cbv zeta in Hroot.
  assert (Hnode : nodeMap sampleNodes !! 3
                  = Some (mkNode 3 (Some 1) "us" (Num.of_Z 50) 0))
    by (vm_compute; reflexivity).
  rewrite Hnode in Hroot.
  destruct Hroot as (root & Hget & Hin & _ & Hself & _).
  exists root. by repeat split.
Defined.

Lemma getDirectChildUnderNode_child_witness :
  is_Some (getDirectChildUnderNode (length sampleNodes) 3 1
             (nodeMap sampleNodes)).
Proof.
  exact (proj1 (getDirectChildUnderNode_child sampleNodes 3 1 eq_refl)).
Defined.

Lemma buildAllocationNodePath_parent_witness :
  buildAllocationNodePath (length sampleNodes)
    (mkNode 3 (Some 1) "us" (Num.of_Z 50) 0) (nodeMap sampleNodes)
  = Some "equity / us".
Proof.
  pose proof (buildAllocationNodePath_parent sampleNodes
                (mkNode 3 (Some 1) "us" (Num.of_Z 50) 0) eq_refl) as Hpath.
  cbv zeta in Hpath.
  assert (Hparent : parent_id (mkNode 3 (Some 1) "us" (Num.of_Z 50) 0)
                      ≫= (nodeMap sampleNodes !!.)
                    = Some (mkNode 1 None "equity" (Num.of_Z 60) 0))
    by (vm_compute; reflexivity).
  rewrite Hparent in Hpath.
  destruct Hpath as (above & Habove & ->); [apply list_elem_of_here|].
  assert (Hname : buildAllocationNodePath (length sampleNodes)
                    (mkNode 1 None "equity" (Num.of_Z 60) 0)
                    (nodeMap sampleNodes) = Some "equity")
    by (vm_compute; reflexivity).
  rewrite Hname in Habove. by injection Habove as <-.
Defined.

End TreeExtraWitnesses.

(** ** The navigation of App *)

Module NavExtra.
Import Nav.

Lemma selectedKey_in_keys (pathname : string) :
  selectedKey pathname ∈ NAV_KEYS.
Proof.
  unfold selectedKey. cbv zeta.
  destruct (String.eqb _ "/"); [apply list_elem_of_here|].
  destruct (List.find _ NAV_KEYS) as [found|] eqn:Hfind;
    [|apply list_elem_of_here].
  apply find_some in Hfind as [Hin _]. by apply list_elem_of_In.
Qed.

Lemma selectedKey_fixes_keys (key : string) :
  key ∈ NAV_KEYS -> selectedKey key = key.
Proof.
  unfold NAV_KEYS. intros Hkey.
  repeat (apply elem_of_cons in Hkey as [->|Hkey]; [vm_compute; reflexivity|]).
  by apply elem_of_nil in Hkey.
Qed.

(** X22.  The menu entry that [selectedKey] marks is always one of the
    entries of the menu.  Every path that starts with the key of an
    entry other than "/" marks that entry, every path that starts with
    "/instruments" marks the holdings entry, and the key of an entry
    marks itself. *)
Theorem selectedKey_marks_entry (pathname rest : string) :
  selectedKey pathname ∈ NAV_KEYS
  /\ selectedKey (selectedKey pathname) = selectedKey pathname
  /\ selectedKey ("/instruments" ++ rest) = "/holdings"
  /\ forall key, key ∈ NAV_KEYS -> key <> "/" ->
       selectedKey (key ++ rest) = key.
Proof.
  split; [apply selectedKey_in_keys|].
  split; [apply selectedKey_fixes_keys, selectedKey_in_keys|].
  split; [by destruct rest|].
  unfold NAV_KEYS. intros key Hkey Hne.
  apply elem_of_cons in Hkey as [->|Hkey]; [done|].
  repeat (apply elem_of_cons in Hkey as [->|Hkey]; [by destruct rest|]).
  by apply elem_of_nil in Hkey.
Qed.

End NavExtra.

(** ** The drift table of the holdings page *)

Module HoldingsExtra.
Import Dashboard Holdings.

(** X23.  With the same keyword, the rows shown under "ALERT_ONLY" and
    under "NORMAL_ONLY" are together the rows shown under "ALL", each
    once; the first are all alerted, the second are all not, and the
    count of alerts above the table under "ALL" is the number of rows
    under "ALERT_ONLY".  Without a keyword "ALL" shows every row. *)
Theorem filteredDrifts_split `{LowerCase} (rows : list DriftItem)
    (keyword : string) :
  filteredDrifts rows "ALL" keyword
  ≡ₚ filteredDrifts rows "ALERT_ONLY" keyword
     ++ filteredDrifts rows "NORMAL_ONLY" keyword
  /\ Forall (fun row => is_alerted row = true)
            (filteredDrifts rows "ALERT_ONLY" keyword)
  /\ Forall (fun row => is_alerted row = false)
            (filteredDrifts rows "NORMAL_ONLY" keyword)
  /\ alertCount (filteredDrifts rows "ALL" keyword)
     = length (filteredDrifts rows "ALERT_ONLY" keyword)
  /\ filteredDrifts rows "ALL" "" = rows.
Proof.
  unfold filteredDrifts, alertCount. cbn [String.eqb Ascii.eqb Bool.eqb negb].
  induction rows as [|row rows (IHp & IHa & IHn & IHc & IHall)];
    [by repeat split|].
  rewrite !filter_cons.
  destruct (if negb (String.eqb keyword "")
            then Transactions.includes (toLowerCase (name row))
                                       (toLowerCase keyword)
            else true) eqn:Hkw;
    destruct (is_alerted row) eqn:Halert; cbn [andb negb];
    repeat (rewrite decide_True by done);
    repeat (rewrite decide_False by done);
    rewrite ?filter_cons, ?Halert;
    repeat (rewrite decide_True by done);
    repeat (rewrite decide_False by done);
    cbn [length app].
  - repeat split; [by rewrite IHp | by constructor | done | by rewrite IHc
                   | by rewrite IHall].
  - repeat split;
      [by rewrite IHp, Permutation_middle | done | by constructor | done
       | by rewrite IHall].
  - by repeat split; try rewrite IHall.
  - by repeat split; try rewrite IHall.
Qed.

End HoldingsExtra.

(** ** The derived figures of the dashboard *)

Module DashboardExtra.
Import Dashboard DashboardFacts.

(** X24.  Once the summary has loaded, the drift chart of the dashboard
    shows at most five nodes: the top drifts are five of the drift
    items, or all of them when there are fewer, each taken from the
    items and none twice; and the count of alerts is at most the number
    of items, and 0 exactly when no item is alerted. *)
Theorem topDrifts_of_items (totalAssets : number)
    (curve : list ReturnCurvePoint) (driftItems : list DriftItem) :
  let d := derived totalAssets curve driftItems in
  length (topDrifts d) = Nat.min 5 (length driftItems)
  /\ topDrifts d ⊆+ driftItems
  /\ ((length driftItems <= 5)%nat -> topDrifts d ≡ₚ driftItems)
  /\ (alertedCount d <= length driftItems)%nat
  /\ (alertedCount d = 0%nat
      <-> Forall (fun item => is_alerted item = false) driftItems).
Proof.
  intros d. subst d. unfold derived. cbn [topDrifts alertedCount].
  set (sorted := sortBy _ driftItems).
  assert (Hperm : sorted ≡ₚ driftItems) by apply AllocationFacts.sortBy_perm.
  split; [by rewrite length_take, Hperm|]. split.
  { rewrite <- Hperm. apply sublist_submseteq, sublist_take. }
  split.
  { intros Hlen. rewrite take_ge; [done|]. by rewrite Hperm. }
  split; [apply length_filter|].
  induction driftItems as [|item items IH] in |- *; [done|].
  rewrite filter_cons, Forall_cons.
  destruct (is_alerted item) eqn:Halert.
  - rewrite decide_True by done. split; [done | by intros [? _]].
  - rewrite decide_False by done. rewrite IH. tauto.
Qed.

(** The days that the chart can draw: those with a rate that is a
    finite number. *)
Lemma curveSeries_filter (points : list ReturnCurvePoint) :
  curveSeries points
  = map (fun p => (date p, default Num.zero (total_return_rate p)))
        (List.filter
           (fun p => match total_return_rate p with
                     | Some rate => Num.isFinite rate
                     | None => false
                     end)
           points).
Proof.
  unfold curveSeries. induction points as [|p points IH]; [done|].
  cbn [omap list_omap List.filter]. rewrite IH.
  destruct (total_return_rate p) as [rate|] eqn:Hrate; [|done].
  destruct (Num.isFinite rate); [|done]. cbn [map]. by rewrite Hrate.
Qed.

(** X25.  The return curve is drawn only when at least two days have
    a rate that is a finite number; it then has exactly one date and one
    value for each such day, in the order of the days: the date as
    [formatShortDate] prints it and the rate rounded to six decimals.
    The days without a rate, wherever they stand, add nothing, and a
    curve of such days only is not drawn. *)
Theorem buildCurveOption_points `{DateLocale} `{JSDate.DateHost}
    (points : list ReturnCurvePoint) :
  let drawn := fun p : ReturnCurvePoint =>
                 match total_return_rate p with
                 | Some rate => Num.isFinite rate
                 | None => false
                 end in
  let usable := List.filter drawn points in
  ((length usable < 2)%nat -> buildCurveOption points = None)
  /\ ((2 <= length usable)%nat ->
      exists option,
        buildCurveOption points = Some option
        /\ dates option = map (fun p => formatShortDate (date p)) usable
        /\ values option
           = map (fun p =>
                    Num.Number_toFixed 6
                      (default Num.zero (total_return_rate p)))
                 usable)
  /\ (Forall (fun p => total_return_rate p = None) points ->
      usable = [] /\ buildCurveOption points = None)
  /\ buildCurveOption usable = buildCurveOption points.
Proof.
  intros drawn usable.
  assert (Hseries : curveSeries points
                    = map (fun p => (date p,
                                     default Num.zero (total_return_rate p)))
                          usable) by apply curveSeries_filter.
  assert (Hlen : length (curveSeries points) = length usable)
    by (by rewrite Hseries, length_map).
  split.
  { intros Hshort. unfold buildCurveOption. cbv zeta. rewrite Hlen.
    by destruct (Nat.ltb_spec (length usable) 2); [|lia]. }
  split.
  { intros Hlong. unfold buildCurveOption. cbv zeta. rewrite Hlen.
    destruct (Nat.ltb_spec (length usable) 2); [lia|].
    eexists. split; [reflexivity|]. cbn [dates values].
    by rewrite Hseries, !map_map. }
  split.
  { intros Hnull.
    assert (Hempty : usable = []).
    { clear Hseries Hlen. subst usable.
      induction Hnull as [|p rest Hp _ IH]; [done|].
      cbn [List.filter]. unfold drawn at 1. by rewrite Hp. }
    split; [done|]. unfold buildCurveOption. cbv zeta.
    by rewrite Hseries, Hempty. }
  unfold buildCurveOption. cbv zeta.
  replace (curveSeries usable) with (curveSeries points); [done|].
  rewrite Hseries, curveSeries_filter. f_equal. subst usable.
  fold drawn. clear. induction points as [|p points IH]; [reflexivity|].
  cbn [List.filter]. destruct (drawn p) eqn:Hp; [|exact IH].
  cbn [List.filter]. rewrite Hp. by f_equal.
Qed.

End DashboardExtra.

(** ** The stored session *)

Module SessionExtra.
Import Session.

Section WithJson.
Context `{Json} `{JSDate.DateHost}.

Lemma parseSession_bearer (raw : string) (session : AuthSession) :
  parseSession raw = Some session -> token_type session = "bearer".
Proof.
  unfold parseSession. destruct (parse raw) as [p|]; [|done].
  destruct (parsed_access_token p), (parsed_expires_at p), (parsed_user p);
    try done.
  by intros [= <-].
Qed.

(** X26.  [getStoredSession] never answers a session whose expiry has
    come, whatever the browser's [Date.parse] reads: a session it answers
    expires after [now] or has an expiry that the browser cannot read,
    and the storage is left as it is; a stored session whose expiry the
    browser reads as [now] or earlier is not answered and is removed
    from the storage.  Reading again gives the same answer and changes
    nothing more. *)
Theorem getStoredSession_fresh (now : Z) (storage : Storage) :
  let r := getStoredSession now storage in
  (forall session, r.1 = Some session ->
     r.2 = storage
     /\ token_type session = "bearer"
     /\ forall expiry,
          JSDate.Date_parse (expires_at session) = Some expiry ->
          now < expiry)
  /\ (forall items raw session expiry,
        storage = Some items ->
        items !! SESSION_KEY = Some raw -> raw <> "" ->
        parseSession raw = Some session ->
        JSDate.Date_parse (expires_at session) = Some expiry ->
        expiry <= now ->
        r = (None, Some (delete SESSION_KEY items)))
  /\ (r.1 = None ->
      r.2 = storage
      \/ exists items session expiry,
           storage = Some items
           /\ (items !! SESSION_KEY) ≫= parseSession = Some session
           /\ JSDate.Date_parse (expires_at session) = Some expiry
           /\ expiry <= now
           /\ r.2 = Some (delete SESSION_KEY items))
  /\ getStoredSession now r.2 = r.
Proof.
  intros r. subst r. split; [|split].
  - intros session. unfold getStoredSession.
    destruct storage as [items|]; [|done].
    destruct (items !! SESSION_KEY) as [raw|]; [|done].
    destruct (String.eqb raw ""); [done|].
    destruct (parseSession raw) as [stored|] eqn:Hparse; [|done].
    destruct (JSDate.Date_parse (expires_at stored)) as [expiry|] eqn:Hexp.
    + destruct (Z.leb_spec expiry now) as [Hle|Hgt]; [done|].
      cbn [fst snd]. intros [= <-]. split; [done|].
      split; [by eapply parseSession_bearer|].
      intros e. rewrite Hexp. by intros [= <-].
    + cbn [fst snd]. intros [= <-]. split; [done|].
      split; [by eapply parseSession_bearer|].
      intros e. by rewrite Hexp.
  - intros items raw session expiry -> Hraw Hblank Hparse Hexp Hle.
    unfold getStoredSession. rewrite Hraw.
    apply String.eqb_neq in Hblank. rewrite Hblank, Hparse, Hexp.
    by destruct (Z.leb_spec expiry now); [|lia].
  - unfold getStoredSession.
    destruct storage as [items|]; [|split; [by left | done]].
    destruct (items !! SESSION_KEY) as [raw|] eqn:Hraw.
    2: { cbn [fst snd]. rewrite Hraw. split; [by left | done]. }
    destruct (String.eqb raw "") eqn:Hblank.
    { cbn [fst snd]. rewrite Hraw, Hblank. split; [by left | done]. }
    destruct (parseSession raw) as [session|] eqn:Hparse.
    2: { cbn [fst snd]. rewrite Hraw, Hblank, Hparse.
         split; [by left | done]. }
    destruct (JSDate.Date_parse (expires_at session)) as [expiry|] eqn:Hexp.
    + destruct (Z.leb_spec expiry now) as [Hle|Hgt]; cbn [fst snd].
      * rewrite lookup_delete_eq. split; [|done].
        intros _. right. exists items, session, expiry.
        rewrite Hraw. cbn [mbind option_bind]. by rewrite Hparse.
      * rewrite Hraw, Hblank, Hparse, Hexp.
        by destruct (Z.leb_spec expiry now) as [Hle|_]; [lia|].
    + cbn [fst snd]. by rewrite Hraw, Hblank, Hparse, Hexp.
Qed.

(** X27.  [saveSession] keeps the user's name for the login form
    exactly when asked to, and forgets a name kept before otherwise.
    [clearSession] removes the session, so that no session and no token
    is read afterwards, and leaves the remembered name.  Right after
    [saveSession], a session that is read back from its own text is
    answered by [getStoredSession] when the browser reads no expiry or
    one after [now], and is removed again when the browser reads an
    expiry that has come. *)
Theorem saveSession_then_read (now : Z) (session : AuthSession)
    (items : gmap string string) :
  getRememberedUsername (saveSession session true (Some items))
  = username (user session)
  /\ getRememberedUsername (saveSession session false (Some items)) = ""
  /\ (forall storage,
        getRememberedUsername (clearSession storage)
        = getRememberedUsername storage
        /\ getStoredSession now (clearSession storage)
           = (None, clearSession storage)
        /\ getAccessToken now (clearSession storage)
           = (None, clearSession storage))
  /\ (forall remember back,
        stringify session <> "" ->
        parseSession (stringify session) = Some back ->
        (forall expiry,
           JSDate.Date_parse (expires_at back) = Some expiry ->
           now < expiry) ->
        getStoredSession now (saveSession session remember (Some items))
        = (Some back, saveSession session remember (Some items)))
  /\ (forall remember back expiry,
        stringify session <> "" ->
        parseSession (stringify session) = Some back ->
        JSDate.Date_parse (expires_at back) = Some expiry ->
        expiry <= now ->
        getStoredSession now (saveSession session remember (Some items))
        = (None, clearSession (saveSession session remember (Some items)))).
Proof.
  assert (Hkeys : SESSION_KEY <> REMEMBERED_USER_KEY) by done.
  assert (Hraw : forall remember : bool,
            (if remember
             then <[REMEMBERED_USER_KEY := username (user session)]>
                    (<[SESSION_KEY := stringify session]> items)
             else delete REMEMBERED_USER_KEY
                    (<[SESSION_KEY := stringify session]> items))
            !! SESSION_KEY = Some (stringify session)).
  { intros [].
    - rewrite lookup_insert_ne by done. by rewrite lookup_insert_eq.
    - rewrite lookup_delete_ne by done. by rewrite lookup_insert_eq. }
  split; [unfold saveSession, getRememberedUsername;
          by rewrite lookup_insert_eq|].
  split; [unfold saveSession, getRememberedUsername;
          by rewrite lookup_delete_eq|].
  split; [|split].
  - intros [stored|]; [|done].
    unfold clearSession, getRememberedUsername, getAccessToken,
      getStoredSession.
    cbn [fmap option_fmap option_map].
    rewrite lookup_delete_ne by done. by rewrite lookup_delete_eq.
  - intros remember back Hblank Hback Hfresh.
    unfold saveSession, getStoredSession.
    rewrite Hraw. apply String.eqb_neq in Hblank. rewrite Hblank, Hback.
    destruct (JSDate.Date_parse (expires_at back)) as [expiry|]; [|done].
    specialize (Hfresh expiry eq_refl).
    by destruct (Z.leb_spec expiry now); [lia|].
  - intros remember back expiry Hblank Hback Hexp Hle.
    unfold saveSession, getStoredSession, clearSession.
    rewrite Hraw. apply String.eqb_neq in Hblank.
    rewrite Hblank, Hback, Hexp.
    by destruct (Z.leb_spec expiry now); [|lia].
Qed.

End WithJson.

End SessionExtra.

Module SessionExtraWitnesses.
Import Session SessionSamples SessionExtra.

#[local] Existing Instance sampleJson.
#[local] Existing Instance shanghaiHost.

Lemma getStoredSession_fresh_witness :
  let stale := saveSession (sampleSession "2020-01-01T00:00:00") false
                           (Some ∅) in
  let fresh := saveSession (sampleSession "2099-01-01T00:00:00") false
                           (Some ∅) in
  getStoredSession 1900000000000 stale = (None, clearSession stale)
  /\ (getStoredSession 1900000000000 fresh).1
     = Some (sampleSession "2099-01-01T00:00:00")
  /\ (getStoredSession 1900000000000 fresh).2 = fresh.
Proof.
  cbv zeta. split.
  - refine (proj1 (proj2 (getStoredSession_fresh 1900000000000 _))
              (<[SESSION_KEY := "t0k3n 2020-01-01T00:00:00"]> ∅)
              "t0k3n 2020-01-01T00:00:00"
              (sampleSession "2020-01-01T00:00:00") 1577808000000
              _ _ _ _ _ _); vm_compute; try reflexivity; discriminate.
  - assert (Hread :
      (getStoredSession 1900000000000
         (saveSession (sampleSession "2099-01-01T00:00:00") false (Some ∅))).1
      = Some (sampleSession "2099-01-01T00:00:00"))
      by (vm_compute; reflexivity).
    split; [exact Hread|].
    exact (proj1 (proj1 (getStoredSession_fresh 1900000000000 _) _ Hread)).
Defined.

Lemma saveSession_then_read_witness :
  getRememberedUsername
    (saveSession (sampleSession "2099-01-01T00:00:00") true (Some ∅))
  = "alice"
  /\ getStoredSession 1900000000000
       (saveSession (sampleSession "2020-01-01T00:00:00") true (Some ∅))
     = (None,
        clearSession
          (saveSession (sampleSession "2020-01-01T00:00:00") true (Some ∅))).
Proof.
  split.
  - exact (proj1 (saveSession_then_read
                    0 (sampleSession "2099-01-01T00:00:00") ∅)).
  - refine (proj2 (proj2 (proj2 (proj2
              (saveSession_then_read
                 1900000000000 (sampleSession "2020-01-01T00:00:00") ∅))))
              true (sampleSession "2020-01-01T00:00:00") 1577808000000
              _ _ _ _); vm_compute; try reflexivity; discriminate.
Defined.

End SessionExtraWitnesses.
